(** * Task-management chat agent: tool registry, intent resolver,
    confirmation gate and response formatter

  Shallow embedding of [agent/openai_agent.py] and of the records of
  [models/database_models.py] it works on.

  Conventions of the embedding.
  - A Python [str] is a [string]; a character is a code point below 256
    (the Latin-1 range), which is where [str.lower], [str.strip] and the
    regular-expression class [\d] are tabulated below.
  - A Python [int] is a [Z].
  - An argument dictionary is an insertion-ordered association list,
    because [_format_confirmation_message] iterates over [items()].
  - The SQLModel session is the finite map of the rows it holds, one map
    per table, keyed by primary key.  Objects handed out by the session
    are the rows themselves: an attribute assignment on such an object
    is an update of the row in the map.
  - [int(s)] refuses a text of more than 4300 digits, the default limit
    of CPython on the conversion of a decimal text.
  - [session.get] finds a row by its key.  For an integer that names no
    row and is outside the signed 64-bit range it raises the
    [OverflowError] of the sqlite3 driver.  A text as identity is
    compared by SQLite after its numeric conversion: that conversion is
    an oracle, [text_key], carried in the state.
  - [session.commit] fails with [IntegrityError] when a column declared
    without [Optional] is [None]; the tables are then as they were when
    the executor was entered.  Two things stay outside the model: any
    other failure of the driver on the values of a row (a row keeps the
    values the executor gave it), and the use of a session between a
    failed commit and its rollback.
  - [datetime.utcnow] is a clock oracle carried in the state.
  - [raise] is the left injection of a sum; [try ... except Exception]
    is a case analysis on it. *)

From Stdlib Require Import ZArith Ascii String List Bool Lia.
From stdpp Require Import base option list sorting gmap strings pretty.

Local Open Scope Z_scope.

(* ===================================================================== *)
(** ** Python string primitives *)
(* ===================================================================== *)

Module PyStr.

Definition code (c : ascii) : N := N_of_ascii c.

(** [c.isdigit()] as used by [\d]: the decimal digits. *)
Definition is_digit (c : ascii) : bool :=
  ((48 <=? code c) && (code c <=? 57))%N.

(** [c.isspace()] on code points below 256. *)
Definition is_space (c : ascii) : bool :=
  let n := code c in
  (((9 <=? n) && (n <=? 13)) || ((28 <=? n) && (n <=? 32))
   || (n =? 133) || (n =? 160))%N.

(** [c.lower()] on code points below 256: A-Z and the accented capitals
    0xC0-0xDE (the multiplication sign 0xD7 apart) move up by 32. *)
Definition lower_char (c : ascii) : ascii :=
  let n := code c in
  if (((65 <=? n) && (n <=? 90))
      || ((192 <=? n) && (n <=? 222) && negb (n =? 215)))%N
  then ascii_of_N (n + 32) else c.

(** [s.lower()] *)
Fixpoint lower (s : string) : string :=
  match s with
  | EmptyString => EmptyString
  | String c s' => String (lower_char c) (lower s')
  end.

Definition is_empty (s : string) : bool :=
  match s with EmptyString => true | _ => false end.

(** [s.startswith(p)] *)
Fixpoint has_prefix (p s : string) : bool :=
  match p with
  | EmptyString => true
  | String a p' =>
      match s with
      | EmptyString => false
      | String b s' => Ascii.eqb a b && has_prefix p' s'
      end
  end.

(** [needle in hay] *)
Fixpoint contains (needle hay : string) : bool :=
  has_prefix needle hay ||
  match hay with
  | EmptyString => false
  | String _ hay' => contains needle hay'
  end.

Fixpoint drop (n : nat) (s : string) : string :=
  match n with
  | O => s
  | S n' => match s with EmptyString => EmptyString | String _ s' => drop n' s' end
  end.

(** The text before and after the leftmost occurrence of [sep]
    ([s.partition(sep)] without the middle component). *)
Fixpoint cut (sep s : string) : option (string * string) :=
  if has_prefix sep s then Some (EmptyString, drop (String.length sep) s)
  else match s with
       | EmptyString => None
       | String c s' =>
           match cut sep s' with
           | Some (a, b) => Some (String c a, b)
           | None => None
           end
       end.

Fixpoint split_fuel (fuel : nat) (sep s : string) : list string :=
  match fuel with
  | O => [s]
  | S fuel' =>
      match cut sep s with
      | None => [s]
      | Some (a, b) => a :: split_fuel fuel' sep b
      end
  end.

(** [s.split(sep)] for a non-empty [sep]: every cut consumes at least
    one character, so [length s] rounds are enough. *)
Definition split (sep s : string) : list string :=
  split_fuel (String.length s) sep s.

Fixpoint lstrip (s : string) : string :=
  match s with
  | EmptyString => EmptyString
  | String c s' => if is_space c then lstrip s' else s
  end.

Fixpoint rstrip (s : string) : string :=
  match s with
  | EmptyString => EmptyString
  | String c s' =>
      match rstrip s' with
      | EmptyString => if is_space c then EmptyString else String c EmptyString
      | r => String c r
      end
  end.

(** [s.strip()] *)
Definition strip (s : string) : string := lstrip (rstrip s).

(** [sep.join(l)] *)
Fixpoint join (sep : string) (l : list string) : string :=
  match l with
  | [] => EmptyString
  | [x] => x
  | x :: l' => x +:+ sep +:+ join sep l'
  end.

(** The longest run of digits at the start of [s]: what a greedy [\d*]
    consumes there. *)
Fixpoint take_digits (s : string) : string :=
  match s with
  | EmptyString => EmptyString
  | String c s' => if is_digit c then String c (take_digits s') else EmptyString
  end.

(** [re.search(r'#(\d+)', s)], giving [group(1)] of the leftmost match. *)
Fixpoint re_search_hash_digits (s : string) : option string :=
  match s with
  | EmptyString => None
  | String c s' =>
      if Ascii.eqb c "#" && negb (is_empty (take_digits s'))
      then Some (take_digits s')
      else re_search_hash_digits s'
  end.

(** [re.search(r'ID (\d+)', s)], giving [group(1)]. *)
Fixpoint re_search_ID_digits (s : string) : option string :=
  if has_prefix "ID " s && negb (is_empty (take_digits (drop 3 s)))
  then Some (take_digits (drop 3 s))
  else match s with
       | EmptyString => None
       | String _ s' => re_search_ID_digits s'
       end.

(** The first alternative, in the order written, that matches at the
    start of [s]. *)
Fixpoint first_alt (alts : list string) (s : string) : option string :=
  match alts with
  | [] => None
  | a :: alts' => if has_prefix a s then Some a else first_alt alts' s
  end.

(** [re.search(r'(a1|a2|...)', s)], giving [group(1)]: the leftmost
    position at which an alternative matches, and there the first
    alternative that does. *)
Fixpoint re_search_alt (alts : list string) (s : string) : option string :=
  match first_alt alts s with
  | Some a => Some a
  | None =>
      match s with
      | EmptyString => None
      | String _ s' => re_search_alt alts s'
      end
  end.

Definition digit_value (c : ascii) : Z := Z.of_N (code c) - 48.

Fixpoint int_digits (acc : Z) (s : string) : option Z :=
  match s with
  | EmptyString => Some acc
  | String c s' =>
      if is_digit c then int_digits (10 * acc + digit_value c) s' else None
  end.

(** [sys.get_int_max_str_digits()], as CPython sets it. *)
Definition int_max_str_digits : nat := 4300.

(** The literal starts with more digits than [int] converts. *)
Definition over_digit_limit (s : string) : bool :=
  (int_max_str_digits <? String.length (take_digits s))%nat.

(** [int(s)] on the strings the resolver passes to it, the groups of
    [\d+]: a non-empty run of decimal digits.  [None] stands for the
    [ValueError] that [int] raises: for an empty or non-numeric literal,
    and for a literal of more than 4300 digits. *)
Definition int (s : string) : option Z :=
  if is_empty s then None
  else if over_digit_limit s then None
  else int_digits 0 s.

(** [str(n)] for an integer. *)
Definition str_int (n : Z) : string := pretty n.

Definition hex_digit (n : N) : ascii :=
  if (n <? 10)%N then ascii_of_N (48 + n) else ascii_of_N (87 + n).

Definition is_printable (c : ascii) : bool :=
  let n := code c in
  (((32 <=? n) && (n <=? 126)) || ((161 <=? n) && negb (n =? 173)))%N.

Definition dquote : ascii := ascii_of_N 34.
Definition squote : ascii := ascii_of_N 39.
Definition backslash : ascii := ascii_of_N 92.

Fixpoint mem_char (c : ascii) (s : string) : bool :=
  match s with
  | EmptyString => false
  | String d s' => Ascii.eqb c d || mem_char c s'
  end.

Fixpoint repr_body (q : ascii) (s : string) : string :=
  match s with
  | EmptyString => EmptyString
  | String c s' =>
      let n := code c in
      (if Ascii.eqb c backslash || Ascii.eqb c q then String backslash (String c EmptyString)
       else if (n =? 9)%N then String backslash "t"
       else if (n =? 10)%N then String backslash "n"
       else if (n =? 13)%N then String backslash "r"
       else if is_printable c then String c EmptyString
       else String backslash
              (String "x" (String (hex_digit (n / 16)) (String (hex_digit (n mod 16)) EmptyString))))
      +:+ repr_body q s'
  end.

(** [repr(s)] for a string: single quotes, unless the text has a single
    quote and no double quote. *)
Definition repr_str (s : string) : string :=
  let q := if mem_char squote s && negb (mem_char dquote s) then dquote else squote in
  String q (repr_body q s +:+ String q EmptyString).

End PyStr.

(* ===================================================================== *)
(** ** Python values, argument dictionaries and exceptions *)
(* ===================================================================== *)

Module Py.

(** The values an argument dictionary carries in this model. *)
Inductive value :=
| VNone
| VInt (n : Z)
| VStr (s : string).

(** [str(v)], which is what an f-string placeholder renders. *)
Definition str (v : value) : string :=
  match v with
  | VNone => "None"
  | VInt n => PyStr.str_int n
  | VStr s => s
  end.

Definition repr (v : value) : string :=
  match v with
  | VNone => "None"
  | VInt n => PyStr.str_int n
  | VStr s => PyStr.repr_str s
  end.

(** Truth value of [v] in an [if]. *)
Definition truthy (v : value) : bool :=
  match v with
  | VNone => false
  | VInt n => negb (n =? 0)
  | VStr s => negb (PyStr.is_empty s)
  end.

(** A [Dict[str, Any]] in insertion order. *)
Definition dict := list (string * value).

Fixpoint lookup (k : string) (d : dict) : option value :=
  match d with
  | [] => None
  | (k', v) :: d' => if String.eqb k k' then Some v else lookup k d'
  end.

(** [k in d] *)
Definition has (k : string) (d : dict) : bool :=
  match lookup k d with Some _ => true | None => false end.

(** [d.get(k)] *)
Definition get (k : string) (d : dict) : value :=
  match lookup k d with Some v => v | None => VNone end.

(** [d.get(k, dflt)] *)
Definition get_default (k : string) (dflt : value) (d : dict) : value :=
  match lookup k d with Some v => v | None => dflt end.

(** [repr(d)] *)
Definition repr_dict (d : dict) : string :=
  "{" +:+ PyStr.join ", "
            (map (fun kv : string * value =>
                    PyStr.repr_str kv.1 +:+ ": " +:+ repr kv.2) d)
      +:+ "}".

Inductive exn :=
| ValueError (msg : string)
| KeyError (msg : string)
| IndexError (msg : string)
| AttributeError (msg : string)
| OverflowError (msg : string)
| IntegrityError (msg : string).

(** [str(e)] *)
Definition str_exn (e : exn) : string :=
  match e with
  | ValueError m | KeyError m | IndexError m | AttributeError m
  | OverflowError m | IntegrityError m => m
  end.

(** A computation that returns or raises. *)
Definition result (A : Type) : Type := exn + A.

Definition rbind {A B} (m : result A) (k : A -> result B) : result B :=
  match m with
  | inl e => inl e
  | inr a => k a
  end.

(** [d[k]] *)
Definition getitem (k : string) (d : dict) : result value :=
  match lookup k d with
  | Some v => inr v
  | None => inl (KeyError (PyStr.repr_str k))
  end.

(** [l[i]] on a list of strings. *)
Definition index (l : list string) (i : nat) : result string :=
  match l !! i with
  | Some x => inr x
  | None => inl (IndexError "list index out of range")
  end.

(** The message of the [ValueError] for a literal of [n] digits, [n]
    above the limit. *)
Definition digit_limit_message (n : nat) : string :=
  "Exceeds the limit (4300 digits) for integer string conversion: value has "
    +:+ PyStr.str_int (Z.of_nat n)
    +:+ " digits; use sys.set_int_max_str_digits() to increase the limit".

(** [int(s)] *)
Definition int (s : string) : result Z :=
  match PyStr.int s with
  | Some n => inr n
  | None =>
      if PyStr.over_digit_limit s
      then inl (ValueError (digit_limit_message (String.length (PyStr.take_digits s))))
      else inl (ValueError ("invalid literal for int() with base 10: "
                            +:+ PyStr.repr_str s))
  end.

End Py.

(* ===================================================================== *)
(** ** models/database_models.py *)
(* ===================================================================== *)

Module Models.
Import Py.

Inductive TaskStatus := PENDING | IN_PROGRESS | COMPLETED | CANCELLED.
Inductive PriorityLevel := LOW | MEDIUM | HIGH | URGENT.
Inductive RoleType := USER | ASSISTANT | SYSTEM.

Definition TaskStatus_value (s : TaskStatus) : string :=
  match s with
  | PENDING => "pending"
  | IN_PROGRESS => "in_progress"
  | COMPLETED => "completed"
  | CANCELLED => "cancelled"
  end.

Definition PriorityLevel_value (p : PriorityLevel) : string :=
  match p with
  | LOW => "low" | MEDIUM => "medium" | HIGH => "high" | URGENT => "urgent"
  end.

Definition RoleType_value (r : RoleType) : string :=
  match r with
  | USER => "user" | ASSISTANT => "assistant" | SYSTEM => "system"
  end.

(** Lookup of an enumeration member by value, as [TaskStatus(v)] does. *)
Definition enum_of_value {E} (members : list E) (val : E -> string)
    (cls : string) (v : value) : result E :=
  match v with
  | VStr s =>
      match List.find (fun m => String.eqb (val m) s) members with
      | Some m => inr m
      | None => inl (ValueError (repr v +:+ " is not a valid " +:+ cls))
      end
  | _ => inl (ValueError (repr v +:+ " is not a valid " +:+ cls))
  end.

Definition TaskStatus_of : value -> result TaskStatus :=
  enum_of_value [PENDING; IN_PROGRESS; COMPLETED; CANCELLED]
                TaskStatus_value "TaskStatus".

Definition PriorityLevel_of : value -> result PriorityLevel :=
  enum_of_value [LOW; MEDIUM; HIGH; URGENT] PriorityLevel_value "PriorityLevel".

Definition RoleType_of : value -> result RoleType :=
  enum_of_value [USER; ASSISTANT; SYSTEM] RoleType_value "RoleType".

Record Task := mkTask {
  task_id : Z;
  task_title : value;
  task_description : value;
  task_status : TaskStatus;
  task_priority : PriorityLevel;
  task_created_at : Z;
  task_updated_at : Z;
  task_conversation_id : value
}.

Record Conversation := mkConversation {
  conv_id : Z;
  conv_title : value;
  conv_description : value;
  conv_created_at : Z;
  conv_updated_at : Z
}.

Record Message := mkMessage {
  msg_id : Z;
  msg_content : value;
  msg_role : RoleType;
  msg_timestamp : Z;
  msg_created_at : Z;
  msg_updated_at : Z;
  msg_conversation_id : value
}.

(** Attribute assignments on a [Task]. *)
Definition set_title (v : value) (t : Task) : Task :=
  mkTask (task_id t) v (task_description t) (task_status t) (task_priority t)
         (task_created_at t) (task_updated_at t) (task_conversation_id t).

Definition set_description (v : value) (t : Task) : Task :=
  mkTask (task_id t) (task_title t) v (task_status t) (task_priority t)
         (task_created_at t) (task_updated_at t) (task_conversation_id t).

Definition set_status (s : TaskStatus) (t : Task) : Task :=
  mkTask (task_id t) (task_title t) (task_description t) s (task_priority t)
         (task_created_at t) (task_updated_at t) (task_conversation_id t).

Definition set_priority (p : PriorityLevel) (t : Task) : Task :=
  mkTask (task_id t) (task_title t) (task_description t) (task_status t) p
         (task_created_at t) (task_updated_at t) (task_conversation_id t).

Definition set_conversation_id (v : value) (t : Task) : Task :=
  mkTask (task_id t) (task_title t) (task_description t) (task_status t)
         (task_priority t) (task_created_at t) (task_updated_at t) v.

End Models.

(* ===================================================================== *)
(** ** The database session *)
(* ===================================================================== *)

Module Db.
Import Py Models.

(** What a [Session] gives access to: the three tables; the clock that
    [default_factory=datetime.utcnow] reads ([clock n] is the n-th
    reading, [ticks] the number of readings so far); and what the
    database makes of a text that is compared with an integer key
    ([text_key x] is the integer SQLite's numeric affinity turns the text
    [x] into, if it turns it into one: 1 for "1", " 1" and "1.0", none
    for "abc"). *)
Record Session := mkSession {
  tasks : gmap Z Task;
  conversations : gmap Z Conversation;
  messages : gmap Z Message;
  clock : nat -> Z;
  ticks : nat;
  text_key : string -> option Z
}.

Definition with_tasks (f : gmap Z Task -> gmap Z Task) (s : Session) : Session :=
  mkSession (f (tasks s)) (conversations s) (messages s) (clock s) (ticks s)
            (text_key s).

Definition with_conversations
    (f : gmap Z Conversation -> gmap Z Conversation) (s : Session) : Session :=
  mkSession (tasks s) (f (conversations s)) (messages s) (clock s) (ticks s)
            (text_key s).

Definition with_messages (f : gmap Z Message -> gmap Z Message) (s : Session) : Session :=
  mkSession (tasks s) (conversations s) (f (messages s)) (clock s) (ticks s)
            (text_key s).

(** Code that runs against a session: it returns or raises, and leaves
    the session as it is at that point (nothing here rolls back). *)
Definition M (A : Type) : Type := Session -> result A * Session.

Definition ret {A} (a : A) : M A := fun s => (inr a, s).

Definition raise {A} (e : exn) : M A := fun s => (inl e, s).

Definition bind {A B} (m : M A) (k : A -> M B) : M B :=
  fun s =>
    match m s with
    | (inl e, s') => (inl e, s')
    | (inr a, s') => k a s'
    end.

Definition lift {A} (r : result A) : M A := fun s => (r, s).

(** [datetime.utcnow()] *)
Definition utcnow : M Z :=
  fun s => (inr (clock s (ticks s)),
            mkSession (tasks s) (conversations s) (messages s) (clock s) (S (ticks s))
                      (text_key s)).

(** The integers SQLite stores: 64 bits, signed. *)
Definition in_int64 (i : Z) : bool :=
  (-9223372036854775808 <=? i) && (i <=? 9223372036854775807).

(** What the [sqlite3] driver says of an integer it cannot bind. *)
Definition sqlite_overflow : string :=
  "Python int too large to convert to SQLite INTEGER".

(** The row [ident] names in a table, as [session.get] looks for it.
    - [None] names no row.
    - An integer names the row stored under it.  When there is none, the
      SELECT binds the integer, which the driver refuses with an
      [OverflowError] outside 64 bits.
    - A text is compared by the database with the integer keys: it names
      the row under the integer the database makes of it. *)
Definition find_row {A} (table : gmap Z A) (keys : string -> option Z)
    (ident : value) : result (option A) :=
  match ident with
  | VNone => inr None
  | VInt i =>
      match table !! i with
      | Some row => inr (Some row)
      | None => if in_int64 i then inr None
                else inl (OverflowError sqlite_overflow)
      end
  | VStr x =>
      inr (match keys x with
           | Some i => table !! i
           | None => None
           end)
  end.

(** [session.get(Model, ident)] *)
Definition get_row {A} (table : Session -> gmap Z A) (ident : value) : M (option A) :=
  fun s => (find_row (table s) (text_key s) ident, s).

(** [select(Model).order_by(Model.id.desc()).limit(1)] then [.first()]:
    the row with the greatest [id], if there is a row. *)
Definition greatest {A} (idf : A -> Z) (m : gmap Z A) : option A :=
  map_fold (fun _ row acc =>
              match acc with
              | None => Some row
              | Some best => if idf best <? idf row then Some row else Some best
              end) None m.

Definition first_by_id_desc {A} (table : Session -> gmap Z A) (idf : A -> Z) : M (option A) :=
  fun s => (inr (greatest idf (table s)), s).

(** The rows of a table in ascending primary-key order, the order in
    which [select(Model)] without [order_by] yields them here. *)
Definition key_le {A} (a b : Z * A) : Prop := a.1 ≤ b.1.

#[global] Instance key_le_dec {A} (a b : Z * A) : Decision (key_le a b) :=
  Z.le_dec a.1 b.1.

Definition rows {A} (m : gmap Z A) : list A :=
  snd <$> merge_sort key_le (map_to_list m).

(** [session.add(obj)] of a new object. *)
Definition add_task (t : Task) : M unit :=
  fun s => (inr tt, with_tasks (insert (task_id t) t) s).

Definition add_conversation (c : Conversation) : M unit :=
  fun s => (inr tt, with_conversations (insert (conv_id c) c) s).

Definition add_message (m : Message) : M unit :=
  fun s => (inr tt, with_messages (insert (msg_id m) m) s).

(** [session.delete(task)] *)
Definition delete_task (t : Task) : M unit :=
  fun s => (inr tt, with_tasks (delete (task_id t)) s).

(** [task.attr = v] on an object the session holds: the row changes with
    the object.  The result is the object after the assignment. *)
Definition setattr (t : Task) (assign : Task -> Task) : M Task :=
  fun s => (inr (assign t), with_tasks (insert (task_id t) (assign t)) s).

(** A column declared without [Optional] takes no [None]: the INSERT or
    UPDATE of the flush fails on it.  The message is the first line of
    what [str] gives for SQLAlchemy's [IntegrityError]. *)
Definition not_null (column : string) (v : value) : result unit :=
  match v with
  | VNone =>
      inl (IntegrityError ("(sqlite3.IntegrityError) NOT NULL constraint failed: "
                           +:+ column))
  | _ => inr tt
  end.

(** What a failed flush leaves: the tables as they were at [entry], when
    the transaction began; the clock has been read all the same. *)
Definition rolled_back (entry s : Session) : Session :=
  mkSession (tasks entry) (conversations entry) (messages entry) (clock s) (ticks s)
            (text_key s).

(** [session.commit()]: the rows are already those of the map, unless
    the flush fails.  [written] is the check the database makes of the
    row that the flush writes; when it fails the commit raises and the
    transaction is rolled back to [entry].  (The session then accepts no
    further statement before a [rollback()], which the code never calls;
    the executors below do nothing after a commit that failed.) *)
Definition commit (written : result unit) (entry : Session) : M unit :=
  fun s =>
    match written with
    | inr _ => (inr tt, s)
    | inl e => (inl e, rolled_back entry s)
    end.

(** [session.refresh(obj)]: reading an object back gives the object. *)
Definition refresh {A} (obj : A) : M A := ret obj.

End Db.

Declare Scope py_scope.
Delimit Scope py_scope with py.
Notation "'let*' x ':=' m 'in' k" := (Db.bind m (fun x => k))
(at level 10, x name, m at level 100, k at level 200) : py_scope.
Notation "m ';;' k" := (Db.bind m (fun _ => k))
(at level 100, k at level 200, right associativity) : py_scope.
Notation "'let+' x ':=' m 'in' k" := (Py.rbind m (fun x => k))
(at level 10, x name, m at level 100, k at level 200) : py_scope.

(* ===================================================================== *)
(** ** class MCPTaskManager *)
(* ===================================================================== *)

Module MCPTaskManager.
Import Py Models Db.
Local Open Scope py_scope.

(** class ToolResult *)
Inductive ToolResult := SUCCESS | ERROR | NOT_FOUND | PERMISSION_DENIED.

Definition ToolResult_value (r : ToolResult) : string :=
  match r with
  | SUCCESS => "success"
  | ERROR => "error"
  | NOT_FOUND => "not_found"
  | PERMISSION_DENIED => "permission_denied"
  end.

(** What an executor returns. *)
Inductive payload :=
| PTask (t : Task)
| PTasks (l : list Task)
| PConversation (c : Conversation)
| PMessage (m : Message).

(** The dictionary [execute_tool] returns; [data = None] is Python's
    [None]. *)
Record ToolOutput := mkOutput {
  out_result : string;
  out_message : string;
  out_data : option payload
}.

Definition _create_task (args : dict) : M payload := fun entry => (
  let* result := first_by_id_desc tasks task_id in
  let task_id := match result with None => 1 | Some r => task_id r + 1 end in
  let title := get "title" args in
  let description := get_default "description" (VStr EmptyString) args in
  let* status := lift (TaskStatus_of (get_default "status" (VStr "pending") args)) in
  let* priority := lift (PriorityLevel_of (get_default "priority" (VStr "medium") args)) in
  let* created_at := utcnow in
  let* updated_at := utcnow in
  let task := mkTask task_id title description status priority
                     created_at updated_at VNone in
  let* task := (if has "conversation_id" args
                then let* v := lift (getitem "conversation_id" args) in
                     ret (set_conversation_id v task)
                else ret task) in
  add_task task ;;
  commit (not_null "task.title" (task_title task)) entry ;;
  let* task := refresh task in
  ret (PTask task)) entry.

Definition _update_task (args : dict) : M payload := fun entry => (
  let task_id := get "id" args in
  let* task := get_row tasks task_id in
  match task with
  | None => raise (ValueError ("Task with ID " +:+ str task_id +:+ " not found"))
  | Some task =>
      let* task := (if has "title" args
                    then let* v := lift (getitem "title" args) in
                         setattr task (set_title v)
                    else ret task) in
      let* task := (if has "description" args
                    then let* v := lift (getitem "description" args) in
                         setattr task (set_description v)
                    else ret task) in
      let* task := (if has "status" args
                    then let* v := lift (getitem "status" args) in
                         let* st := lift (TaskStatus_of v) in
                         setattr task (set_status st)
                    else ret task) in
      let* task := (if has "priority" args
                    then let* v := lift (getitem "priority" args) in
                         let* p := lift (PriorityLevel_of v) in
                         setattr task (set_priority p)
                    else ret task) in
      let* task := (if has "conversation_id" args
                    then let* v := lift (getitem "conversation_id" args) in
                         setattr task (set_conversation_id v)
                    else ret task) in
      add_task task ;;
      commit (if has "title" args then not_null "task.title" (task_title task)
              else inr tt) entry ;;
      let* task := refresh task in
      ret (PTask task)
  end) entry.

Definition _delete_task (args : dict) : M payload := fun entry => (
  let task_id := get "id" args in
  let* task := get_row tasks task_id in
  match task with
  | None => raise (ValueError ("Task with ID " +:+ str task_id +:+ " not found"))
  | Some task =>
      delete_task task ;;
      commit (inr tt) entry ;;
      ret (PTask task)
  end) entry.

Definition _get_task (args : dict) : M payload :=
  let task_id := get "id" args in
  let* task := get_row tasks task_id in
  match task with
  | None => raise (ValueError ("Task with ID " +:+ str task_id +:+ " not found"))
  | Some task => ret (PTask task)
  end.

Definition status_is (st : TaskStatus) (t : Task) : bool :=
  String.eqb (TaskStatus_value (task_status t)) (TaskStatus_value st).

Definition _list_tasks (args : dict) : M payload :=
  let status_filter := get "status" args in
  if truthy status_filter
  then let* st := lift (TaskStatus_of status_filter) in
       fun s => (inr (PTasks (List.filter (status_is st) (rows (tasks s)))), s)
  else fun s => (inr (PTasks (rows (tasks s))), s).

Definition _create_conversation (args : dict) : M payload := fun entry => (
  let* result := first_by_id_desc conversations conv_id in
  let conv_id := match result with None => 1 | Some r => conv_id r + 1 end in
  let* created_at := utcnow in
  let* updated_at := utcnow in
  let conversation :=
    mkConversation conv_id (get "title" args)
                   (get_default "description" (VStr EmptyString) args)
                   created_at updated_at in
  add_conversation conversation ;;
  commit (not_null "conversation.title" (conv_title conversation)) entry ;;
  let* conversation := refresh conversation in
  ret (PConversation conversation)) entry.

Definition _add_message (args : dict) : M payload := fun entry => (
  let* result := first_by_id_desc messages msg_id in
  let msg_id := match result with None => 1 | Some r => msg_id r + 1 end in
  let* conversation := get_row conversations (get "conversation_id" args) in
  match conversation with
  | None =>
      raise (ValueError ("Conversation with ID " +:+ str (get "conversation_id" args)
                         +:+ " not found"))
  | Some _ =>
      let* role := lift (RoleType_of (get_default "role" (VStr "user") args)) in
      let* timestamp := utcnow in
      let* created_at := utcnow in
      let* updated_at := utcnow in
      let message :=
        mkMessage msg_id (get "content" args) role timestamp created_at updated_at
                  (get "conversation_id" args) in
      add_message message ;;
      commit (not_null "message.content" (msg_content message)) entry ;;
      let* message := refresh message in
      ret (PMessage message)
  end) entry.

Definition _get_conversation (args : dict) : M payload :=
  let conv_id := get "id" args in
  let* conversation := get_row conversations conv_id in
  match conversation with
  | None => raise (ValueError ("Conversation with ID " +:+ str conv_id +:+ " not found"))
  | Some conversation => ret (PConversation conversation)
  end.

(** The dict literal of [__init__], in the order it is written, which is
    the order in which a Python dict is iterated. *)
Definition tool_registry : list (string * (dict -> M payload)) :=
  [ ("create_task", _create_task);
    ("update_task", _update_task);
    ("delete_task", _delete_task);
    ("get_task", _get_task);
    ("list_tasks", _list_tasks);
    ("create_conversation", _create_conversation);
    ("add_message", _add_message);
    ("get_conversation", _get_conversation) ].

(** [self.available_tools] *)
Definition available_tools : gmap string (dict -> M payload) :=
  list_to_map tool_registry.

Definition execute_tool (tool_name : string) (arguments : dict)
    : Session -> ToolOutput * Session :=
  fun s =>
    match available_tools !! tool_name with
    | None =>
        (mkOutput (ToolResult_value NOT_FOUND)
                  ("Tool '" +:+ tool_name +:+ "' not found") None, s)
    | Some executor =>
        match executor arguments s with
        | (inr result, s') =>
            (mkOutput (ToolResult_value SUCCESS) "Tool executed successfully"
                      (Some result), s')
        | (inl e, s') =>
            (mkOutput (ToolResult_value ERROR) (str_exn e) None, s')
        end
    end.

End MCPTaskManager.

(* ===================================================================== *)
(** ** class OpenAIAgent *)
(* ===================================================================== *)

Module OpenAIAgent.
Import Py Models Db MCPTaskManager.
Local Open Scope py_scope.

Record ToolCall := mkToolCall {
  name : string;
  arguments : dict
}.

Record AgentResponse := mkResponse {
  message : string;
  tool_calls : list ToolCall;
  needs_confirmation : bool;
  confirmation_message : option string
}.

(** One entry of the list [execute_tool_calls_with_session] returns:
    [{"tool_name": ..., **result}], or the placeholder, which has no
    ["data"] key ([res_data = None]; [Some None] is a key holding
    Python's [None]). *)
Record ToolCallResult := mkResult {
  res_tool_name : string;
  res_result : string;
  res_message : string;
  res_data : option (option payload)
}.

Definition _needs_confirmation (tool_name : string) : bool :=
  let confirmation_required := ["delete_task"; "update_task"] in
  existsb (String.eqb tool_name) confirmation_required.

Definition _format_confirmation_message (tool_call : ToolCall) : string :=
  if String.eqb (name tool_call) "delete_task" then
    "I'm about to delete task #" +:+ str (get "id" (arguments tool_call))
      +:+ ". Is that OK?"
  else if String.eqb (name tool_call) "update_task" then
    let task_id := get "id" (arguments tool_call) in
    let updates :=
      PyStr.join ", "
        (map (fun kv : string * value => kv.1 +:+ "=" +:+ str kv.2)
             (List.filter (fun kv : string * value => negb (String.eqb kv.1 "id"))
                          (arguments tool_call))) in
    "I'm about to update task #" +:+ str task_id +:+ " with " +:+ updates
      +:+ ". Is that OK?"
  else
    "I'm about to execute '" +:+ name tool_call +:+ "' with arguments "
      +:+ repr_dict (arguments tool_call) +:+ ". Please confirm.".

Definition process_request (user_input : string) : result AgentResponse :=
  let user_input_lower := PyStr.lower user_input in
  let has_word w := PyStr.contains w user_input_lower in
  let+ tool_calls :=
    (if has_word "create" && (has_word "task" || has_word "new") then
       let+ title :=
         (if has_word "to" then
            let+ part := index (PyStr.split "to" user_input_lower) 1 in
            inr (PyStr.strip part)
          else if has_word "for" then
            let+ part := index (PyStr.split "for" user_input_lower) 1 in
            inr (PyStr.strip part)
          else inr "New task") in
       inr [mkToolCall "create_task"
              [("title", VStr title); ("status", VStr "pending")]]
     else if has_word "update" && has_word "task" then
       let id_match := PyStr.re_search_hash_digits user_input_lower in
       let status_match :=
         PyStr.re_search_alt ["pending"; "in_progress"; "completed"]
                             user_input_lower in
       match id_match with
       | Some group1 =>
           let+ task_id := int group1 in
           let status := match status_match with
                         | Some st => st
                         | None => "in_progress"
                         end in
           inr [mkToolCall "update_task"
                  [("id", VInt task_id); ("status", VStr status)]]
       | None => inr []
       end
     else if has_word "delete" && has_word "task" then
       match PyStr.re_search_hash_digits user_input_lower with
       | Some group1 =>
           let+ task_id := int group1 in
           inr [mkToolCall "delete_task" [("id", VInt task_id)]]
       | None => inr []
       end
     else if has_word "show" || has_word "list" || has_word "all" then
       let status :=
         if has_word "pending" then Some "pending"
         else if has_word "in progress" || has_word "in_progress"
              then Some "in_progress"
         else if has_word "completed" then Some "completed"
         else None in
       let params := match status with
                     | Some st => if PyStr.is_empty st then []
                                  else [("status", VStr st)]
                     | None => []
                     end in
       inr [mkToolCall "list_tasks" params]
     else if (has_word "get" || has_word "show" || has_word "what")
             && has_word "task" then
       match PyStr.re_search_hash_digits user_input_lower with
       | Some group1 =>
           let+ task_id := int group1 in
           inr [mkToolCall "get_task" [("id", VInt task_id)]]
       | None => inr []
       end
     else inr []) in
  let needs_confirmation :=
    existsb (fun tc => _needs_confirmation (name tc)) tool_calls in
  let confirmation_message :=
    if needs_confirmation && negb (bool_decide (tool_calls = []))
    then option_map _format_confirmation_message
           (List.find (fun tc => _needs_confirmation (name tc)) tool_calls)
    else None in
  inr (mkResponse
         (if bool_decide (tool_calls = []) then "I'm not sure how to help with that."
          else "Processing your request...")
         tool_calls needs_confirmation confirmation_message).

Fixpoint execute_tool_calls_with_session (tool_calls : list ToolCall)
    (confirm_execution : bool) (db_session : Session)
    : list ToolCallResult * Session :=
  match tool_calls with
  | [] => ([], db_session)
  | tool_call :: rest =>
      if confirm_execution && _needs_confirmation (name tool_call) then
        let entry :=
          mkResult (name tool_call) "pending_confirmation"
                   ("Action '" +:+ name tool_call +:+ "' requires confirmation")
                   None in
        let (results, s') :=
          execute_tool_calls_with_session rest confirm_execution db_session in
        (entry :: results, s')
      else
        let (result, s1) :=
          execute_tool (name tool_call) (arguments tool_call) db_session in
        let entry :=
          mkResult (name tool_call) (out_result result) (out_message result)
                   (Some (out_data result)) in
        let (results, s') :=
          execute_tool_calls_with_session rest confirm_execution s1 in
        (entry :: results, s')
  end.

(** Attribute access on whatever [result.get("data", default)] gave;
    [dflt] names the type of the default. *)
Definition type_name (dflt : string) (d : option (option payload)) : string :=
  match d with
  | None => dflt
  | Some None => "NoneType"
  | Some (Some (PTask _)) => "Task"
  | Some (Some (PTasks _)) => "list"
  | Some (Some (PConversation _)) => "Conversation"
  | Some (Some (PMessage _)) => "Message"
  end.

Definition no_attribute {A} (ty attr : string) : result A :=
  inl (AttributeError ("'" +:+ ty +:+ "' object has no attribute '" +:+ attr +:+ "'")).

Definition getattr_id (d : option (option payload)) : result Z :=
  match d with
  | Some (Some (PTask t)) => inr (task_id t)
  | Some (Some (PConversation c)) => inr (conv_id c)
  | Some (Some (PMessage m)) => inr (msg_id m)
  | _ => no_attribute (type_name "dict" d) "id"
  end.

Definition getattr_title (d : option (option payload)) : result value :=
  match d with
  | Some (Some (PTask t)) => inr (task_title t)
  | Some (Some (PConversation c)) => inr (conv_title c)
  | _ => no_attribute (type_name "dict" d) "title"
  end.

Definition getattr_status_value (d : option (option payload)) : result string :=
  match d with
  | Some (Some (PTask t)) => inr (TaskStatus_value (task_status t))
  | _ => no_attribute (type_name "dict" d) "status"
  end.

Definition getattr_conversation_id (d : option (option payload)) : result value :=
  match d with
  | Some (Some (PTask t)) => inr (task_conversation_id t)
  | Some (Some (PMessage m)) => inr (msg_conversation_id m)
  | _ => no_attribute (type_name "dict" d) "conversation_id"
  end.

Definition task_line (t : Task) : string :=
  "- " +:+ PyStr.str_int (task_id t) +:+ ": " +:+ str (task_title t)
    +:+ " (" +:+ TaskStatus_value (task_status t) +:+ ")".

Definition newline : string := String (ascii_of_N 10) EmptyString.

Definition _suggest_alternatives (result : ToolCallResult) : string :=
  match PyStr.re_search_ID_digits (res_message result) with
  | Some _ => "Would you like me to list all tasks so you can find the right one?"
  | None => "Would you like me to help you with something else?"
  end.

(** The sentence [_format_results] appends for one result. *)
Definition format_one (result : ToolCallResult) : Py.result string :=
  let tool_name := res_tool_name result in
  let result_status := res_result result in
  let is_tool n := String.eqb tool_name n in
  if String.eqb result_status (ToolResult_value SUCCESS) then
    if is_tool "list_tasks" then
      match res_data result with
      | None | Some None => inr "No tasks found."
      | Some (Some (PTasks [])) => inr "No tasks found."
      | Some (Some (PTasks tasks)) =>
          inr ("Here are the tasks:" +:+ newline
               +:+ PyStr.join newline (map task_line tasks))
      | Some (Some _) => no_attribute "tuple" "id"
      end
    else if is_tool "get_task" then
      let task := res_data result in
      let+ i := getattr_id task in
      let+ title := getattr_title task in
      let+ status := getattr_status_value task in
      inr ("Task #" +:+ PyStr.str_int i +:+ ": " +:+ str title
           +:+ " (" +:+ status +:+ ")")
    else if is_tool "create_task" || is_tool "update_task" then
      let+ title := getattr_title (res_data result) in
      inr ("Task updated successfully: " +:+ str title)
    else if is_tool "delete_task" then
      let+ title := getattr_title (res_data result) in
      inr ("Task deleted: " +:+ str title)
    else if is_tool "create_conversation" then
      let+ title := getattr_title (res_data result) in
      inr ("Conversation created: " +:+ str title)
    else if is_tool "get_conversation" then
      let+ title := getattr_title (res_data result) in
      inr ("Conversation: " +:+ str title)
    else if is_tool "add_message" then
      let+ cid := getattr_conversation_id (res_data result) in
      inr ("Message added to conversation #" +:+ str cid)
    else inr (res_message result)
  else if String.eqb result_status (ToolResult_value NOT_FOUND) then
    if PyStr.contains "task" tool_name
       && PyStr.contains "not found" (PyStr.lower (res_message result))
    then inr ("I couldn't find that task. " +:+ _suggest_alternatives result)
    else inr ("Sorry, " +:+ res_message result)
  else if String.eqb result_status (ToolResult_value ERROR) then
    inr ("Sorry, I encountered an error: " +:+ res_message result)
  else inr (res_message result).

Fixpoint format_all (results : list ToolCallResult) : Py.result (list string) :=
  match results with
  | [] => inr []
  | result :: rest =>
      let+ m := format_one result in
      let+ ms := format_all rest in
      inr (m :: ms)
  end.

Definition _format_results (results : list ToolCallResult) : Py.result string :=
  let+ messages := format_all results in
  inr (match messages with
       | [] => "Operation completed."
       | _ => PyStr.join " " messages
       end).

Definition handle_user_request (user_input : string) (confirm_actions : bool)
    : M string :=
  let* agent_response := lift (process_request user_input) in
  if needs_confirmation agent_response then
    if confirm_actions then
      ret (match confirmation_message agent_response with
           | Some m => if PyStr.is_empty m then message agent_response else m
           | None => message agent_response
           end)
    else
      let* results :=
        (fun s => let (r, s') :=
                    execute_tool_calls_with_session (tool_calls agent_response) false s
                  in (inr r, s')) in
      lift (_format_results results)
  else if negb (bool_decide (tool_calls agent_response = [])) then
    let* results :=
      (fun s => let (r, s') :=
                  execute_tool_calls_with_session (tool_calls agent_response) false s
                in (inr r, s')) in
    lift (_format_results results)
  else ret (message agent_response).

End OpenAIAgent.

(* ===================================================================== *)
(** ** Predicates used in the statements *)
(* ===================================================================== *)

Module Spec.
Import Py Models Db MCPTaskManager OpenAIAgent.

(** [s] consists of decimal digits only. *)
Fixpoint all_digits (s : string) : bool :=
  match s with
  | EmptyString => true
  | String c s' => PyStr.is_digit c && all_digits s'
  end.

(** The [id] column is the primary key: every row is stored under its
    own [id]. *)
Definition keyed_by_id (m : gmap Z Task) : Prop :=
  forall k t, m !! k = Some t -> task_id t = k.

(** The status literals the resolver's pattern looks for. *)
Definition status_literals : list string := ["pending"; "in_progress"; "completed"].

(** [st] is the status the text [l] asks for: the literal whose
    occurrence starts leftmost in [l], or ["in_progress"] when no literal
    occurs at all. *)
Definition first_status (l st : string) : Prop :=
  (exists pre post,
      l = pre +:+ st +:+ post /\ In st status_literals /\
      forall a p q, In a status_literals -> l = p +:+ a +:+ q ->
                    (String.length pre <= String.length p)%nat)
  \/ (st = "in_progress" /\
      forall a, In a status_literals -> PyStr.contains a l = false).

(** The response of the resolver for a single call that needs no
    confirmation, and for one that does. *)
Definition respond (tc : ToolCall) : AgentResponse :=
  mkResponse "Processing your request..." [tc] false None.

Definition respond_confirm (tc : ToolCall) (prompt : string) : AgentResponse :=
  mkResponse "Processing your request..." [tc] true (Some prompt).

Definition respond_nothing : AgentResponse :=
  mkResponse "I'm not sure how to help with that." [] false None.

Definition create_call (title : string) : ToolCall :=
  mkToolCall "create_task" [("title", VStr title); ("status", VStr "pending")].

Definition update_call (n : Z) (st : string) : ToolCall :=
  mkToolCall "update_task" [("id", VInt n); ("status", VStr st)].

Definition delete_call (n : Z) : ToolCall :=
  mkToolCall "delete_task" [("id", VInt n)].

Definition get_call (n : Z) : ToolCall :=
  mkToolCall "get_task" [("id", VInt n)].

(** What [execute_tool] makes of the way an executor ended. *)
Definition tool_outcome (r : result payload * Session) : ToolOutput * Session :=
  match r with
  | (inr data, s') =>
      (mkOutput "success" "Tool executed successfully" (Some data), s')
  | (inl e, s') => (mkOutput "error" (str_exn e) None, s')
  end.

(** The id [_create_task] gives the task it creates. *)
Definition next_task_id (s : Session) : Z :=
  match greatest task_id (tasks s) with
  | None => 1
  | Some r => task_id r + 1
  end.

(** The tools whose executor starts by fetching the task named by
    ["id"]. *)
Definition task_tools : list string := ["update_task"; "get_task"; "delete_task"].

Definition task_not_found (i : Z) : string :=
  "Task with ID " +:+ PyStr.str_int i +:+ " not found".

(** The decimal spellings of the 64-bit integers, with or without a
    sign, as far as [text_key] is needed in the sessions below. *)
Definition decimal_key (x : string) : option Z :=
  let digits := match x with
                | String c x' =>
                    if Ascii.eqb c "-" || Ascii.eqb c "+" then x' else x
                | EmptyString => x
                end in
  let negative := match x with
                  | String c _ => Ascii.eqb c "-"
                  | EmptyString => false
                  end in
  if PyStr.is_empty digits then None
  else match PyStr.int_digits 0 digits with
       | Some n => let i := if negative then - n else n in
                   if in_int64 i then Some i else None
       | None => None
       end.

(** A session with no rows, whose clock reads 0, 1, 2, ... *)
Definition empty_session : Session :=
  mkSession ∅ ∅ ∅ (fun n => Z.of_nat n) 0 decimal_key.

(** A session holding one task, created at 10 and 11. *)
Definition sample_task : Task :=
  mkTask 1 (VStr "write report") (VStr EmptyString) PENDING MEDIUM 10 11 VNone.

Definition sample_session : Session :=
  mkSession {[ 1 := sample_task ]} ∅ ∅ (fun n => Z.of_nat n + 100) 0 decimal_key.

Definition registered_tools : list string :=
  ["create_task"; "update_task"; "delete_task"; "get_task"; "list_tasks";
   "create_conversation"; "add_message"; "get_conversation"].

End Spec.

(* ===================================================================== *)
(** ** Further vocabulary for the statements *)
(* ===================================================================== *)

Module Shapes.
Import Py Models Db MCPTaskManager OpenAIAgent Spec.

Definition list_call (params : dict) : ToolCall := mkToolCall "list_tasks" params.

(** The prompts [_format_confirmation_message] writes for the calls the
    resolver builds. *)
Definition delete_prompt (n : Z) : string :=
  "I'm about to delete task #" +:+ PyStr.str_int n +:+ ". Is that OK?".

Definition update_prompt (n : Z) (st : string) : string :=
  "I'm about to update task #" +:+ PyStr.str_int n +:+ " with status=" +:+ st
    +:+ ". Is that OK?".

(** The argument dictionaries the resolver gives [list_tasks]. *)
Definition list_params : list dict :=
  [ []; [("status", VStr "pending")]; [("status", VStr "in_progress")];
    [("status", VStr "completed")] ].

(** The tools the resolver can name. *)
Definition resolver_tools : list string :=
  ["create_task"; "update_task"; "delete_task"; "list_tasks"; "get_task"].

(** The tools behind the confirmation gate. *)
Definition gated (tc : ToolCall) : bool := _needs_confirmation (name tc).

(** The placeholder recorded for a call that waits for confirmation. *)
Definition pending (tc : ToolCall) : ToolCallResult :=
  mkResult (name tc) "pending_confirmation"
           ("Action '" +:+ name tc +:+ "' requires confirmation") None.

(** The kind of record [_format_results] reads under each tool name. *)
Definition payload_fits (tool : string) (p : payload) : bool :=
  match p with
  | PTask _ =>
      existsb (String.eqb tool) ["create_task"; "update_task"; "delete_task"; "get_task"]
  | PTasks _ => String.eqb tool "list_tasks"
  | PConversation _ =>
      existsb (String.eqb tool) ["create_conversation"; "get_conversation"]
  | PMessage _ => String.eqb tool "add_message"
  end.

(** How the result of a call relates to the call, given the
    [confirm_execution] flag. *)
Definition result_of_call (confirm : bool) (tc : ToolCall) (res : ToolCallResult)
    : Prop :=
  res_tool_name res = name tc
  /\ (confirm && gated tc = true -> res = pending tc)
  /\ (confirm && gated tc = false ->
      In (res_result res) ["success"; "error"; "not_found"]
      /\ res_data res <> None).

(** The entry [execute_tool_calls_with_session] records for a call that
    is executed. *)
Definition executed_entry (tc : ToolCall) (s : Session) : ToolCallResult :=
  let out := (execute_tool (name tc) (arguments tc) s).1 in
  mkResult (name tc) (out_result out) (out_message out) (Some (out_data out)).

Definition task_tool_names : list string :=
  ["create_task"; "update_task"; "delete_task"; "get_task"; "list_tasks"].

Definition conversation_tool_names : list string :=
  ["create_conversation"; "add_message"; "get_conversation"].

End Shapes.

(* ===================================================================== *)
(** ** MCPTaskManager.get_tool_schema *)
(* ===================================================================== *)

Module Schema.
Import Py Models Db MCPTaskManager OpenAIAgent.

(** The JSON-like values the schema is built from. *)
Inductive json :=
| JStr (s : string)
| JArr (l : list json)
| JObj (fields : list (string * json)).

(** [{"type": ty, "description": desc}] *)
Definition param (ty desc : string) : json :=
  JObj [("type", JStr ty); ("description", JStr desc)].

(** [{"type": ty, "enum": [...], "description": desc}] *)
Definition enum_param (ty : string) (enum : list string) (desc : string) : json :=
  JObj [("type", JStr ty); ("enum", JArr (map JStr enum)); ("description", JStr desc)].

(** One entry of the catalog; [required = None] is an entry without a
    ["required"] key. *)
Definition function_tool (name desc : string) (properties : list (string * json))
    (required : option (list string)) : json :=
  JObj [("type", JStr "function");
        ("function",
         JObj [("name", JStr name);
               ("description", JStr desc);
               ("parameters",
                JObj ([("type", JStr "object"); ("properties", JObj properties)]
                      ++ match required with
                         | Some r => [("required", JArr (map JStr r))]
                         | None => []
                         end))])].

Definition status_enum : list string := ["pending"; "in_progress"; "completed"].
Definition priority_enum : list string := ["low"; "medium"; "high"; "urgent"].

Definition get_tool_schema : list json :=
  [ function_tool "create_task" "Create a new task"
      [("title", param "string" "Title of the task");
       ("description", param "string" "Description of the task");
       ("status", enum_param "string" status_enum "Initial status of the task");
       ("priority", enum_param "string" priority_enum "Priority level of the task")]
      (Some ["title"]);
    function_tool "update_task" "Update an existing task"
      [("id", param "integer" "ID of the task to update");
       ("title", param "string" "New title of the task");
       ("description", param "string" "New description of the task");
       ("status", enum_param "string" status_enum "New status of the task");
       ("priority", enum_param "string" priority_enum "New priority level of the task")]
      (Some ["id"]);
    function_tool "delete_task" "Delete a task"
      [("id", param "integer" "ID of the task to delete")]
      (Some ["id"]);
    function_tool "get_task" "Get details of a specific task"
      [("id", param "integer" "ID of the task to retrieve")]
      (Some ["id"]);
    function_tool "list_tasks" "List all tasks or filter by status"
      [("status", enum_param "string" status_enum "Filter tasks by status")]
      None;
    function_tool "create_conversation" "Create a new conversation"
      [("title", param "string" "Title of the conversation");
       ("description", param "string" "Description of the conversation")]
      (Some ["title"]);
    function_tool "add_message" "Add a message to a conversation"
      [("conversation_id", param "integer" "ID of the conversation");
       ("content", param "string" "Content of the message");
       ("role", enum_param "string" ["user"; "assistant"; "system"]
                           "Role of the message sender")]
      (Some ["conversation_id"; "content"; "role"]);
    function_tool "get_conversation" "Get details of a specific conversation"
      [("id", param "integer" "ID of the conversation to retrieve")]
      (Some ["id"]) ].

(** Reading a catalog entry. *)
Fixpoint field (k : string) (fields : list (string * json)) : option json :=
  match fields with
  | [] => None
  | (k', v) :: rest => if String.eqb k k' then Some v else field k rest
  end.

Definition obj_field (k : string) (j : json) : option json :=
  match j with JObj fields => field k fields | _ => None end.

Definition strings_of (j : option json) : list string :=
  match j with
  | Some (JArr l) =>
      flat_map (fun x => match x with JStr s => [s] | _ => [] end) l
  | _ => []
  end.

Definition tool_name (entry : json) : option string :=
  match obj_field "function" entry with
  | Some f => match obj_field "name" f with Some (JStr n) => Some n | _ => None end
  | None => None
  end.

Definition tool_parameters (entry : json) : option json :=
  match obj_field "function" entry with
  | Some f => obj_field "parameters" f
  | None => None
  end.

Definition tool_properties (entry : json) : list (string * json) :=
  match tool_parameters entry with
  | Some ps => match obj_field "properties" ps with
               | Some (JObj fields) => fields
               | _ => []
               end
  | None => []
  end.

Definition tool_required (entry : json) : list string :=
  match tool_parameters entry with
  | Some ps => strings_of (obj_field "required" ps)
  | None => []
  end.

(** A value is what a declared parameter asks for: of the declared type,
    and one of the enumerated strings when the declaration has an
    enumeration. *)
Definition value_fits (decl : json) (v : value) : bool :=
  match obj_field "type" decl, v with
  | Some (JStr "integer"), VInt _ => true
  | Some (JStr "string"), VStr s =>
      match obj_field "enum" decl with
      | Some e => existsb (String.eqb s) (strings_of (Some e))
      | None => true
      end
  | _, _ => false
  end.

(** A call conforms to the catalog: its tool is listed, every required
    parameter is given, and every argument is a declared parameter with a
    fitting value. *)
Definition conforms (tc : ToolCall) : bool :=
  match List.find (fun e => match tool_name e with
                            | Some n => String.eqb n (name tc)
                            | None => false
                            end) get_tool_schema with
  | None => false
  | Some entry =>
      forallb (fun r => has r (arguments tc)) (tool_required entry)
      && forallb (fun kv : string * value =>
                    match field kv.1 (tool_properties entry) with
                    | Some decl => value_fits decl kv.2
                    | None => false
                    end) (arguments tc)
  end.

End Schema.

(* ===================================================================== *)
(** ** main.py: the HTTP endpoints *)
(* ===================================================================== *)

Module ChatApi.
Import Py Models Db MCPTaskManager OpenAIAgent.

Record ChatRequest := mkChatRequest {
  req_message : string;
  req_conversation_id : option Z
}.

Record ChatResponse := mkChatResponse {
  resp_conversation_id : Z;
  resp_response : string;
  resp_timestamp : string
}.

(** What an endpoint answers: a body, or an [HTTPException]. *)
Inductive http (A : Type) :=
| Ok (body : A)
| HTTPException (status_code : Z) (detail : string).
Arguments Ok {A} body.
Arguments HTTPException {A} status_code detail.

(** One entry of the task list of [GET /api/tasks]. *)
Record TaskJson := mkTaskJson {
  tj_id : Z;
  tj_title : value;
  tj_description : value;
  tj_status : string;
  tj_priority : string;
  tj_created_at : string;
  tj_updated_at : string;
  tj_conversation_id : value
}.

Record MessageJson := mkMessageJson {
  mj_id : Z;
  mj_content : value;
  mj_role : string;
  mj_timestamp : string;
  mj_created_at : string
}.

Record ConversationJson := mkConversationJson {
  cj_id : Z;
  cj_title : value;
  cj_description : value;
  cj_created_at : string;
  cj_updated_at : string;
  cj_messages : list MessageJson
}.

(** A reading of [datetime.utcnow()]. *)
Definition read_clock (s : Session) : Z * Session :=
  (clock s (ticks s),
   mkSession (tasks s) (conversations s) (messages s) (clock s) (S (ticks s))
             (text_key s)).

(** [Message.conversation_id == cid], as the database compares: a text
    in the column is read through [keys], the reading of [text_key]. *)
Definition in_conversation (keys : string -> option Z) (cid : Z) (m : Message) : bool :=
  match msg_conversation_id m with
  | VInt c => c =? cid
  | VStr x => match keys x with Some c => c =? cid | None => false end
  | VNone => false
  end.

(** [order_by(Message.timestamp)] *)
Definition by_timestamp (a b : Message) : Prop := msg_timestamp a <= msg_timestamp b.

#[global] Instance by_timestamp_dec (a b : Message) : Decision (by_timestamp a b) :=
  Z.le_dec (msg_timestamp a) (msg_timestamp b).

Section Endpoints.

(** What the code leaves to its libraries: the primary key the database
    gives a row added without one, as a function of the table, and
    [datetime.isoformat]. *)
Variable new_conversation_id : gmap Z Conversation -> Z.
Variable new_message_id : gmap Z Message -> Z.
Variable isoformat : Z -> string.

(** [Conversation(title=..., description=...)], then [add], [commit]
    and [refresh]. *)
Definition store_conversation (title description : string) (s : Session)
    : Conversation * Session :=
  let (created_at, s1) := read_clock s in
  let (updated_at, s2) := read_clock s1 in
  let c := mkConversation (new_conversation_id (conversations s2)) (VStr title)
                          (VStr description) created_at updated_at in
  (c, with_conversations (insert (conv_id c) c) s2).

(** [Message(content=..., role=..., conversation_id=...)], then [add] and
    [commit]. *)
Definition store_message (content : string) (role : RoleType) (cid : Z) (s : Session)
    : Message * Session :=
  let (timestamp, s1) := read_clock s in
  let (created_at, s2) := read_clock s1 in
  let (updated_at, s3) := read_clock s2 in
  let m := mkMessage (new_message_id (messages s3)) (VStr content) role
                     timestamp created_at updated_at (VInt cid) in
  (m, with_messages (insert (msg_id m) m) s3).

(** [POST /api/{user_id}/chat] *)
Definition chat_endpoint (user_id : string) (request : ChatRequest) (db_session : Session)
    : http ChatResponse * Session :=
  if PyStr.is_empty user_id || (String.length user_id <? 1)%nat
     || (100 <? String.length user_id)%nat
  then (HTTPException 400 "Invalid user_id", db_session)
  else if PyStr.is_empty (PyStr.strip (req_message request))
  then (HTTPException 400 "Message cannot be empty", db_session)
  else
    let found :=
      match req_conversation_id request with
      | Some cid =>
          if negb (cid =? 0) then
            match find_row (conversations db_session) (text_key db_session)
                           (VInt cid) with
            | inr (Some conversation) => inr (Some (conversation, db_session))
            | inr None => inr None
            | inl e => inl e
            end
          else inr (Some (store_conversation ("Conversation with " +:+ user_id)
                                             ("Chat session for user " +:+ user_id)
                                             db_session))
      | None => inr (Some (store_conversation ("Conversation with " +:+ user_id)
                                              ("Chat session for user " +:+ user_id)
                                              db_session))
      end in
    match found with
    | inl e => (HTTPException 500 "Internal server error", db_session)
    | inr None => (HTTPException 404 "Conversation not found", db_session)
    | inr (Some (conversation, s1)) =>
        let (user_message, s2) :=
          store_message (req_message request) USER (conv_id conversation) s1 in
        match handle_user_request (req_message request) true s2 with
        | (inl e, s3) => (HTTPException 500 "Internal server error", s3)
        | (inr agent_response, s3) =>
            let (assistant_message, s4) :=
              store_message agent_response ASSISTANT (conv_id conversation) s3 in
            let (now, s5) := read_clock s4 in
            (Ok (mkChatResponse (conv_id conversation) agent_response (isoformat now)),
             s5)
        end
    end.

Definition message_json (m : Message) : MessageJson :=
  mkMessageJson (msg_id m) (msg_content m) (RoleType_value (msg_role m))
                (isoformat (msg_timestamp m)) (isoformat (msg_created_at m)).

(** [GET /api/conversations/{conversation_id}] *)
Definition get_conversation (conversation_id : Z) (db_session : Session)
    : http ConversationJson :=
  match find_row (conversations db_session) (text_key db_session)
                 (VInt conversation_id) with
  | inl e => HTTPException 500 "Internal server error"
  | inr None => HTTPException 404 "Conversation not found"
  | inr (Some conversation) =>
      let messages :=
        merge_sort by_timestamp
          (List.filter (in_conversation (text_key db_session) conversation_id)
                       (rows (messages db_session))) in
      Ok (mkConversationJson (conv_id conversation) (conv_title conversation)
            (conv_description conversation)
            (isoformat (conv_created_at conversation))
            (isoformat (conv_updated_at conversation))
            (map message_json messages))
  end.

Definition task_json (t : Task) : TaskJson :=
  mkTaskJson (task_id t) (task_title t) (task_description t)
             (TaskStatus_value (task_status t)) (PriorityLevel_value (task_priority t))
             (isoformat (task_created_at t)) (isoformat (task_updated_at t))
             (task_conversation_id t).

(** [GET /api/tasks?status=] *)
Definition get_tasks (status : option string) (db_session : Session)
    : http (list TaskJson) :=
  match status with
  | Some st =>
      if negb (PyStr.is_empty st) then
        match TaskStatus_of (VStr st) with
        | inr status_enum =>
            Ok (map task_json (List.filter (status_is status_enum)
                                           (rows (tasks db_session))))
        | inl _ => HTTPException 400 ("Invalid status: " +:+ st)
        end
      else Ok (map task_json (rows (tasks db_session)))
  | None => Ok (map task_json (rows (tasks db_session)))
  end.

End Endpoints.

(** The key one above the greatest key in use, 1 for an empty table: the
    row id SQLite gives. *)
Definition next_key {A} (m : gmap Z A) : Z :=
  map_fold (fun k _ acc => Z.max acc (k + 1)) 1 m.

End ChatApi.

(** What a chat request does to the conversations. *)
Module Turn.
Import Py Models Db ChatApi.

(** Between [db] and [db'] one conversation was opened for [user_id],
    under the id [cid], which was free. *)
Definition opened (user_id : string) (db db' : Session) (cid : Z) : Prop :=
  exists c,
    conv_id c = cid
    /\ conv_title c = VStr ("Conversation with " +:+ user_id)
    /\ conv_description c = VStr ("Chat session for user " +:+ user_id)
    /\ conversations db !! cid = None
    /\ conversations db' = <[cid := c]> (conversations db).

(** The conversation a request is answered in: the stored one it names,
    or a new one when it names none or names 0. *)
Definition resolved (user_id : string) (request : ChatRequest) (db db' : Session)
    (cid : Z) : Prop :=
  match req_conversation_id request with
  | Some given =>
      if given =? 0 then opened user_id db db' cid
      else (exists c, conversations db !! given = Some c /\ cid = conv_id c)
           /\ conversations db' = conversations db
  | None => opened user_id db db' cid
  end.

(** The statuses [GET /api/tasks] takes as a filter. *)
Definition status_values : list string :=
  ["pending"; "in_progress"; "completed"; "cancelled"].

End Turn.

(* ===================================================================== *)
(** * Properties *)
(* ===================================================================== *)

(** ** Strings *)

Section StringFacts.
Import PyStr.

Lemma app_cons_str (c : ascii) (a b : string) :
  String c a +:+ b = String c (a +:+ b).
Proof. reflexivity. Qed.

Lemma app_nil_l_str (b : string) : EmptyString +:+ b = b.
Proof. reflexivity. Qed.

Lemma app_nil_r_str (s : string) : s +:+ EmptyString = s.
Proof.
  induction s as [|c s IH]; [reflexivity|].
  rewrite app_cons_str, IH. reflexivity.
Qed.

Lemma app_assoc_str (a b c : string) : (a +:+ b) +:+ c = a +:+ (b +:+ c).
Proof.
  induction a as [|x a IH]; [reflexivity|].
  rewrite !app_cons_str, IH. reflexivity.
Qed.

Lemma length_app_str (a b : string) :
  String.length (a +:+ b) = (String.length a + String.length b)%nat.
Proof.
  induction a as [|x a IH]; [reflexivity|].
  rewrite app_cons_str. simpl. rewrite IH. reflexivity.
Qed.

Lemma has_prefix_app (p s : string) : has_prefix p (p +:+ s) = true.
Proof.
  induction p as [|c p IH]; [reflexivity|].
  rewrite app_cons_str. simpl. rewrite Ascii.eqb_refl, IH. reflexivity.
Qed.

Lemma has_prefix_inv (p s : string) :
  has_prefix p s = true -> s = p +:+ drop (String.length p) s.
Proof.
  revert s. induction p as [|c p IH]; intros s H; [reflexivity|].
  destruct s as [|d s]; simpl in H; [discriminate|].
  apply andb_true_iff in H as [Hc Hp].
  apply Ascii.eqb_eq in Hc. subst d.
  rewrite app_cons_str. simpl. rewrite <- (IH s Hp). reflexivity.
Qed.



Lemma contains_app_l (w pre s : string) :
  contains w s = true -> contains w (pre +:+ s) = true.
Proof.
  induction pre as [|c pre IH]; intros H; [exact H|].
  rewrite app_cons_str. simpl. rewrite (IH H). apply orb_true_r.
Qed.

Lemma contains_prefix (w s : string) : has_prefix w s = true -> contains w s = true.
Proof. intros H. destruct s; simpl in *; rewrite H; reflexivity. Qed.

(** [w in s] holds of every text in which [w] occurs, *)
Lemma contains_intro (w pre post : string) : contains w (pre +:+ w +:+ post) = true.
Proof. apply contains_app_l, contains_prefix, has_prefix_app. Qed.

(** and of no other. *)
Lemma contains_inv (w s : string) :
  contains w s = true -> exists pre post, s = pre +:+ w +:+ post.
Proof.
  induction s as [|c s IH]; simpl; intros H.
  - rewrite orb_false_r in H. exists EmptyString, (drop (String.length w) EmptyString).
    now apply has_prefix_inv.
  - apply orb_true_iff in H as [H|H].
    + exists EmptyString, (drop (String.length w) (String c s)).
      now apply (has_prefix_inv w (String c s)).
    + destruct (IH H) as (pre & post & ->). now exists (String c pre), post.
Qed.



Lemma contains_false_app (w pre post : string) :
  contains w (pre +:+ post) = false -> contains w post = false.
Proof.
  intros H. destruct (contains w post) eqn:E; [|reflexivity].
  now rewrite (contains_app_l w pre post E) in H.
Qed.

Lemma lower_app (a b : string) : lower (a +:+ b) = lower a +:+ lower b.
Proof.
  induction a as [|c a IH]; [reflexivity|].
  rewrite app_cons_str. simpl. rewrite IH. reflexivity.
Qed.

End StringFacts.

(** ** The patterns of the resolver *)

Section PatternFacts.
Import PyStr Spec.

Lemma take_digits_all (ds rest : string) :
  all_digits ds = true -> take_digits rest = EmptyString ->
  take_digits (ds +:+ rest) = ds.
Proof.
  intros Hds Hrest. induction ds as [|c ds IH]; [exact Hrest|].
  simpl in Hds. apply andb_true_iff in Hds as [Hc Hds].
  rewrite app_cons_str. simpl. rewrite Hc, (IH Hds). reflexivity.
Qed.

Lemma take_digits_all_digits (s : string) : all_digits (take_digits s) = true.
Proof.
  induction s as [|c s IH]; [reflexivity|].
  simpl. destruct (is_digit c) eqn:E; [|reflexivity].
  simpl. rewrite E, IH. reflexivity.
Qed.

(** A text that does not start with a digit still does not once
    something starting with ['#'] is put after it. *)
Lemma take_digits_before_hash (p r : string) :
  take_digits p = EmptyString ->
  take_digits (p +:+ String "#" r) = EmptyString.
Proof.
  destruct p as [|c p]; intros H; [reflexivity|].
  rewrite app_cons_str. simpl in *.
  destruct (is_digit c); [discriminate | reflexivity].
Qed.

Lemma is_empty_false (s : string) : s <> EmptyString -> is_empty s = false.
Proof. destruct s; [congruence | reflexivity]. Qed.

(** The leftmost ['#'] followed by digits is the match, and the whole
    run of digits is the group. *)
Lemma re_search_hash_digits_first (pre ds rest : string) :
  re_search_hash_digits pre = None ->
  ds <> EmptyString -> all_digits ds = true -> take_digits rest = EmptyString ->
  re_search_hash_digits (pre +:+ String "#" (ds +:+ rest)) = Some ds.
Proof.
  intros Hpre Hne Hds Hrest. induction pre as [|c pre IH].
  - rewrite app_nil_l_str. simpl.
    rewrite (take_digits_all _ _ Hds Hrest), (is_empty_false _ Hne). reflexivity.
  - rewrite app_cons_str. simpl in *.
    destruct (Ascii.eqb c "#") eqn:Ec; simpl in *.
    + destruct (take_digits pre) eqn:Et; simpl in Hpre; [|discriminate].
      rewrite (take_digits_before_hash pre _ Et). simpl. exact (IH Hpre).
    + exact (IH Hpre).
Qed.

Lemma take_digits_cons (s t : string) (d : ascii) :
  take_digits s = String d t ->
  exists s', s = String d s' /\ is_digit d = true.
Proof.
  destruct s as [|c s]; simpl; [discriminate|].
  destruct (is_digit c) eqn:E; [|discriminate].
  intros [= <- _]. eauto.
Qed.

(** No match means: nowhere in the text is a ['#'] followed by a digit. *)
Lemma re_search_hash_digits_None (s : string) :
  re_search_hash_digits s = None <->
  forall a d b, is_digit d = true -> s <> a +:+ String "#" (String d b).
Proof.
  induction s as [|c s IH]; simpl.
  - split; [|reflexivity]. intros _ [|x a] d b _; discriminate.
  - assert (Htail : (forall a d b, is_digit d = true ->
                                   String c s <> String c (a +:+ String "#" (String d b)))
                    <-> re_search_hash_digits s = None).
    { rewrite IH. split; intros H a d b Hd Heq.
      - apply (H a d b Hd). now rewrite Heq.
      - injection Heq as Heq. exact (H a d b Hd Heq). }
    destruct (Ascii.eqb c "#") eqn:Ec; simpl.
    + apply Ascii.eqb_eq in Ec. subst c.
      destruct (take_digits s) as [|d t] eqn:Et; simpl.
      * rewrite <- Htail. split.
        -- intros H [|x a] e b He Heq.
           ++ rewrite app_nil_l_str in Heq. injection Heq as ->.
              simpl in Et. rewrite He in Et. discriminate.
           ++ rewrite app_cons_str in Heq. injection Heq as <- ->.
              exact (H a e b He eq_refl).
        -- intros H a e b He Heq.
           apply (H (String "#" a) e b He). rewrite app_cons_str. exact Heq.
      * split; [discriminate|]. intros H. exfalso.
        destruct (take_digits_cons _ _ _ Et) as (s' & -> & Hd).
        exact (H EmptyString d s' Hd eq_refl).
    + rewrite <- Htail. split.
      * intros H [|x a] e b He Heq.
        -- rewrite app_nil_l_str in Heq. injection Heq as -> _.
           rewrite Ascii.eqb_refl in Ec. discriminate.
        -- rewrite app_cons_str in Heq. injection Heq as -> ->.
           exact (H a e b He eq_refl).
      * intros H a e b He Heq.
        apply (H (String c a) e b He). rewrite app_cons_str. exact Heq.
Qed.

Lemma int_digits_total (ds : string) :
  all_digits ds = true ->
  forall acc, 0 <= acc -> exists n, int_digits acc ds = Some n /\ 0 <= n.
Proof.
  induction ds as [|c ds IH]; intros Hds acc Hacc; simpl.
  - eauto.
  - simpl in Hds. apply andb_true_iff in Hds as [Hc Hds]. rewrite Hc.
    apply (IH Hds). unfold digit_value.
    unfold is_digit in Hc. apply andb_true_iff in Hc as [Hlo _].
    apply N.leb_le in Hlo. lia.
Qed.

Lemma take_digits_self (ds : string) : all_digits ds = true -> take_digits ds = ds.
Proof.
  induction ds as [|c ds IH]; [reflexivity|].
  simpl. intros H. apply andb_true_iff in H as [Hc Hds]. rewrite Hc, (IH Hds).
  reflexivity.
Qed.

(** On a run of digits the limit of [int] is a limit on the length. *)
Lemma over_digit_limit_digits (ds : string) :
  all_digits ds = true ->
  over_digit_limit ds = (int_max_str_digits <? String.length ds)%nat.
Proof. intros Hds. unfold over_digit_limit. now rewrite take_digits_self. Qed.

(** [int] reads every non-empty run of at most 4300 digits, *)
Lemma int_total (ds : string) :
  ds <> EmptyString -> all_digits ds = true ->
  (String.length ds <= int_max_str_digits)%nat ->
  exists n, PyStr.int ds = Some n /\ 0 <= n.
Proof.
  intros Hne Hds Hlen. unfold PyStr.int.
  rewrite (is_empty_false _ Hne), (over_digit_limit_digits _ Hds).
  apply Nat.ltb_ge in Hlen. rewrite Hlen.
  apply (int_digits_total _ Hds). lia.
Qed.

(** and raises on a longer one. *)
Lemma int_over_limit (ds : string) :
  all_digits ds = true ->
  (int_max_str_digits < String.length ds)%nat ->
  Py.int ds = inl (Py.ValueError (Py.digit_limit_message (String.length ds))).
Proof.
  intros Hds Hlen. unfold Py.int, PyStr.int.
  assert (Hne : is_empty ds = false).
  { destruct ds; [simpl in Hlen; lia | reflexivity]. }
  rewrite Hne, (over_digit_limit_digits _ Hds).
  apply Nat.ltb_lt in Hlen. rewrite Hlen. now rewrite take_digits_self.
Qed.

Lemma first_alt_Some (alts : list string) (s a : string) :
  first_alt alts s = Some a -> In a alts /\ has_prefix a s = true.
Proof.
  induction alts as [|x alts IH]; simpl; [discriminate|].
  destruct (has_prefix x s) eqn:E.
  - intros [= <-]. auto.
  - intros H. destruct (IH H). auto.
Qed.

Lemma first_alt_None (alts : list string) (s : string) :
  first_alt alts s = None -> forall a, In a alts -> has_prefix a s = false.
Proof.
  induction alts as [|x alts IH]; simpl; [tauto|].
  destruct (has_prefix x s) eqn:E; [discriminate|].
  intros H a [<-|Hin]; auto.
Qed.

(** The group of a match is an alternative that occurs in the text, and
    no alternative occurs further to the left. *)
Lemma re_search_alt_Some (alts : list string) (s st : string) :
  re_search_alt alts s = Some st ->
  exists pre post,
    s = pre +:+ st +:+ post /\ In st alts /\
    forall a p q, In a alts -> s = p +:+ a +:+ q ->
                  (String.length pre <= String.length p)%nat.
Proof.
  induction s as [|c s IH]; simpl.
  - destruct (first_alt alts EmptyString) eqn:E; [|discriminate].
    intros [= ->]. apply first_alt_Some in E as [Hin Hp].
    exists EmptyString, (drop (String.length st) EmptyString).
    split; [now apply has_prefix_inv|]. split; [exact Hin|]. simpl. lia.
  - destruct (first_alt alts (String c s)) eqn:E.
    + intros [= ->]. apply first_alt_Some in E as [Hin Hp].
      exists EmptyString, (drop (String.length st) (String c s)).
      split; [now apply (has_prefix_inv st (String c s))|].
      split; [exact Hin|]. simpl. lia.
    + intros H. destruct (IH H) as (pre & post & -> & Hin & Hleft).
      exists (String c pre), post. split; [reflexivity|]. split; [exact Hin|].
      intros a [|x p] q Ha Heq.
      * exfalso. rewrite app_nil_l_str in Heq.
        pose proof (first_alt_None _ _ E a Ha) as Hf.
        rewrite Heq, has_prefix_app in Hf. discriminate.
      * rewrite app_cons_str in Heq. injection Heq as _ Heq.
        simpl. specialize (Hleft a p q Ha Heq). lia.
Qed.

(** No match means that no alternative occurs in the text. *)
Lemma re_search_alt_None (alts : list string) (s : string) :
  re_search_alt alts s = None -> forall a, In a alts -> contains a s = false.
Proof.
  induction s as [|c s IH]; simpl; intros H a Ha.
  - destruct (first_alt alts EmptyString) eqn:E; [discriminate|].
    rewrite (first_alt_None _ _ E a Ha). reflexivity.
  - destruct (first_alt alts (String c s)) eqn:E; [discriminate|].
    rewrite (first_alt_None _ _ E a Ha), (IH H a Ha). reflexivity.
Qed.

(** The status the resolver picks is the one the text asks for first. *)
Lemma status_match_first (l : string) :
  first_status l (match re_search_alt status_literals l with
                  | Some st => st
                  | None => "in_progress"
                  end).
Proof.
  destruct (re_search_alt status_literals l) as [st|] eqn:E.
  - left. exact (re_search_alt_Some _ _ _ E).
  - right. split; [reflexivity|]. exact (re_search_alt_None _ _ E).
Qed.

End PatternFacts.

(** ** Decimal notation *)

Section DecimalFacts.
Import PyStr Spec.

Lemma pretty_N_char_digit (d : N) :
  (d < 10)%N ->
  is_digit (pretty_N_char d) = true /\ digit_value (pretty_N_char d) = Z.of_N d.
Proof.
  intros Hd.
  assert (d = 0 \/ d = 1 \/ d = 2 \/ d = 3 \/ d = 4 \/ d = 5 \/ d = 6 \/ d = 7
          \/ d = 8 \/ d = 9)%N as H by lia.
  repeat (destruct H as [->|H]; [split; reflexivity|]). subst d. split; reflexivity.
Qed.

(** Reading the digits that [str] writes in front of [s] shifts the
    accumulator by as many decimal places and adds the number. *)
Lemma int_digits_pretty_N_go (x : N) :
  exists k : Z, 0 <= k /\
    forall acc s, int_digits acc (pretty_N_go x s)
                  = int_digits (acc * 10 ^ k + Z.of_N x) s.
Proof.
  induction (N.lt_wf_0 x) as [x _ IH].
  destruct (decide (x = 0)%N) as [->|Hx].
  - exists 0. split; [lia|]. intros acc s. rewrite pretty_N_go_0. f_equal. lia.
  - destruct (IH (x `div` 10)%N) as (k & Hk & Hread).
    { apply N.div_lt; lia. }
    exists (k + 1). split; [lia|]. intros acc s.
    rewrite pretty_N_go_step by lia. rewrite Hread. simpl.
    destruct (pretty_N_char_digit (x `mod` 10)%N) as [-> ->].
    { apply N.mod_lt. lia. }
    f_equal. rewrite Z.pow_add_r by lia.
    rewrite N2Z.inj_div, N2Z.inj_mod.
    pose proof (Z.div_mod (Z.of_N x) 10 ltac:(lia)). lia.
Qed.

Lemma all_digits_pretty_N_go (x : N) (s : string) :
  all_digits s = true -> all_digits (pretty_N_go x s) = true.
Proof.
  revert s. induction (N.lt_wf_0 x) as [x _ IH]. intros s Hs.
  destruct (decide (x = 0)%N) as [->|Hx]; [now rewrite pretty_N_go_0|].
  rewrite pretty_N_go_step by lia. apply IH; [apply N.div_lt; lia|].
  simpl. rewrite Hs.
  destruct (pretty_N_char_digit (x `mod` 10)%N) as [-> _]; [apply N.mod_lt; lia|].
  reflexivity.
Qed.

Lemma nonempty_pretty_N_go (x : N) (s : string) :
  is_empty s = false -> is_empty (pretty_N_go x s) = false.
Proof.
  revert s. induction (N.lt_wf_0 x) as [x _ IH]. intros s Hs.
  destruct (decide (x = 0)%N) as [->|Hx]; [now rewrite pretty_N_go_0|].
  rewrite pretty_N_go_step by lia. apply IH; [apply N.div_lt; lia | reflexivity].
Qed.

(** [str] of a natural number is a non-empty run of digits, *)
Lemma str_int_digits (n : Z) :
  0 <= n -> all_digits (str_int n) = true /\ is_empty (str_int n) = false.
Proof.
  intros Hn. destruct n as [|p|p]; [split; reflexivity | | lia].
  change (str_int (Z.pos p)) with (pretty_N_go (N.pos p) EmptyString).
  split; [now apply all_digits_pretty_N_go|].
  rewrite pretty_N_go_step by lia. now apply nonempty_pretty_N_go.
Qed.

(** and [int] reads back the number, when it has no more digits than
    [int] converts. *)
Lemma int_str_int (n : Z) :
  0 <= n -> (String.length (str_int n) <= int_max_str_digits)%nat ->
  PyStr.int (str_int n) = Some n.
Proof.
  intros Hn Hlen. unfold PyStr.int.
  rewrite (proj2 (str_int_digits n Hn)).
  rewrite (over_digit_limit_digits _ (proj1 (str_int_digits n Hn))).
  apply Nat.ltb_ge in Hlen. rewrite Hlen.
  destruct n as [|p|p]; [reflexivity | | lia].
  change (str_int (Z.pos p)) with (pretty_N_go (N.pos p) EmptyString).
  destruct (int_digits_pretty_N_go (N.pos p)) as (k & _ & Hread).
  rewrite Hread. simpl. f_equal.
Qed.

End DecimalFacts.

(** ** Splitting at a separator *)

Section SplitFacts.
Import PyStr.

Lemma cut_eq (sep s : string) :
  cut sep s =
  if has_prefix sep s then Some (EmptyString, drop (String.length sep) s)
  else match s with
       | EmptyString => None
       | String c s' =>
           match cut sep s' with
           | Some (a, b) => Some (String c a, b)
           | None => None
           end
       end.
Proof. destruct s; reflexivity. Qed.



(** What [s.split(sep)[1]] is: the text between the first and the second
    occurrence of [sep], or all the text after the first when there is
    no second. *)
Lemma split_index_1 (sep s pre rest : string) :
  (2 <= String.length s)%nat ->
  cut sep s = Some (pre, rest) ->
  split sep s !! 1%nat =
  Some (match cut sep rest with Some (a, _) => a | None => rest end).
Proof.
  intros Hlen Hcut. unfold split.
  destruct (String.length s) as [|[|n]]; [lia | lia |].
  simpl. rewrite Hcut. destruct (cut sep rest) as [[a b]|]; reflexivity.
Qed.







(** A separator that occurs can be cut at. *)
Lemma contains_cut (sep s : string) :
  contains sep s = true -> exists a b, cut sep s = Some (a, b).
Proof.
  induction s as [|c s IH]; intros H; rewrite cut_eq.
  - simpl in H. rewrite orb_false_r in H. rewrite H. eauto.
  - simpl in H. destruct (has_prefix sep (String c s)); [eauto|].
    simpl in H. destruct (IH H) as (a & b & ->). eauto.
Qed.

Lemma contains_length (sep s : string) :
  contains sep s = true -> (String.length sep <= String.length s)%nat.
Proof.
  intros H. destruct (contains_inv _ _ H) as (pre & post & ->).
  rewrite !length_app_str. lia.
Qed.

(** [s.split(sep)[1]] exists as soon as [sep], of two characters or
    more, occurs in [s]: the guard [sep in s] makes the index safe. *)
Lemma split_index_1_exists (sep s : string) :
  (2 <= String.length sep)%nat -> contains sep s = true ->
  exists x, Py.index (split sep s) 1 = inr x.
Proof.
  intros Hsep H. destruct (contains_cut _ _ H) as (a & b & Hcut).
  pose proof (contains_length _ _ H) as Hlen.
  unfold Py.index. rewrite (split_index_1 sep s a b) by (lia || exact Hcut). eauto.
Qed.

End SplitFacts.

(** ** The intent resolver and the confirmation gate *)

Section ResolverFacts.
Import PyStr Py Models Db MCPTaskManager OpenAIAgent Spec.










Lemma take_digits_app_empty (p w : string) :
  take_digits p = EmptyString -> take_digits w = EmptyString ->
  take_digits (p +:+ w) = EmptyString.
Proof.
  destruct p as [|c p]; intros Hp Hw; [exact Hw|].
  rewrite app_cons_str. simpl in *.
  destruct (is_digit c); [discriminate | reflexivity].
Qed.

(** Text without any ['#'] followed by a digit can be put after [pre]
    without creating a match, provided it does not start with a digit. *)
Lemma re_search_hash_digits_app_None (pre w : string) :
  re_search_hash_digits pre = None -> re_search_hash_digits w = None ->
  take_digits w = EmptyString ->
  re_search_hash_digits (pre +:+ w) = None.
Proof.
  intros Hpre Hw Hd. induction pre as [|c pre IH]; [exact Hw|].
  rewrite app_cons_str. simpl in *.
  destruct (Ascii.eqb c "#"); simpl in *; [|exact (IH Hpre)].
  destruct (take_digits pre) eqn:Et; simpl in Hpre; [|discriminate].
  rewrite (take_digits_app_empty _ _ Et Hd). simpl. exact (IH Hpre).
Qed.

(** C2, as the code has it.  Let the lower-cased text contain
    "delete task #N", [N] being the whole run of digits after the ['#'],
    with no ['#'] followed by a digit before it, and contain neither
    "create" nor "update".  When [N] has at most 4300 digits, the
    resolver produces exactly one call, [delete_task] with [id = N], asks
    for confirmation with the delete prompt, and the gate requires
    confirmation for the call.  When [N] has more, [int] refuses it and
    the resolver raises the [ValueError]. *)
Theorem delete_task_resolved (text pre ds rest : string) :
  lower text = pre +:+ "delete task #" +:+ ds +:+ rest ->
  is_empty ds = false -> all_digits ds = true ->
  take_digits rest = EmptyString ->
  re_search_hash_digits pre = None ->
  contains "create" (lower text) = false ->
  contains "update" (lower text) = false ->
  ((String.length ds <= int_max_str_digits)%nat ->
   exists n,
     PyStr.int ds = Some n
     /\ process_request text
        = inr (respond_confirm (delete_call n)
                 ("I'm about to delete task #" +:+ str_int n +:+ ". Is that OK?"))
     /\ _needs_confirmation (name (delete_call n)) = true)
  /\ ((int_max_str_digits < String.length ds)%nat ->
      process_request text
      = inl (ValueError (digit_limit_message (String.length ds)))).
Proof.
  intros Hl Hne Hds Hrest Hpre Hnc Hnu.
  assert (Hne' : ds <> EmptyString) by (destruct ds; [discriminate | congruence]).
  assert (Hrun : forall r,
             Py.int ds = r ->
             process_request text
             = match r with
               | inl e => inl e
               | inr n => inr (respond_confirm (delete_call n)
                                 ("I'm about to delete task #" +:+ str_int n
                                  +:+ ". Is that OK?"))
               end);
    [|split;
      [intros Hlen; destruct (int_total ds Hne' Hds Hlen) as (n & Hn & _);
       exists n; split; [exact Hn|]; split; [|reflexivity];
       apply (Hrun (inr n)); unfold Py.int; rewrite Hn; reflexivity
      |intros Hlen; apply (Hrun (inl _)); now apply int_over_limit]].
  intros r Hr.
  assert (Hdel : contains "delete" (lower text) = true).
  { rewrite Hl. exact (contains_intro "delete" pre (" task #" +:+ ds +:+ rest)). }
  assert (Htask : contains "task" (lower text) = true).
  { rewrite Hl. apply contains_app_l.
    exact (contains_intro "task" "delete " ("#" +:+ ds +:+ rest)). }
  assert (Hid : re_search_hash_digits (lower text) = Some ds).
  { rewrite Hl.
    change (pre +:+ "delete task #" +:+ ds +:+ rest)
      with (pre +:+ "delete task " +:+ String "#" (ds +:+ rest)).
    rewrite <- app_assoc_str.
    apply re_search_hash_digits_first; try assumption.
    apply re_search_hash_digits_app_None; [assumption | reflexivity | reflexivity]. }
  unfold process_request. cbv zeta.
  rewrite Hnc, Hnu, Hdel, Htask, Hid. cbn [andb]. rewrite Hr.
  destruct r; reflexivity.
Qed.

(** C2 at "Delete task #2". *)
Lemma delete_task_resolved_witness :
  exists n,
    PyStr.int "2" = Some n
    /\ process_request "Delete task #2"
       = inr (respond_confirm (delete_call n)
                ("I'm about to delete task #" +:+ str_int n +:+ ". Is that OK?"))
    /\ _needs_confirmation (name (delete_call n)) = true.
Proof.
  apply (delete_task_resolved "Delete task #2" EmptyString "2" EmptyString
           eq_refl eq_refl eq_refl eq_refl eq_refl eq_refl eq_refl).
  apply Nat.leb_le. reflexivity.
Defined.

(** C2 as stated fails: "delete task #5 and create a report" contains
    "delete task #5" and resolves to [create_task], the earlier case of
    the chain. *)
Lemma delete_task_resolved_counterexample :
  ~ (forall text pre ds rest,
        text = pre +:+ "delete task #" +:+ ds +:+ rest ->
        is_empty ds = false -> all_digits ds = true ->
        take_digits rest = EmptyString ->
        exists n r,
          PyStr.int ds = Some n /\ process_request text = inr r
          /\ tool_calls r = [delete_call n]).
Proof.
  intros H.
  destruct (H "delete task #5 and create a report" EmptyString "5"
              " and create a report" eq_refl eq_refl eq_refl eq_refl)
    as (n & r & _ & Hr & Htc).
  vm_compute in Hr. injection Hr as <-. discriminate Htc.
Qed.

(** The remaining two conditions are needed as well: "update" takes
    precedence, and the id is the first one in the text. *)
Example delete_task_shadowed_by_update :
  process_request "update list then delete task #5"
  = inr (respond_confirm (update_call 5 "in_progress")
           "I'm about to update task #5 with status=in_progress. Is that OK?").
Proof. vm_compute. reflexivity. Qed.

Example delete_task_takes_first_id :
  process_request "after #1, delete task #2"
  = inr (respond_confirm (delete_call 1) "I'm about to delete task #1. Is that OK?").
Proof. vm_compute. reflexivity. Qed.

End ResolverFacts.

Section UpdateAndConfirmation.
Import PyStr Py Models Db MCPTaskManager OpenAIAgent Spec.

(** C6, as the code has it.  Let the lower-cased text contain "update"
    and "task" and not "create".
    - If it contains a ['#'] followed by digits, at most 4300 of them,
      the resolver produces one [update_task] call whose id is the first
      such run of digits and whose status is the leftmost occurrence of
      one of "pending", "in_progress", "completed" in the text, or
      "in_progress" when none of the three occurs; it asks for
      confirmation with the update prompt.
    - If the first such run has more than 4300 digits, [int] refuses it
      and the resolver raises the [ValueError].
    - If it contains no ['#'] followed by a digit, the resolver produces
      no call and no error, only the "not sure" message. *)
Theorem update_task_resolved (text : string) :
  contains "update" (lower text) = true ->
  contains "task" (lower text) = true ->
  contains "create" (lower text) = false ->
  (forall pre ds rest,
      lower text = pre +:+ String "#" (ds +:+ rest) ->
      re_search_hash_digits pre = None ->
      is_empty ds = false -> all_digits ds = true ->
      take_digits rest = EmptyString ->
      (String.length ds <= int_max_str_digits)%nat ->
      exists n st,
        PyStr.int ds = Some n
        /\ first_status (lower text) st
        /\ process_request text
           = inr (respond_confirm (update_call n st)
                    ("I'm about to update task #" +:+ str_int n
                     +:+ " with status=" +:+ st +:+ ". Is that OK?")))
  /\ (forall pre ds rest,
         lower text = pre +:+ String "#" (ds +:+ rest) ->
         re_search_hash_digits pre = None ->
         is_empty ds = false -> all_digits ds = true ->
         take_digits rest = EmptyString ->
         (int_max_str_digits < String.length ds)%nat ->
         process_request text
         = inl (ValueError (digit_limit_message (String.length ds))))
  /\ (re_search_hash_digits (lower text) = None ->
      process_request text = inr respond_nothing).
Proof.
  intros Hu Ht Hnc. split; [|split].
  - intros pre ds rest Hl Hpre Hne Hds Hrest Hlen.
    assert (Hne' : ds <> EmptyString) by (destruct ds; [discriminate | congruence]).
    destruct (int_total ds Hne' Hds Hlen) as (n & Hn & _).
    exists n, (match re_search_alt status_literals (lower text) with
               | Some st => st
               | None => "in_progress"
               end).
    split; [exact Hn|]. split; [apply status_match_first|].
    assert (Hid : re_search_hash_digits (lower text) = Some ds).
    { rewrite Hl. now apply re_search_hash_digits_first. }
    unfold process_request. cbv zeta.
    rewrite Hnc, Hu, Ht, Hid. cbn [andb]. unfold Py.int. rewrite Hn.
    reflexivity.
  - intros pre ds rest Hl Hpre Hne Hds Hrest Hlen.
    assert (Hne' : ds <> EmptyString) by (destruct ds; [discriminate | congruence]).
    assert (Hid : re_search_hash_digits (lower text) = Some ds).
    { rewrite Hl. now apply re_search_hash_digits_first. }
    unfold process_request. cbv zeta.
    rewrite Hnc, Hu, Ht, Hid. cbn [andb]. rewrite (int_over_limit _ Hds Hlen).
    reflexivity.
  - intros Hid. unfold process_request. cbv zeta.
    rewrite Hnc, Hu, Ht, Hid. reflexivity.
Qed.

(** C6 at "Update task #1 to completed status". *)
Lemma update_task_resolved_witness :
  exists n st,
    PyStr.int "1" = Some n
    /\ first_status "update task #1 to completed status" st
    /\ process_request "Update task #1 to completed status"
       = inr (respond_confirm (update_call n st)
                ("I'm about to update task #" +:+ str_int n
                 +:+ " with status=" +:+ st +:+ ". Is that OK?")).
Proof.
  apply (proj1 (update_task_resolved "Update task #1 to completed status"
                  eq_refl eq_refl eq_refl)
               "update task " "1" " to completed status"
               eq_refl eq_refl eq_refl eq_refl eq_refl).
  apply Nat.leb_le. reflexivity.
Defined.

(** C6 as stated fails: in "update task #1 to cancelled" the one status
    literal is "cancelled", and the call carries "in_progress". *)
Lemma update_task_resolved_counterexample :
  let text := "update task #1 to cancelled" in
  contains "update" (lower text) = true
  /\ contains "task" (lower text) = true
  /\ lower text = "update task #1 to " +:+ "cancelled" +:+ EmptyString
  /\ (forall a, In a ["pending"; "in_progress"; "completed"] ->
                contains a (lower text) = false)
  /\ process_request text
     = inr (respond_confirm (update_call 1 "in_progress")
              "I'm about to update task #1 with status=in_progress. Is that OK?")
  /\ forall r, process_request text = inr r ->
               tool_calls r <> [update_call 1 "cancelled"].
Proof.
  cbv zeta. repeat split; try (vm_compute; reflexivity).
  - intros a [<-|[<-|[<-|[]]]]; vm_compute; reflexivity.
  - intros r Hr. vm_compute in Hr. injection Hr as <-. discriminate.
Qed.

Example update_task_witness_status :
  process_request "Update task #1 to completed status"
  = inr (respond_confirm (update_call 1 "completed")
           "I'm about to update task #1 with status=completed. Is that OK?").
Proof. vm_compute. reflexivity. Qed.

(** C7.  "Delete task #2" resolves to [delete_task] with id 2, needs
    confirmation, and the prompt is "I'm about to delete task #2. Is
    that OK?".  Run with confirmation still required
    ([confirm_execution = True], the bypass being off), the call is not
    executed: the session, and with it every task, is as before, and the
    one result is the [pending_confirmation] placeholder.  The request
    handler answers with the prompt and leaves the session alone as
    well. *)
Theorem delete_task_2_awaits_confirmation :
  process_request "Delete task #2"
  = inr (respond_confirm (delete_call 2) "I'm about to delete task #2. Is that OK?")
  /\ (forall s : Session,
         execute_tool_calls_with_session [delete_call 2] true s
         = ([mkResult "delete_task" "pending_confirmation"
                      "Action 'delete_task' requires confirmation" None], s))
  /\ (forall s : Session,
         handle_user_request "Delete task #2" true s
         = (inr "I'm about to delete task #2. Is that OK?", s)).
Proof.
  assert (Hp : process_request "Delete task #2"
               = inr (respond_confirm (delete_call 2)
                        "I'm about to delete task #2. Is that OK?"))
    by (vm_compute; reflexivity).
  split; [exact Hp|]. split; intros s.
  - reflexivity.
  - unfold handle_user_request, Db.bind, lift. rewrite Hp. reflexivity.
Qed.

(** Gated calls are skipped whatever they are: with confirmation
    required, a list of calls that all need confirmation leaves the
    session as it is. *)
Lemma gated_calls_leave_session (calls : list ToolCall) (s : Session) :
  forallb (fun tc => _needs_confirmation (name tc)) calls = true ->
  snd (execute_tool_calls_with_session calls true s) = s.
Proof.
  induction calls as [|tc calls IH]; intros H; [reflexivity|].
  simpl in H. apply andb_true_iff in H as [Htc Hrest].
  cbn [execute_tool_calls_with_session]. rewrite Htc. cbn [andb].
  specialize (IH Hrest).
  destruct (execute_tool_calls_with_session calls true s). exact IH.
Qed.

End UpdateAndConfirmation.

(** ** The tool registry *)

Section RegistryFacts.
Import PyStr Py Models Db MCPTaskManager OpenAIAgent Spec.

Lemma execute_tool_eq (tool : string) (args : dict) (s : Session) :
  execute_tool tool args s =
  match (available_tools !! tool : option (dict -> M payload)) with
  | Some f => tool_outcome (f args s)
  | None => (mkOutput "not_found" ("Tool '" +:+ tool +:+ "' not found") None, s)
  end.
Proof. reflexivity. Qed.

Lemma execute_registered (tool : string) (f : dict -> M payload) args s :
  available_tools !! tool = Some f ->
  execute_tool tool args s = tool_outcome (f args s).
Proof. intros H. rewrite execute_tool_eq, H. reflexivity. Qed.

Lemma execute_unregistered (tool : string) args s :
  available_tools !! tool = None ->
  execute_tool tool args s
  = (mkOutput "not_found" ("Tool '" +:+ tool +:+ "' not found") None, s).
Proof. intros H. rewrite execute_tool_eq, H. reflexivity. Qed.

(** The keys of [available_tools] are the eight tool names. *)
Lemma registered_iff (tool : string) :
  In tool registered_tools <-> is_Some (available_tools !! tool).
Proof.
  unfold available_tools, tool_registry, registered_tools. split.
  - simpl. intros H.
    repeat (destruct H as [<-|H]; [eexists; reflexivity|]). destruct H.
  - intros [f Hf]. apply elem_of_list_to_map_2 in Hf.
    apply list_elem_of_In in Hf. simpl in Hf.
    repeat (destruct Hf as [Hf|Hf]; [injection Hf as <- _; simpl; tauto|]).
    destruct Hf.
Qed.

Lemma tool_outcome_result (r : result payload * Session) :
  out_result (tool_outcome r).1 = "success"
  \/ out_result (tool_outcome r).1 = "error".
Proof. destruct r as [[e|v] s']; simpl; auto. Qed.

(** C5.  [execute_tool] is total and its result is one of three kinds:
    - for a name that is not a key of [available_tools] (the keys being
      the eight tool names), [NOT_FOUND] with the "Tool ... not found"
      message, no data, the session untouched;
    - for a registered name whose executor raises [e], [ERROR] with
      [str(e)] as message and no data;
    - for a registered name whose executor returns [v], [SUCCESS] with
      [v] as data;
    and the result is [NOT_FOUND] exactly when the name is not
    registered. *)
Theorem execute_tool_tri_state (tool : string) (args : dict) (s : Session) :
  (available_tools !! tool = None <-> ~ In tool registered_tools)
  /\ (available_tools !! tool = None ->
      execute_tool tool args s
      = (mkOutput (ToolResult_value NOT_FOUND)
                  ("Tool '" +:+ tool +:+ "' not found") None, s))
  /\ (forall f e s',
         available_tools !! tool = Some f -> f args s = (inl e, s') ->
         execute_tool tool args s
         = (mkOutput (ToolResult_value ERROR) (str_exn e) None, s'))
  /\ (forall f v s',
         available_tools !! tool = Some f -> f args s = (inr v, s') ->
         execute_tool tool args s
         = (mkOutput (ToolResult_value SUCCESS) "Tool executed successfully"
                     (Some v), s'))
  /\ (out_result (execute_tool tool args s).1 = ToolResult_value NOT_FOUND
      <-> available_tools !! tool = None)
  /\ In (out_result (execute_tool tool args s).1)
        [ToolResult_value SUCCESS; ToolResult_value ERROR;
         ToolResult_value NOT_FOUND].
Proof.
  split; [|split; [|split; [|split; [|split]]]].
  - rewrite registered_iff, <- eq_None_not_Some. reflexivity.
  - apply execute_unregistered.
  - intros f e s' Hf He. rewrite (execute_registered _ _ _ _ Hf), He. reflexivity.
  - intros f v s' Hf Hv. rewrite (execute_registered _ _ _ _ Hf), Hv. reflexivity.
  - rewrite execute_tool_eq.
    destruct (available_tools !! tool) as [f|] eqn:E; simpl.
    + split; [|discriminate].
      destruct (tool_outcome_result (f args s)) as [-> | ->]; discriminate.
    + split; reflexivity.
  - rewrite execute_tool_eq.
    destruct (available_tools !! tool) as [f|] eqn:E; simpl.
    + destruct (tool_outcome_result (f args s)) as [-> | ->]; auto.
    + auto.
Qed.

End RegistryFacts.

(** ** The task executors *)

Section TaskFacts.
Import PyStr Py Models Db MCPTaskManager OpenAIAgent Spec.

(** [greatest] finds a row whose id is at least that of every row. *)
Lemma greatest_is_max {A} (idf : A -> Z) (m : gmap Z A) (k : Z) (row : A) :
  m !! k = Some row ->
  exists best, greatest idf m = Some best /\ idf row <= idf best.
Proof.
  unfold greatest. revert k row.
  apply (map_fold_weak_ind
           (fun acc (m : gmap Z A) =>
              forall k row, m !! k = Some row ->
                            exists best, acc = Some best /\ idf row <= idf best)).
  - intros k row H. rewrite lookup_empty in H. discriminate.
  - intros i x m' r Hfresh IH k row Hk.
    destruct (decide (k = i)) as [->|Hne].
    + rewrite lookup_insert_eq in Hk. injection Hk as ->.
      destruct r as [best|]; [|exists row; split; [reflexivity | lia]].
      destruct (idf best <? idf row) eqn:E.
      * exists row. split; [reflexivity | lia].
      * exists best. split; [reflexivity|]. apply Z.ltb_ge in E. lia.
    + rewrite lookup_insert_ne in Hk by congruence.
      destruct (IH k row Hk) as (best & -> & Hle).
      destruct (idf best <? idf x) eqn:E.
      * exists x. split; [reflexivity|]. apply Z.ltb_lt in E. lia.
      * exists best. split; [reflexivity | exact Hle].
Qed.

(** Under the primary-key invariant the next id is not in use. *)
Lemma next_task_id_fresh (s : Session) :
  keyed_by_id (tasks s) -> tasks s !! next_task_id s = None.
Proof.
  intros Hkey. destruct (tasks s !! next_task_id s) as [row|] eqn:E; [|reflexivity].
  exfalso. pose proof (Hkey _ _ E) as Hid.
  destruct (greatest_is_max task_id _ _ _ E) as (best & Hbest & Hle).
  unfold next_task_id in Hid. rewrite Hbest in Hid. lia.
Qed.

(** What [_create_task] does, step by step: the two enumeration lookups
    may raise, before anything is read or written; otherwise the clock is
    read twice, and the new row is stored under the next id unless it has
    no title, in which case the commit fails and nothing is stored. *)
Lemma create_task_run (args : dict) (s : Session) :
  _create_task args s =
  match TaskStatus_of (get_default "status" (VStr "pending") args) with
  | inl e => (inl e, s)
  | inr st =>
      match PriorityLevel_of (get_default "priority" (VStr "medium") args) with
      | inl e => (inl e, s)
      | inr p =>
          let t := mkTask (next_task_id s) (get "title" args)
                          (get_default "description" (VStr EmptyString) args) st p
                          (clock s (ticks s)) (clock s (S (ticks s)))
                          (get "conversation_id" args) in
          match not_null "task.title" (get "title" args) with
          | inl e =>
              (inl e,
               mkSession (tasks s) (conversations s) (messages s) (clock s)
                         (S (S (ticks s))) (text_key s))
          | inr _ =>
              (inr (PTask t),
               mkSession (<[next_task_id s := t]> (tasks s)) (conversations s)
                         (messages s) (clock s) (S (S (ticks s))) (text_key s))
          end
      end
  end.
Proof.
  unfold _create_task, Db.bind, first_by_id_desc, lift, next_task_id.
  destruct (TaskStatus_of _) as [e|st]; [reflexivity|].
  destruct (PriorityLevel_of _) as [e|p]; [reflexivity|].
  unfold utcnow, has, getitem, get. cbn.
  destruct (Py.lookup "conversation_id" args);
    destruct (Py.lookup "title" args) as [[|n|x]|]; reflexivity.
Qed.

(** A title that is there lets the commit of a new task through. *)
Lemma not_null_value (column : string) (v : value) :
  v <> VNone -> not_null column v = inr tt.
Proof. destruct v; [congruence | reflexivity | reflexivity]. Qed.

(** [session.get] by cases. *)
Lemma find_row_found {A} (table : gmap Z A) (keys : string -> option Z)
    (i : Z) (row : A) :
  table !! i = Some row -> find_row table keys (VInt i) = inr (Some row).
Proof. intros H. simpl. rewrite H. reflexivity. Qed.

Lemma find_row_missing {A} (table : gmap Z A) (keys : string -> option Z) (i : Z) :
  table !! i = None -> in_int64 i = true ->
  find_row table keys (VInt i) = inr None.
Proof. intros H Hi. simpl. rewrite H, Hi. reflexivity. Qed.

Lemma find_row_overflow {A} (table : gmap Z A) (keys : string -> option Z) (i : Z) :
  table !! i = None -> in_int64 i = false ->
  find_row table keys (VInt i) = inl (OverflowError sqlite_overflow).
Proof. intros H Hi. simpl. rewrite H, Hi. reflexivity. Qed.

(** A row that [session.get] finds is a row of the table, and the only
    exception is the driver's [OverflowError]. *)
Lemma find_row_inv {A} (table : gmap Z A) (keys : string -> option Z)
    (ident : value) (row : A) :
  find_row table keys ident = inr (Some row) -> exists k, table !! k = Some row.
Proof.
  destruct ident as [|i|x]; simpl; [discriminate| |].
  - destruct (table !! i) eqn:E; [intros [= <-]; eauto|].
    destruct (in_int64 i); discriminate.
  - destruct (keys x) as [i|]; [|discriminate]. intros [= H]. eauto.
Qed.

Lemma find_row_raises {A} (table : gmap Z A) (keys : string -> option Z)
    (ident : value) (e : exn) :
  find_row table keys ident = inl e -> e = OverflowError sqlite_overflow.
Proof.
  destruct ident as [|i|x]; simpl; [discriminate| |discriminate].
  destruct (table !! i); [discriminate|].
  destruct (in_int64 i); [discriminate|]. now intros [= <-].
Qed.

(** The three executors that fetch a task raise the same [ValueError]
    when [session.get] finds no row, pass on the exception when
    [session.get] raises, and touch nothing either way. *)
Lemma task_executor_fails (tool : string) (f : dict -> M payload)
    (args : dict) (s : Session) :
  In (tool, f) [("update_task", _update_task); ("get_task", _get_task);
                ("delete_task", _delete_task)] ->
  match find_row (tasks s) (text_key s) (get "id" args) with
  | inr (Some _) => True
  | inr None =>
      f args s
      = (inl (ValueError ("Task with ID " +:+ str (get "id" args) +:+ " not found")), s)
  | inl e => f args s = (inl e, s)
  end.
Proof.
  intros Hf.
  simpl in Hf. destruct Hf as [Hf|[Hf|[Hf|[]]]]; injection Hf as <- <-;
    [unfold _update_task | unfold _get_task | unfold _delete_task];
    unfold Db.bind, get_row;
    destruct (find_row (tasks s) (text_key s) (get "id" args)) as [e|[t|]];
    auto.
Qed.

(** What the three executors that fetch a task do with an integer id
    that names no row. *)
Lemma task_executor_missing (tool : string) (args : dict) (i : Z) (s : Session) :
  In tool task_tools ->
  get "id" args = VInt i ->
  tasks s !! i = None ->
  execute_tool tool args s
  = (mkOutput (ToolResult_value ERROR)
              (if in_int64 i then task_not_found i else sqlite_overflow) None, s).
Proof.
  intros Htool Hid Hrow.
  assert (Hrun : forall f,
             In (tool, f) [("update_task", _update_task); ("get_task", _get_task);
                           ("delete_task", _delete_task)] ->
             available_tools !! tool = Some f ->
             execute_tool tool args s
             = (mkOutput (ToolResult_value ERROR)
                         (if in_int64 i then task_not_found i else sqlite_overflow)
                         None, s)).
  { intros f Hf Hreg. rewrite (execute_registered tool f) by exact Hreg.
    pose proof (task_executor_fails tool f args s Hf) as Hfail.
    rewrite Hid in Hfail. simpl in Hfail. rewrite Hrow in Hfail.
    destruct (in_int64 i); rewrite Hfail; reflexivity. }
  simpl in Htool. destruct Htool as [<-|[<-|[<-|[]]]].
  - apply (Hrun _update_task); [simpl; auto | reflexivity].
  - apply (Hrun _get_task); [simpl; auto | reflexivity].
  - apply (Hrun _delete_task); [simpl; auto | reflexivity].
Qed.

(** C4, as the code has it.  For a task id [i] that names no row and
    that is a 64-bit integer, as the keys of the table are,
    [execute_tool] with [update_task], [get_task] or [delete_task]
    returns the [ERROR] result (never an exception), with the message
    "Task with ID i not found", which contains the id, no data, and the
    session as it was.  For an id outside 64 bits the result is still the
    [ERROR] result and the session is as it was, but the message is the
    driver's, which does not name the id. *)
Theorem missing_task_is_error (tool : string) (args : dict) (i : Z) (s : Session) :
  In tool task_tools ->
  get "id" args = VInt i ->
  tasks s !! i = None ->
  (in_int64 i = true ->
   execute_tool tool args s
   = (mkOutput (ToolResult_value ERROR) (task_not_found i) None, s)
   /\ contains (str_int i) (task_not_found i) = true)
  /\ (in_int64 i = false ->
      execute_tool tool args s
      = (mkOutput (ToolResult_value ERROR) sqlite_overflow None, s)).
Proof.
  intros Htool Hid Hrow.
  pose proof (task_executor_missing tool args i s Htool Hid Hrow) as Hrun.
  split; intros Hi; rewrite Hi in Hrun.
  - split; [exact Hrun|].
    exact (contains_intro (str_int i) "Task with ID " " not found").
  - exact Hrun.
Qed.

(** C4 at [get_task] with id 999 in a session without rows. *)
Lemma missing_task_is_error_witness :
  execute_tool "get_task" [("id", VInt 999)] empty_session
  = (mkOutput "error" "Task with ID 999 not found" None, empty_session)
  /\ contains "999" "Task with ID 999 not found" = true.
Proof.
  apply (missing_task_is_error "get_task" [("id", VInt 999)] 999 empty_session).
  - simpl. auto.
  - reflexivity.
  - reflexivity.
  - reflexivity.
Defined.

(** C4 as stated fails: 9223372036854775808 names no task, and the
    message [get_task] is answered with does not contain it. *)
Lemma missing_task_is_error_counterexample :
  ~ (forall tool args i s,
        In tool task_tools -> get "id" args = VInt i -> tasks s !! i = None ->
        exists status message,
          execute_tool tool args s = (mkOutput status message None, s)
          /\ In status [ToolResult_value ERROR; ToolResult_value NOT_FOUND]
          /\ contains (str_int i) message = true).
Proof.
  intros H.
  destruct (H "get_task" [("id", VInt 9223372036854775808)] 9223372036854775808
              empty_session ltac:(simpl; auto) eq_refl eq_refl)
    as (status & message & Hrun & _ & Hmsg).
  rewrite (task_executor_missing "get_task" _ 9223372036854775808 empty_session)
    in Hrun by (simpl; auto; reflexivity).
  injection Hrun as _ <-. vm_compute in Hmsg. discriminate Hmsg.
Qed.

(** C5 on the three kinds of result, in a session without rows. *)
Lemma execute_tool_tri_state_witness :
  execute_tool "archive_task" [] empty_session
  = (mkOutput "not_found" "Tool 'archive_task' not found" None, empty_session)
  /\ execute_tool "get_task" [("id", VInt 7)] empty_session
     = (mkOutput "error" "Task with ID 7 not found" None, empty_session)
  /\ execute_tool "list_tasks" [] empty_session
     = (mkOutput "success" "Tool executed successfully" (Some (PTasks [])),
        empty_session).
Proof.
  split; [|split].
  - apply (execute_tool_tri_state "archive_task" [] empty_session). reflexivity.
  - exact (proj1 (proj2 (proj2 (execute_tool_tri_state
                                  "get_task" [("id", VInt 7)] empty_session)))
             _get_task (ValueError "Task with ID 7 not found") empty_session
             eq_refl eq_refl).
  - exact (proj1 (proj2 (proj2 (proj2 (execute_tool_tri_state
                                         "list_tasks" [] empty_session))))
             _list_tasks (PTasks []) empty_session eq_refl eq_refl).
Defined.

(** What [_update_task] does to the task it finds.  The row stays under
    its key; every other row and table is as before; [id] and the two
    timestamps are as before; a field whose key is not in [args] is as
    before; and when the executor returns, it returns the row, in which
    every field whose key is in [args] holds the argument.  (When an
    enumeration lookup raises, the assignments made before it stay; when
    the commit fails, none does.) *)
Lemma update_task_effect (args : dict) (s : Session) (j : Z) (t : Task) :
  find_row (tasks s) (text_key s) (get "id" args) = inr (Some t) ->
  tasks s !! j = Some t -> task_id t = j ->
  exists r s' t',
    _update_task args s = (r, s') /\
    tasks s' !! j = Some t' /\
    (forall k, k <> j -> tasks s' !! k = tasks s !! k) /\
    conversations s' = conversations s /\ messages s' = messages s /\
    task_id t' = task_id t /\
    task_created_at t' = task_created_at t /\
    task_updated_at t' = task_updated_at t /\
    (has "title" args = false -> task_title t' = task_title t) /\
    (has "description" args = false -> task_description t' = task_description t) /\
    (has "status" args = false -> task_status t' = task_status t) /\
    (has "priority" args = false -> task_priority t' = task_priority t) /\
    (has "conversation_id" args = false ->
     task_conversation_id t' = task_conversation_id t) /\
    (forall p, r = inr p ->
       p = PTask t' /\
       (forall v, Py.lookup "title" args = Some v -> task_title t' = v) /\
       (forall v, Py.lookup "description" args = Some v -> task_description t' = v) /\
       (forall v, Py.lookup "status" args = Some v ->
                  TaskStatus_of v = inr (task_status t')) /\
       (forall v, Py.lookup "priority" args = Some v ->
                  PriorityLevel_of v = inr (task_priority t')) /\
       (forall v, Py.lookup "conversation_id" args = Some v ->
                  task_conversation_id t' = v)).
Proof.
  intros Hid Hrow Hkey.
  destruct t as [i ti de st pr ca ua ci]. simpl in Hkey. subst i.
  unfold _update_task, Db.bind, get_row, lift, has, getitem, setattr, add_task,
    commit, refresh, ret.
  rewrite Hid.
  destruct (Py.lookup "title" args) as [[|n1|x1]|];
  destruct (Py.lookup "description" args) as [v2|];
  (destruct (Py.lookup "status" args) as [v3|];
     [destruct (TaskStatus_of v3) as [e3|st3] eqn:E3|]);
  (destruct (Py.lookup "priority" args) as [v4|];
     [destruct (PriorityLevel_of v4) as [e4|p4] eqn:E4|]);
  destruct (Py.lookup "conversation_id" args) as [v5|];
  cbn; (do 3 eexists); (split; [reflexivity|]); cbn;
  rewrite ?lookup_insert_eq;
  (split; [first [reflexivity | exact Hrow]|]);
  (split; [intros k Hk; rewrite ?lookup_insert_ne by congruence; reflexivity|]);
  repeat split; try reflexivity; try discriminate;
  intros; cbn in *; congruence.
Qed.



(** [_create_task] returns whenever it is given a title and the status
    and the priority it is given, or their defaults, are members of the
    enumerations. *)
Lemma create_task_succeeds (args : dict) (s : Session) st p :
  get "title" args <> VNone ->
  TaskStatus_of (get_default "status" (VStr "pending") args) = inr st ->
  PriorityLevel_of (get_default "priority" (VStr "medium") args) = inr p ->
  out_result (execute_tool "create_task" args s).1 = ToolResult_value SUCCESS.
Proof.
  intros Ht Hst Hp.
  rewrite (execute_registered "create_task" _create_task) by reflexivity.
  rewrite create_task_run, Hst, Hp, (not_null_value _ _ Ht). reflexivity.
Qed.

(** C8.  When [create_task] succeeds, [get_task] with the id of the
    task it returned, run next, returns the very same result: the same
    record, equal in id, title, description, status, priority, both
    timestamps and conversation reference; and it leaves the session as
    the create left it. *)
Theorem create_then_get (args : dict) (s s1 : Session) (out : ToolOutput) :
  execute_tool "create_task" args s = (out, s1) ->
  out_result out = ToolResult_value SUCCESS ->
  exists t,
    out_data out = Some (PTask t)
    /\ task_id t = next_task_id s
    /\ tasks s1 !! task_id t = Some t
    /\ execute_tool "get_task" [("id", VInt (task_id t))] s1 = (out, s1).
Proof.
  rewrite (execute_registered "create_task" _create_task) by reflexivity.
  rewrite create_task_run.
  destruct (TaskStatus_of _) as [e|st]; [intros [= <- <-]; discriminate|].
  destruct (PriorityLevel_of _) as [e|p]; [intros [= <- <-]; discriminate|].
  cbv zeta. destruct (not_null _ _) as [e|u]; [intros [= <- <-]; discriminate|].
  intros [= <- <-] _. eexists.
  split; [reflexivity|]. split; [reflexivity|].
  assert (Hrow : forall (m : gmap Z Task) k x, <[k := x]> m !! k = Some x)
    by (intros; apply lookup_insert_eq).
  split; [apply Hrow|].
  rewrite (execute_registered "get_task" _get_task) by reflexivity.
  unfold _get_task, Db.bind, get_row. cbn. rewrite Hrow. reflexivity.
Qed.

(** C8 on the first task created in an empty session. *)
Lemma create_then_get_witness :
  let args := [("title", VStr "Test task");
               ("description", VStr "A test task for verification");
               ("status", VStr "pending")] in
  let created := execute_tool "create_task" args empty_session in
  exists t,
    out_data created.1 = Some (PTask t)
    /\ task_id t = next_task_id empty_session
    /\ tasks created.2 !! task_id t = Some t
    /\ execute_tool "get_task" [("id", VInt (task_id t))] created.2
       = (created.1, created.2).
Proof.
  cbv zeta.
  apply (create_then_get
           [("title", VStr "Test task");
            ("description", VStr "A test task for verification");
            ("status", VStr "pending")] empty_session).
  - reflexivity.
  - reflexivity.
Defined.

(** The executors that do not write to the task table. *)
Lemma readers_keep_tasks (f : dict -> M payload) (args : dict) (s : Session) :
  In f [_get_task; _list_tasks; _create_conversation; _add_message;
        _get_conversation] ->
  tasks (f args s).2 = tasks s.
Proof.
  simpl. intros [<-|[<-|[<-|[<-|[<-|[]]]]]].
  - unfold _get_task, Db.bind, get_row.
    destruct (find_row _ _ _) as [e|[t|]]; reflexivity.
  - unfold _list_tasks, Db.bind, lift.
    destruct (truthy _); [|reflexivity].
    destruct (TaskStatus_of _); reflexivity.
  - unfold _create_conversation, Db.bind, first_by_id_desc, utcnow, add_conversation,
      commit. cbn. destruct (not_null _ _); reflexivity.
  - unfold _add_message, Db.bind, get_row, first_by_id_desc, lift, utcnow,
      Db.add_message, commit.
    destruct (find_row _ _ _) as [e|[c|]]; cbn; try reflexivity.
    destruct (RoleType_of _); cbn; [reflexivity|].
    destruct (not_null _ _); reflexivity.
  - unfold _get_conversation, Db.bind, get_row.
    destruct (find_row _ _ _) as [e|[c|]]; reflexivity.
Qed.

(** What [_delete_task] does to the task table: nothing, or the removal
    of one row. *)
Lemma delete_task_rows (args : dict) (s : Session) (i : Z) (t' : Task) :
  tasks (_delete_task args s).2 !! i = Some t' -> tasks s !! i = Some t'.
Proof.
  unfold _delete_task, Db.bind, get_row.
  destruct (find_row _ _ _) as [e|[tj|]]; cbn; try tauto.
  intros H. apply lookup_delete_Some in H. tauto.
Qed.

Lemma tool_outcome_session (r : result payload * Session) :
  (tool_outcome r).2 = r.2.
Proof. destruct r as [[e|v] s']; reflexivity. Qed.

(** Every row found after a tool has run is either a row that was there
    before, with the same [id], [created_at] and [updated_at], or the
    row just created, stored under its own fresh [id]. *)
Lemma execute_tool_rows (tool : string) (args : dict) (s : Session)
    (i : Z) (t' : Task) :
  keyed_by_id (tasks s) ->
  tasks (execute_tool tool args s).2 !! i = Some t' ->
  (tasks s !! i = None /\ task_id t' = i)
  \/ (exists t, tasks s !! i = Some t
                /\ task_id t' = task_id t
                /\ task_created_at t' = task_created_at t
                /\ task_updated_at t' = task_updated_at t).
Proof.
  intros Hkey.
  assert (Hsame : tasks s !! i = Some t' ->
                  (tasks s !! i = None /\ task_id t' = i)
                  \/ (exists t, tasks s !! i = Some t
                                /\ task_id t' = task_id t
                                /\ task_created_at t' = task_created_at t
                                /\ task_updated_at t' = task_updated_at t))
    by (intros H; right; exists t'; auto).
  rewrite execute_tool_eq.
  destruct (available_tools !! tool) as [f|] eqn:Hf; [|exact Hsame].
  rewrite tool_outcome_session.
  apply elem_of_list_to_map_2, list_elem_of_In in Hf. simpl in Hf.
  destruct Hf as [Hf|[Hf|[Hf|Hf]]].
  - (* create_task *)
    injection Hf as <- <-. rewrite create_task_run.
    destruct (TaskStatus_of _) as [e|st]; [exact Hsame|].
    destruct (PriorityLevel_of _) as [e|p]; [exact Hsame|].
    cbv zeta. destruct (not_null _ _) as [e|u]; [exact Hsame|].
    cbn. destruct (decide (i = next_task_id s)) as [->|Hne].
    + rewrite lookup_insert_eq. intros [= <-].
      left. split; [now apply next_task_id_fresh | reflexivity].
    + rewrite lookup_insert_ne by congruence. exact Hsame.
  - (* update_task *)
    injection Hf as <- <-.
    pose proof (task_executor_fails "update_task" _update_task args s
                  ltac:(simpl; auto)) as Hfail.
    destruct (find_row (tasks s) (text_key s) (get "id" args)) as [e|[tj|]] eqn:Hfind.
    + rewrite Hfail. exact Hsame.
    + destruct (find_row_inv _ _ _ _ Hfind) as [j Hrow].
      destruct (update_task_effect args s j tj Hfind Hrow (Hkey _ _ Hrow))
        as (r & s' & t'' & Hrun & Hj & Hother & _ & _ & Hi & Hc & Hu & _).
      rewrite Hrun. cbn. destruct (decide (i = j)) as [->|Hne].
      * rewrite Hj. intros [= <-]. right. exists tj. auto.
      * rewrite (Hother i Hne). exact Hsame.
    + rewrite Hfail. exact Hsame.
  - (* delete_task *)
    injection Hf as <- <-. intros H. apply Hsame. now apply delete_task_rows in H.
  - (* the executors that only read tasks *)
    assert (Hread : In f [_get_task; _list_tasks; _create_conversation;
                          _add_message; _get_conversation]).
    { simpl. repeat (destruct Hf as [Hf|Hf]; [injection Hf as _ <-; tauto|]).
      destruct Hf. }
    rewrite (readers_keep_tasks f args s Hread). exact Hsame.
Qed.

(** The primary-key invariant holds of a session without rows and is
    kept by every tool. *)
Lemma keyed_by_id_empty : keyed_by_id (tasks empty_session).
Proof. intros k t H. vm_compute in H. discriminate. Qed.

Lemma keyed_by_id_kept (tool : string) (args : dict) (s : Session) :
  keyed_by_id (tasks s) -> keyed_by_id (tasks (execute_tool tool args s).2).
Proof.
  intros Hkey i t' H.
  destruct (execute_tool_rows tool args s i t' Hkey H)
    as [[_ Hid]|(t & Hrow & Hid & _)]; [exact Hid|].
  rewrite Hid. exact (Hkey _ _ Hrow).
Qed.

(** C10.  No tool changes the [updated_at] of a task: whatever tool is
    run with whatever arguments, a task that is still there afterwards
    has the [updated_at] it had before.  In particular a successful
    [update_task] returns the task with the [updated_at] it was created
    with. *)
Theorem updated_at_never_modified (tool : string) (args : dict) (s : Session)
    (i : Z) (t : Task) :
  keyed_by_id (tasks s) ->
  tasks s !! i = Some t ->
  (forall t', tasks (execute_tool tool args s).2 !! i = Some t' ->
              task_updated_at t' = task_updated_at t)
  /\ (get "id" args = VInt i ->
      out_result (execute_tool "update_task" args s).1 = ToolResult_value SUCCESS ->
      exists t', out_data (execute_tool "update_task" args s).1 = Some (PTask t')
                 /\ tasks (execute_tool "update_task" args s).2 !! i = Some t'
                 /\ task_updated_at t' = task_updated_at t).
Proof.
  intros Hkey Hrow. split.
  - intros t' H.
    destruct (execute_tool_rows tool args s i t' Hkey H)
      as [[Hnone _]|(t0 & Hrow0 & _ & _ & Hu)]; [congruence|].
    rewrite Hrow in Hrow0. injection Hrow0 as <-. exact Hu.
  - intros Hid.
    assert (Hfind : find_row (tasks s) (text_key s) (get "id" args) = inr (Some t))
      by (rewrite Hid; now apply find_row_found).
    destruct (update_task_effect args s i t Hfind Hrow (Hkey _ _ Hrow))
      as (r & s' & t' & Hrun & Hi & _ & _ & _ & _ & _ & Hu & _ & _ & _ & _ & _
          & Hret).
    rewrite (execute_registered "update_task" _update_task) by reflexivity.
    rewrite Hrun. destruct r as [e|p]; cbn; [discriminate|].
    intros _. destruct (Hret p eq_refl) as (-> & _).
    exists t'. auto.
Qed.

(** C10 at a title update of the sample task. *)
Lemma updated_at_never_modified_witness :
  (forall t',
      tasks (execute_tool "update_task" [("id", VInt 1); ("title", VStr "draft")]
                          sample_session).2 !! 1 = Some t' ->
      task_updated_at t' = 11)
  /\ exists t',
      out_data (execute_tool "update_task" [("id", VInt 1); ("title", VStr "draft")]
                             sample_session).1 = Some (PTask t')
      /\ tasks (execute_tool "update_task" [("id", VInt 1); ("title", VStr "draft")]
                             sample_session).2 !! 1 = Some t'
      /\ task_updated_at t' = 11.
Proof.
  assert (Hkey : keyed_by_id (tasks sample_session)).
  { intros k t H. change (tasks sample_session) with ({[1 := sample_task]} : gmap Z Task) in H.
    apply lookup_singleton_Some in H as [<- <-]. reflexivity. }
  destruct (updated_at_never_modified
              "update_task" [("id", VInt 1); ("title", VStr "draft")]
              sample_session 1 sample_task Hkey eq_refl) as [Hall Hupd].
  split; [exact Hall|]. exact (Hupd eq_refl eq_refl).
Defined.

End TaskFacts.

(** ** The reply to a request for a task that does not exist *)

Section MissingTaskReply.
Import PyStr Py Models Db MCPTaskManager OpenAIAgent Spec.

(** C1, what the code does.  "What is task #999?" resolves to
    [get_task] with id 999.  When no task 999 exists the executor's
    [ValueError] comes back from [execute_tool] as an [ERROR] result,
    and [_format_results] renders an [ERROR] result as
    "Sorry, I encountered an error: ..."; the suggestion to list all
    tasks is not part of the reply. *)
Theorem missing_task_reply (s : Session) (confirm_actions : bool) :
  tasks s !! 999 = None ->
  process_request "What is task #999?" = inr (respond (get_call 999))
  /\ execute_tool_calls_with_session [get_call 999] false s
     = ([mkResult "get_task" "error" "Task with ID 999 not found" (Some None)], s)
  /\ _format_results
       [mkResult "get_task" "error" "Task with ID 999 not found" (Some None)]
     = inr "Sorry, I encountered an error: Task with ID 999 not found"
  /\ handle_user_request "What is task #999?" confirm_actions s
     = (inr "Sorry, I encountered an error: Task with ID 999 not found", s)
  /\ contains "Would you like me to list all tasks so you can find the right one?"
              "Sorry, I encountered an error: Task with ID 999 not found"
     = false.
Proof.
  intros Hrow.
  assert (Hp : process_request "What is task #999?" = inr (respond (get_call 999)))
    by (vm_compute; reflexivity).
  assert (Hx : execute_tool_calls_with_session [get_call 999] false s
               = ([mkResult "get_task" "error" "Task with ID 999 not found"
                            (Some None)], s)).
  { cbn -[execute_tool].
    rewrite (execute_registered "get_task" _get_task) by reflexivity.
    unfold _get_task, Db.bind, get_row. cbn. rewrite Hrow. reflexivity. }
  assert (Hf : _format_results
                 [mkResult "get_task" "error" "Task with ID 999 not found" (Some None)]
               = inr "Sorry, I encountered an error: Task with ID 999 not found")
    by (vm_compute; reflexivity).
  split; [exact Hp|]. split; [exact Hx|]. split; [exact Hf|].
  split; [|vm_compute; reflexivity].
  unfold handle_user_request, Db.bind, lift. rewrite Hp.
  cbn -[execute_tool_calls_with_session _format_results get_call].
  rewrite Hx, Hf. reflexivity.
Qed.

(** C1 in a session without rows. *)
Lemma missing_task_reply_witness :
  handle_user_request "What is task #999?" true empty_session
  = (inr "Sorry, I encountered an error: Task with ID 999 not found", empty_session).
Proof.
  exact (proj1 (proj2 (proj2 (proj2
           (missing_task_reply empty_session true eq_refl))))).
Defined.

(** The branch of [_format_results] that renders the apology with the
    suggestion is the one for [NOT_FOUND] results: given the executor's
    message under that status, it produces the reply of the scenario. *)
Example not_found_branch_suggests :
  _format_results
    [mkResult "get_task" "not_found" "Task with ID 999 not found" (Some None)]
  = inr ("I couldn't find that task. "
         +:+ "Would you like me to list all tasks so you can find the right one?").
Proof. vm_compute. reflexivity. Qed.

(** [execute_tool] gives [NOT_FOUND] for unregistered names only, and a
    registered task tool never does: the branch above is not reached by
    a task that is missing. *)
Lemma task_tools_never_not_found (tool : string) (args : dict) (s : Session) :
  In tool registered_tools ->
  out_result (execute_tool tool args s).1 <> ToolResult_value NOT_FOUND.
Proof.
  intros Hreg. apply registered_iff in Hreg as [f Hf].
  rewrite (execute_registered _ _ _ _ Hf).
  destruct (tool_outcome_result (f args s)) as [-> | ->]; discriminate.
Qed.

End MissingTaskReply.

(** ** The shape of what the resolver answers *)

Section ResolverShape.
Import PyStr Py Models Db MCPTaskManager OpenAIAgent Spec Shapes.

(** The group of a match of ['#(\d+)'] is a non-empty run of digits. *)
Lemma re_search_hash_digits_Some (s ds : string) :
  re_search_hash_digits s = Some ds ->
  ds <> EmptyString /\ all_digits ds = true.
Proof.
  induction s as [|c s IH]; simpl; [discriminate|].
  destruct (Ascii.eqb c "#" && negb (is_empty (take_digits s))) eqn:E; [|exact IH].
  intros [= <-]. apply andb_true_iff in E as [_ E].
  split; [|apply take_digits_all_digits].
  destruct (take_digits s); [discriminate | congruence].
Qed.

(** [int] converts the group when it has at most 4300 digits, and
    raises when it has more. *)
Lemma re_search_hash_digits_int (s ds : string) :
  re_search_hash_digits s = Some ds ->
  ((String.length ds <= int_max_str_digits)%nat
   /\ exists n, Py.int ds = inr n /\ 0 <= n)
  \/ ((int_max_str_digits < String.length ds)%nat
      /\ Py.int ds = inl (ValueError (digit_limit_message (String.length ds)))).
Proof.
  intros H. destruct (re_search_hash_digits_Some _ _ H) as [Hne Hds].
  destruct (le_lt_dec (String.length ds) int_max_str_digits) as [Hlen|Hlen].
  - left. split; [exact Hlen|].
    destruct (int_total ds Hne Hds Hlen) as (n & Hn & Hpos).
    exists n. unfold Py.int. rewrite Hn. auto.
  - right. split; [exact Hlen|]. now apply int_over_limit.
Qed.

(** The group of a match is part of the text. *)
Lemma re_search_hash_digits_length (s ds : string) :
  re_search_hash_digits s = Some ds -> (String.length ds < String.length s)%nat.
Proof.
  assert (Htake : forall x, (String.length (take_digits x) <= String.length x)%nat).
  { induction x as [|c x IH]; simpl; [lia|].
    destruct (is_digit c); simpl; lia. }
  induction s as [|c s IH]; simpl; [discriminate|].
  destruct (Ascii.eqb c "#" && negb (is_empty (take_digits s))).
  - intros [= <-]. specialize (Htake s). lia.
  - intros H. specialize (IH H). lia.
Qed.

(** Every answer of the resolver has one of six shapes, unless the
    resolver raises, which it does on an id of more than 4300 digits
    only. *)
Lemma process_request_shape (text : string) :
  (exists title, process_request text = inr (respond (create_call title)))
  \/ (exists n st, process_request text
                   = inr (respond_confirm (update_call n st) (update_prompt n st)))
  \/ (exists n, process_request text
                = inr (respond_confirm (delete_call n) (delete_prompt n)))
  \/ (exists params, In params list_params
                     /\ process_request text = inr (respond (list_call params)))
  \/ (exists n, process_request text = inr (respond (get_call n)))
  \/ process_request text = inr respond_nothing
  \/ (exists ds, re_search_hash_digits (lower text) = Some ds
                 /\ (int_max_str_digits < String.length ds)%nat
                 /\ process_request text
                    = inl (ValueError (digit_limit_message (String.length ds)))).
Proof.
  unfold process_request. cbv zeta. set (l := lower text).
  destruct (contains "create" l && (contains "task" l || contains "new" l)).
  { left. destruct (contains "to" l) eqn:Hto.
    - destruct (split_index_1_exists "to" l ltac:(simpl; lia) Hto) as (x & ->).
      eexists. reflexivity.
    - destruct (contains "for" l) eqn:Hfor.
      + destruct (split_index_1_exists "for" l ltac:(simpl; lia) Hfor) as (x & ->).
        eexists. reflexivity.
      + eexists. reflexivity. }
  destruct (contains "update" l && contains "task" l).
  { destruct (re_search_hash_digits l) as [ds|] eqn:Hid.
    - destruct (re_search_hash_digits_int _ _ Hid) as [(_ & n & -> & _)|(Hlen & ->)].
      + right. left. do 2 eexists. reflexivity.
      + do 6 right. exists ds. auto.
    - do 5 right. left. reflexivity. }
  destruct (contains "delete" l && contains "task" l).
  { destruct (re_search_hash_digits l) as [ds|] eqn:Hid.
    - destruct (re_search_hash_digits_int _ _ Hid) as [(_ & n & -> & _)|(Hlen & ->)].
      + do 2 right. left. eexists. reflexivity.
      + do 6 right. exists ds. auto.
    - do 5 right. left. reflexivity. }
  destruct (contains "show" l || contains "list" l || contains "all" l).
  { do 3 right. left.
    destruct (contains "pending" l);
      [eexists; split; [|reflexivity]; simpl; auto|].
    destruct (contains "in progress" l || contains "in_progress" l);
      [eexists; split; [|reflexivity]; simpl; auto|].
    destruct (contains "completed" l);
      eexists; (split; [|reflexivity]); simpl; auto. }
  destruct ((contains "get" l || contains "show" l || contains "what" l)
            && contains "task" l).
  { destruct (re_search_hash_digits l) as [ds|] eqn:Hid.
    - destruct (re_search_hash_digits_int _ _ Hid) as [(_ & n & -> & _)|(Hlen & ->)].
      + do 4 right. left. eexists. reflexivity.
      + do 6 right. exists ds. auto.
    - do 5 right. left. reflexivity. }
  do 5 right. left. reflexivity.
Qed.

(** A text of at most 4300 characters cannot make the resolver raise. *)
Lemma process_request_short (text : string) :
  (String.length text <= int_max_str_digits)%nat ->
  exists r, process_request text = inr r.
Proof.
  intros Hlen.
  destruct (process_request_shape text)
    as [(t & H)|[(n & st & H)|[(n & H)|[(p & _ & H)|[(n & H)|[H|(ds & Hds & Hl & H)]]]]]];
    eauto.
  exfalso. apply re_search_hash_digits_length in Hds.
  assert (String.length (lower text) = String.length text) as Heq.
  { clear. induction text as [|c x IH]; simpl; [reflexivity | now rewrite IH]. }
  lia.
Qed.

End ResolverShape.

(** ** What the resolver never does *)

Section ResolverSafety.
Import PyStr Py Models Db MCPTaskManager OpenAIAgent Spec Shapes.

(** X1.  The resolver raises in one case only: when the first ['#'] of
    the lower-cased text that is followed by a digit is followed by more
    than 4300 of them and the text is resolved to an update, a delete or
    a get, [int] refuses the digits and its [ValueError] escapes.  The
    index [1] into the split is always defined.  Otherwise the resolver
    answers with no call or with exactly one, the call names one of the
    five task tools, and the message says whether there is a call.  A
    text of at most 4300 characters is always answered. *)
Theorem resolver_outcomes (text : string) :
  ((exists r,
       process_request text = inr r
       /\ (length (tool_calls r) <= 1)%nat
       /\ (forall tc, In tc (tool_calls r) -> In (name tc) resolver_tools)
       /\ message r = match tool_calls r with
                      | [] => "I'm not sure how to help with that."
                      | _ => "Processing your request..."
                      end)
   \/ (exists ds,
          re_search_hash_digits (lower text) = Some ds
          /\ (int_max_str_digits < String.length ds)%nat
          /\ process_request text
             = inl (ValueError (digit_limit_message (String.length ds)))))
  /\ ((String.length text <= int_max_str_digits)%nat ->
      exists r, process_request text = inr r).
Proof.
  split; [|apply process_request_short].
  destruct (process_request_shape text)
    as [(t & ->)|[(n & st & ->)|[(n & ->)|[(p & _ & ->)|[(n & ->)|[->|H]]]]]];
    [left..|right; exact H];
    eexists; (split; [reflexivity|]); simpl;
    (split; [lia|]); (split; [|reflexivity]);
    intros tc Htc; first [destruct Htc as [<-|[]]; simpl; tauto | destruct Htc].
Qed.

(** X1 at "Delete task #1". *)
Lemma resolver_outcomes_witness :
  exists r, process_request "Delete task #1" = inr r.
Proof.
  apply (proj2 (resolver_outcomes "Delete task #1")).
  apply Nat.leb_le. reflexivity.
Defined.

(** X2.  Confirmation is asked exactly for a call of [update_task] or
    [delete_task]; the prompt is then the one the gate formats for that
    call, and there is a prompt exactly when confirmation is needed. *)
Theorem confirmation_matches_gate (text : string) (r : AgentResponse) :
  process_request text = inr r ->
  (needs_confirmation r = true <->
   exists tc, tool_calls r = [tc]
              /\ (name tc = "update_task" \/ name tc = "delete_task"))
  /\ (forall tc, tool_calls r = [tc] -> needs_confirmation r = true ->
                 confirmation_message r = Some (_format_confirmation_message tc))
  /\ (needs_confirmation r = false <-> confirmation_message r = None).
Proof.
  intros Hr.
  destruct (process_request_shape text)
    as [(t & H)|[(n & st & H)|[(n & H)|[(p & _ & H)|[(n & H)|[H|(ds & _ & _ & H)]]]]]];
    rewrite H in Hr; [..|discriminate Hr]; injection Hr as <-; simpl.
  - split; [|split].
    + split; [discriminate|]. intros (tc & [= <-] & [Hn|Hn]); discriminate Hn.
    + discriminate.
    + tauto.
  - split; [|split].
    + split; [|reflexivity]. intros _. eexists. split; [reflexivity|]. simpl. auto.
    + intros tc [= <-] _. reflexivity.
    + split; discriminate.
  - split; [|split].
    + split; [|reflexivity]. intros _. eexists. split; [reflexivity|]. simpl. auto.
    + intros tc [= <-] _. reflexivity.
    + split; discriminate.
  - split; [|split].
    + split; [discriminate|]. intros (tc & [= <-] & [Hn|Hn]); discriminate Hn.
    + discriminate.
    + tauto.
  - split; [|split].
    + split; [discriminate|]. intros (tc & [= <-] & [Hn|Hn]); discriminate Hn.
    + discriminate.
    + tauto.
  - split; [|split].
    + split; [discriminate|]. intros (tc & Hnil & _). discriminate Hnil.
    + discriminate.
    + tauto.
Qed.

(** X2 at "Update task #1 to completed status". *)
Lemma confirmation_matches_gate_witness :
  (true = true <->
   exists tc, [update_call 1 "completed"] = [tc]
              /\ (name tc = "update_task" \/ name tc = "delete_task"))
  /\ (forall tc, [update_call 1 "completed"] = [tc] -> true = true ->
                 Some (update_prompt 1 "completed")
                 = Some (_format_confirmation_message tc))
  /\ (true = false <-> Some (update_prompt 1 "completed") = None).
Proof.
  exact (confirmation_matches_gate "Update task #1 to completed status"
           (respond_confirm (update_call 1 "completed") (update_prompt 1 "completed"))
           eq_refl).
Defined.

(** X3.  A text that contains "show", "list" or "all" never reaches
    [get_task]: the listing case comes first in the chain, so the "show"
    alternative of the [get_task] case is dead, and a request such as
    "show task #3" lists the tasks. *)
Theorem listing_words_shadow_get_task (text : string) (r : AgentResponse) :
  contains "show" (lower text) || contains "list" (lower text)
    || contains "all" (lower text) = true ->
  process_request text = inr r ->
  forall tc, In tc (tool_calls r) -> name tc <> "get_task".
Proof.
  intros Hlist. unfold process_request. cbv zeta. rewrite Hlist.
  set (l := lower text).
  destruct (contains "create" l && (contains "task" l || contains "new" l)).
  { destruct (contains "to" l) eqn:Hto.
    - destruct (split_index_1_exists "to" l ltac:(simpl; lia) Hto) as (x & ->).
      intros [= <-] tc [<-|[]]. discriminate.
    - destruct (contains "for" l) eqn:Hfor.
      + destruct (split_index_1_exists "for" l ltac:(simpl; lia) Hfor) as (x & ->).
        intros [= <-] tc [<-|[]]. discriminate.
      + intros [= <-] tc [<-|[]]. discriminate. }
  destruct (contains "update" l && contains "task" l).
  { destruct (re_search_hash_digits l) as [ds|] eqn:Hid.
    - destruct (re_search_hash_digits_int _ _ Hid) as [(_ & n & -> & _)|(_ & ->)];
        [|discriminate].
      intros [= <-] tc [<-|[]]. discriminate.
    - intros [= <-] tc []. }
  destruct (contains "delete" l && contains "task" l).
  { destruct (re_search_hash_digits l) as [ds|] eqn:Hid.
    - destruct (re_search_hash_digits_int _ _ Hid) as [(_ & n & -> & _)|(_ & ->)];
        [|discriminate].
      intros [= <-] tc [<-|[]]. discriminate.
    - intros [= <-] tc []. }
  intros [= <-] tc [<-|[]]. discriminate.
Qed.

(** X3 at "Show task #3", which resolves to an unfiltered [list_tasks]. *)
Lemma listing_words_shadow_get_task_witness :
  process_request "Show task #3" = inr (respond (list_call []))
  /\ forall tc, In tc [list_call []] -> name tc <> "get_task".
Proof.
  split; [reflexivity|].
  exact (listing_words_shadow_get_task "Show task #3" (respond (list_call []))
           eq_refl eq_refl).
Defined.

End ResolverSafety.

(** ** Titles of created tasks *)

Section CreatedTitles.
Import PyStr Py Models Db MCPTaskManager OpenAIAgent Spec Shapes.

Lemma lower_char_idem (c : ascii) : lower_char (lower_char c) = lower_char c.
Proof.
  destruct c as [[] [] [] [] [] [] [] []]; vm_compute; reflexivity.
Qed.

Lemma lower_idem (s : string) : lower (lower s) = lower s.
Proof.
  induction s as [|c s IH]; [reflexivity|].
  simpl. rewrite lower_char_idem, IH. reflexivity.
Qed.

(** The parts of a lower-case text are lower-case. *)
Lemma lower_fix_app (a b : string) :
  lower (a +:+ b) = a +:+ b -> lower a = a /\ lower b = b.
Proof.
  induction a as [|c a IH]; [intros H; split; [reflexivity | exact H]|].
  rewrite app_cons_str. simpl. intros [= Hc Hrest].
  destruct (IH Hrest) as [Ha Hb]. rewrite Hc, Ha. auto.
Qed.

Lemma cut_spec (sep s a b : string) :
  cut sep s = Some (a, b) -> s = a +:+ sep +:+ b.
Proof.
  revert a. induction s as [|c s IH]; intros a; rewrite cut_eq.
  - destruct (has_prefix sep EmptyString) eqn:E; [|discriminate].
    intros [= <- <-]. exact (has_prefix_inv _ _ E).
  - destruct (has_prefix sep (String c s)) eqn:E.
    + intros [= <- <-]. exact (has_prefix_inv _ _ E).
    + destruct (cut sep s) as [[a' b']|] eqn:Hc; [|discriminate].
      intros [= <- <-]. rewrite app_cons_str, <- (IH a' eq_refl). reflexivity.
Qed.

Lemma cut_lower (sep s a b : string) :
  lower s = s -> cut sep s = Some (a, b) -> lower a = a /\ lower b = b.
Proof.
  intros Hs Hcut. rewrite (cut_spec _ _ _ _ Hcut) in Hs.
  apply lower_fix_app in Hs as [Ha Hrest].
  apply lower_fix_app in Hrest as [_ Hb]. auto.
Qed.

(** What [s.split(sep)[1]] can be. *)
Lemma split_index_1_inv (sep s x : string) :
  split sep s !! 1%nat = Some x ->
  exists a b, cut sep s = Some (a, b)
              /\ (x = b \/ exists a' b', cut sep b = Some (a', b') /\ x = a').
Proof.
  unfold split. destruct (String.length s) as [|[|n]]; simpl.
  - discriminate.
  - destruct (cut sep s) as [[a b]|]; [|discriminate].
    intros [= <-]. eauto.
  - destruct (cut sep s) as [[a b]|]; [|discriminate].
    destruct (cut sep b) as [[a' b']|] eqn:Hb; intros [= <-]; eauto 8.
Qed.

Lemma split_index_1_lower (sep s x : string) :
  lower s = s -> index (split sep s) 1 = inr x -> lower x = x.
Proof.
  intros Hs. unfold index.
  destruct (split sep s !! 1%nat) as [y|] eqn:E; [|discriminate].
  intros [= <-].
  destruct (split_index_1_inv _ _ _ E) as (a & b & Hcut & Hx).
  destruct (cut_lower _ _ _ _ Hs Hcut) as [_ Hb].
  destruct Hx as [->|(a' & b' & Hcut' & ->)]; [exact Hb|].
  exact (proj1 (cut_lower _ _ _ _ Hb Hcut')).
Qed.

Lemma lstrip_lower (s : string) : lower s = s -> lower (lstrip s) = lstrip s.
Proof.
  induction s as [|c s IH]; [reflexivity|].
  intros H. simpl. destruct (is_space c); [|exact H].
  simpl in H. injection H as _ H. exact (IH H).
Qed.

Lemma rstrip_lower (s : string) : lower s = s -> lower (rstrip s) = rstrip s.
Proof.
  induction s as [|c s IH]; [reflexivity|].
  simpl. intros [= Hc Hs]. specialize (IH Hs).
  destruct (rstrip s) as [|d r].
  - destruct (is_space c); [reflexivity|]. simpl. rewrite Hc. reflexivity.
  - simpl in *. rewrite Hc. injection IH as -> ->. reflexivity.
Qed.

Lemma lstrip_idem (s : string) : lstrip (lstrip s) = lstrip s.
Proof.
  induction s as [|c s IH]; [reflexivity|].
  simpl. destruct (is_space c) eqn:E; [exact IH|]. simpl. rewrite E. reflexivity.
Qed.

Lemma rstrip_idem (s : string) : rstrip (rstrip s) = rstrip s.
Proof.
  induction s as [|c s IH]; [reflexivity|].
  simpl. destruct (rstrip s) as [|d r] eqn:E.
  - destruct (is_space c) eqn:Ec; [reflexivity|]. simpl. rewrite Ec. reflexivity.
  - change (rstrip (String c (String d r))) with
      (match rstrip (String d r) with
       | EmptyString => if is_space c then EmptyString else String c EmptyString
       | x => String c x
       end).
    rewrite IH. reflexivity.
Qed.

(** Stripping on the left keeps a text free of trailing white space. *)
Lemma rstrip_lstrip (s : string) : rstrip s = s -> rstrip (lstrip s) = lstrip s.
Proof.
  induction s as [|c s IH]; [reflexivity|].
  intros H. simpl. destruct (is_space c) eqn:Ec; [|exact H].
  apply IH. simpl in H. rewrite Ec in H.
  destruct (rstrip s) as [|d r]; [discriminate|].
  injection H as H. exact H.
Qed.

Lemma strip_idem (s : string) : strip (strip s) = strip s.
Proof.
  unfold strip. rewrite (rstrip_lstrip (rstrip s) (rstrip_idem s)).
  apply lstrip_idem.
Qed.

Lemma strip_lower (s : string) : lower s = s -> lower (strip s) = strip s.
Proof. intros H. unfold strip. now apply lstrip_lower, rstrip_lower. Qed.

(** What [strip] removes is around what it keeps. *)
Lemma lstrip_piece (s : string) : exists a, s = a +:+ lstrip s.
Proof.
  induction s as [|c s [a IH]]; [exists EmptyString; reflexivity|].
  simpl. destruct (is_space c).
  - exists (String c a). rewrite app_cons_str, <- IH. reflexivity.
  - exists EmptyString. reflexivity.
Qed.

Lemma rstrip_piece (s : string) : exists b, s = rstrip s +:+ b.
Proof.
  induction s as [|c s [b IH]]; [exists EmptyString; reflexivity|].
  simpl. destruct (rstrip s) as [|d r].
  - rewrite app_nil_l_str in IH. destruct (is_space c).
    + exists (String c b). rewrite app_nil_l_str, <- IH. reflexivity.
    + exists b. rewrite app_cons_str, app_nil_l_str, <- IH. reflexivity.
  - exists b. rewrite app_cons_str, <- IH. reflexivity.
Qed.

Lemma strip_piece (s : string) : exists a b, s = a +:+ strip s +:+ b.
Proof.
  unfold strip. destruct (rstrip_piece s) as [b Hb].
  destruct (lstrip_piece (rstrip s)) as [a Ha].
  exists a, b. rewrite <- app_assoc_str, <- Ha. exact Hb.
Qed.

(** [s.split(sep)[1]], stripped, is a piece of [s]. *)
Lemma split_index_1_piece (sep s x : string) :
  index (split sep s) 1 = inr x ->
  exists pre post, s = pre +:+ strip x +:+ post.
Proof.
  unfold index.
  destruct (split sep s !! 1%nat) as [y|] eqn:E; [|discriminate].
  intros [= <-].
  destruct (split_index_1_inv _ _ _ E) as (a & b & Hcut & Hx).
  destruct (strip_piece y) as (u & v & Hy).
  apply cut_spec in Hcut.
  destruct Hx as [->|(a' & b' & Hcut' & ->)].
  - exists (a +:+ sep +:+ u), v.
    rewrite Hcut, Hy at 1. now rewrite !app_assoc_str.
  - apply cut_spec in Hcut'.
    exists (a +:+ sep +:+ u), (v +:+ sep +:+ b').
    rewrite Hcut, Hcut', Hy at 1. now rewrite !app_assoc_str.
Qed.

(** X4.  The title of every [create_task] call the resolver builds is
    either the default "New task" or a piece of the lower-cased text with
    no white space around it: capitals of the request are lost, and the
    status is always "pending". *)
Theorem created_title_normal (text : string) (r : AgentResponse) (tc : ToolCall) :
  process_request text = inr r ->
  In tc (tool_calls r) -> name tc = "create_task" ->
  exists title,
    arguments tc = [("title", VStr title); ("status", VStr "pending")]
    /\ (title = "New task"
        \/ (lower title = title /\ strip title = title
            /\ exists pre post, lower text = pre +:+ title +:+ post)).
Proof.
  unfold process_request. cbv zeta. set (l := lower text).
  assert (Hl : lower l = l) by apply lower_idem.
  destruct (contains "create" l && (contains "task" l || contains "new" l)).
  { destruct (contains "to" l) eqn:Hto.
    - destruct (split_index_1_exists "to" l ltac:(simpl; lia) Hto) as (x & Hx).
      rewrite Hx. intros [= <-] [<-|[]] _. eexists. split; [reflexivity|].
      right. pose proof (split_index_1_lower _ _ _ Hl Hx) as Hlow.
      split; [now apply strip_lower|].
      split; [apply strip_idem | exact (split_index_1_piece _ _ _ Hx)].
    - destruct (contains "for" l) eqn:Hfor.
      + destruct (split_index_1_exists "for" l ltac:(simpl; lia) Hfor) as (x & Hx).
        rewrite Hx. intros [= <-] [<-|[]] _. eexists. split; [reflexivity|].
        right. pose proof (split_index_1_lower _ _ _ Hl Hx) as Hlow.
        split; [now apply strip_lower|].
        split; [apply strip_idem | exact (split_index_1_piece _ _ _ Hx)].
      + intros [= <-] [<-|[]] _. eexists. split; [reflexivity|]. auto. }
  destruct (contains "update" l && contains "task" l).
  { destruct (re_search_hash_digits l) as [ds|] eqn:Hid.
    - destruct (re_search_hash_digits_int _ _ Hid) as [(_ & n & -> & _)|(_ & ->)];
        [|discriminate].
      intros [= <-] [<-|[]]. discriminate.
    - intros [= <-] []. }
  destruct (contains "delete" l && contains "task" l).
  { destruct (re_search_hash_digits l) as [ds|] eqn:Hid.
    - destruct (re_search_hash_digits_int _ _ Hid) as [(_ & n & -> & _)|(_ & ->)];
        [|discriminate].
      intros [= <-] [<-|[]]. discriminate.
    - intros [= <-] []. }
  destruct (contains "show" l || contains "list" l || contains "all" l).
  { intros [= <-] [<-|[]]. discriminate. }
  destruct ((contains "get" l || contains "show" l || contains "what" l)
            && contains "task" l).
  { destruct (re_search_hash_digits l) as [ds|] eqn:Hid.
    - destruct (re_search_hash_digits_int _ _ Hid) as [(_ & n & -> & _)|(_ & ->)];
        [|discriminate].
      intros [= <-] [<-|[]]. discriminate.
    - intros [= <-] []. }
  intros [= <-] [].
Qed.

(** X4 at "Create a task to Review The BUDGET  ". *)
Lemma created_title_normal_witness :
  exists title,
    arguments (create_call "review the budget")
    = [("title", VStr title); ("status", VStr "pending")]
    /\ (title = "New task"
        \/ (lower title = title /\ strip title = title
            /\ exists pre post,
                 lower "Create a task to Review The BUDGET  "
                 = pre +:+ title +:+ post)).
Proof.
  apply (created_title_normal "Create a task to Review The BUDGET  "
           (respond (create_call "review the budget"))
           (create_call "review the budget")).
  - reflexivity.
  - simpl. auto.
  - reflexivity.
Defined.

End CreatedTitles.

(** ** Creating, deleting and listing tasks *)

Section TaskTable.
Import PyStr Py Models Db MCPTaskManager OpenAIAgent Spec Shapes.

(** Looking a member up by its value gives the member back, and nothing
    else is the value of a member. *)
Lemma TaskStatus_of_value (st : TaskStatus) :
  TaskStatus_of (VStr (TaskStatus_value st)) = inr st.
Proof. destruct st; reflexivity. Qed.

Lemma TaskStatus_of_inv (v : value) (st : TaskStatus) :
  TaskStatus_of v = inr st -> v = VStr (TaskStatus_value st).
Proof.
  destruct v as [|n|x]; try discriminate.
  unfold TaskStatus_of, enum_of_value. cbn [List.find TaskStatus_value].
  repeat match goal with
         | |- context [String.eqb ?a x] =>
             destruct (String.eqb_spec a x) as [<-|_]; [intros [= <-]; reflexivity|]
         end.
  discriminate.
Qed.

Lemma TaskStatus_of_invalid (v : value) :
  (forall st, v <> VStr (TaskStatus_value st)) ->
  TaskStatus_of v = inl (ValueError (repr v +:+ " is not a valid TaskStatus")).
Proof.
  intros Hbad. destruct (TaskStatus_of v) as [e|st] eqn:E.
  - clear Hbad. destruct v as [|n|x]; try (injection E as <-; reflexivity).
    unfold TaskStatus_of, enum_of_value in E.
    destruct (List.find _ _); [discriminate|]. injection E as <-. reflexivity.
  - exfalso. exact (Hbad st (TaskStatus_of_inv _ _ E)).
Qed.

Lemma PriorityLevel_of_invalid (v : value) :
  (forall p, v <> VStr (PriorityLevel_value p)) ->
  PriorityLevel_of v = inl (ValueError (repr v +:+ " is not a valid PriorityLevel")).
Proof.
  intros Hbad. destruct v as [|n|x]; try reflexivity.
  unfold PriorityLevel_of, enum_of_value. cbn [List.find PriorityLevel_value repr].
  repeat match goal with
         | |- context [String.eqb ?a x] =>
             destruct (String.eqb_spec a x) as [<-|_]
         end; try reflexivity.
  - exfalso. exact (Hbad LOW eq_refl).
  - exfalso. exact (Hbad MEDIUM eq_refl).
  - exfalso. exact (Hbad HIGH eq_refl).
  - exfalso. exact (Hbad URGENT eq_refl).
Qed.

(** Under the primary-key invariant the next id is above every id in
    use. *)
Lemma next_task_id_above (s : Session) (k : Z) (row : Task) :
  keyed_by_id (tasks s) -> tasks s !! k = Some row -> k < next_task_id s.
Proof.
  intros Hkey Hrow.
  destruct (greatest_is_max task_id _ _ _ Hrow) as (best & Hbest & Hle).
  unfold next_task_id. rewrite Hbest. rewrite (Hkey _ _ Hrow) in Hle. lia.
Qed.

(** X5.  A successful [create_task] adds exactly one row and changes
    nothing else: the new id is above every id in use, the row is stored
    under it, the other rows and the other two tables are as before.  The
    arguments then have a title; a title that is a text is the title of
    the row; and the row has status "pending", priority "medium", an
    empty description and no conversation where the arguments name none.
    Without a title, or with [None] for one, [create_task] is answered
    [ERROR] and no table changes: the column takes no NULL and the commit
    fails. *)
Theorem create_task_adds_one_row (args : dict) (s : Session) :
  keyed_by_id (tasks s) ->
  (forall out s1,
      execute_tool "create_task" args s = (out, s1) ->
      out_result out = ToolResult_value SUCCESS ->
      exists t,
        out_data out = Some (PTask t)
        /\ (forall k row, tasks s !! k = Some row -> k < task_id t)
        /\ tasks s1 = <[task_id t := t]> (tasks s)
        /\ conversations s1 = conversations s /\ messages s1 = messages s
        /\ get "title" args <> VNone
        /\ (forall x, get "title" args = VStr x -> task_title t = VStr x)
        /\ (has "conversation_id" args = false -> task_conversation_id t = VNone)
        /\ (has "status" args = false -> task_status t = PENDING)
        /\ (has "priority" args = false -> task_priority t = MEDIUM)
        /\ (has "description" args = false -> task_description t = VStr EmptyString))
  /\ (get "title" args = VNone ->
      out_result (execute_tool "create_task" args s).1 = ToolResult_value ERROR
      /\ out_data (execute_tool "create_task" args s).1 = None
      /\ tasks (execute_tool "create_task" args s).2 = tasks s
      /\ conversations (execute_tool "create_task" args s).2 = conversations s
      /\ messages (execute_tool "create_task" args s).2 = messages s).
Proof.
  intros Hkey.
  rewrite (execute_registered "create_task" _create_task) by reflexivity.
  rewrite create_task_run. split.
  - intros out s1.
    destruct (TaskStatus_of _) as [e|st] eqn:Est; [intros [= <- <-]; discriminate|].
    destruct (PriorityLevel_of _) as [e|p] eqn:Ep; [intros [= <- <-]; discriminate|].
    cbv zeta.
    destruct (not_null _ _) as [e|u] eqn:Enn; [intros [= <- <-]; discriminate|].
    intros [= <- <-] _. eexists.
    split; [reflexivity|]. simpl.
    split; [intros k row Hrow; now apply (next_task_id_above s k row)|].
    repeat (split; [reflexivity|]).
    split; [intros Hnone; rewrite Hnone in Enn; discriminate Enn|].
    split; [intros x Hx; exact Hx|].
    unfold has, get, get_default in *. split; [|split; [|split]].
    + destruct (Py.lookup "conversation_id" args); [discriminate | reflexivity].
    + destruct (Py.lookup "status" args); [discriminate|]. intros _.
      injection Est as <-. reflexivity.
    + destruct (Py.lookup "priority" args); [discriminate|]. intros _.
      injection Ep as <-. reflexivity.
    + destruct (Py.lookup "description" args); [discriminate | reflexivity].
  - intros ->.
    destruct (TaskStatus_of _) as [e|st]; [repeat split|].
    destruct (PriorityLevel_of _) as [e|p]; repeat split.
Qed.

(** X5 on the sample session: the new task gets id 2, and a call
    without a title adds nothing. *)
Lemma create_task_adds_one_row_witness :
  (exists t,
      out_data (execute_tool "create_task" [("title", VStr "plan sprint")]
                             sample_session).1 = Some (PTask t)
      /\ task_id t = 2
      /\ task_title t = VStr "plan sprint"
      /\ tasks (execute_tool "create_task" [("title", VStr "plan sprint")]
                             sample_session).2
         = <[task_id t := t]> (tasks sample_session))
  /\ out_result (execute_tool "create_task" [("status", VStr "pending")]
                              sample_session).1 = "error"
  /\ tasks (execute_tool "create_task" [("status", VStr "pending")]
                         sample_session).2 = tasks sample_session.
Proof.
  assert (Hkey : keyed_by_id (tasks sample_session)).
  { intros k t H.
    change (tasks sample_session) with ({[1 := sample_task]} : gmap Z Task) in H.
    apply lookup_singleton_Some in H as [<- <-]. reflexivity. }
  split.
  - destruct (proj1 (create_task_adds_one_row [("title", VStr "plan sprint")]
                       sample_session Hkey)
                    (execute_tool "create_task" [("title", VStr "plan sprint")]
                                  sample_session).1
                    (execute_tool "create_task" [("title", VStr "plan sprint")]
                                  sample_session).2
                    eq_refl eq_refl)
      as (t & Hdata & _ & Hrows & _ & _ & _ & Htitle & _).
    exists t. split; [exact Hdata|].
    split; [vm_compute in Hdata; injection Hdata as <-; reflexivity|].
    split; [exact (Htitle _ eq_refl) | exact Hrows].
  - destruct (proj2 (create_task_adds_one_row [("status", VStr "pending")]
                       sample_session Hkey) eq_refl)
      as (Herr & _ & Hrows & _).
    split; [exact Herr | exact Hrows].
Defined.

(** X6.  [create_task] with a status, or with a valid status and a
    priority, that is not a member of its enumeration returns [ERROR]
    with Python's "... is not a valid ..." message and leaves the session
    as it was: no row is added and the clock is not read. *)
Theorem create_task_rejects_bad_enum (args : dict) (s : Session) (v : value) :
  (Py.lookup "status" args = Some v ->
   (forall st, v <> VStr (TaskStatus_value st)) ->
   execute_tool "create_task" args s
   = (mkOutput (ToolResult_value ERROR) (repr v +:+ " is not a valid TaskStatus")
               None, s))
  /\ (Py.lookup "priority" args = Some v ->
      (forall p, v <> VStr (PriorityLevel_value p)) ->
      (exists st, TaskStatus_of (get_default "status" (VStr "pending") args) = inr st) ->
      execute_tool "create_task" args s
      = (mkOutput (ToolResult_value ERROR)
                  (repr v +:+ " is not a valid PriorityLevel") None, s)).
Proof.
  split.
  - intros Hv Hbad.
    rewrite (execute_registered "create_task" _create_task) by reflexivity.
    rewrite create_task_run. unfold get_default at 1. rewrite Hv.
    rewrite (TaskStatus_of_invalid v Hbad). reflexivity.
  - intros Hv Hbad [st Hst].
    rewrite (execute_registered "create_task" _create_task) by reflexivity.
    rewrite create_task_run, Hst. unfold get_default. rewrite Hv.
    rewrite (PriorityLevel_of_invalid v Hbad). reflexivity.
Qed.

(** X6 with the status "done". *)
Lemma create_task_rejects_bad_enum_witness :
  execute_tool "create_task" [("title", VStr "x"); ("status", VStr "done")]
               sample_session
  = (mkOutput "error" "'done' is not a valid TaskStatus" None, sample_session).
Proof.
  apply (proj1 (create_task_rejects_bad_enum
                  [("title", VStr "x"); ("status", VStr "done")] sample_session
                  (VStr "done"))).
  - reflexivity.
  - intros []; discriminate.
Defined.

End TaskTable.

Section TaskTableMore.
Import PyStr Py Models Db MCPTaskManager OpenAIAgent Spec Shapes.

(** X7.  [update_task] is not atomic.  When the arguments carry a title
    and a status that is not a member of [TaskStatus], the result is
    [ERROR], yet the title assigned before the lookup failed stays on the
    task the session holds; status and priority are as before. *)
Theorem update_task_partial (args : dict) (s : Session) (j : Z) (t : Task)
    (title bad : value) :
  get "id" args = VInt j -> tasks s !! j = Some t -> task_id t = j ->
  Py.lookup "title" args = Some title ->
  Py.lookup "status" args = Some bad ->
  (forall st, bad <> VStr (TaskStatus_value st)) ->
  exists s' t',
    execute_tool "update_task" args s
    = (mkOutput (ToolResult_value ERROR) (repr bad +:+ " is not a valid TaskStatus")
                None, s')
    /\ tasks s' !! j = Some t'
    /\ task_title t' = title
    /\ task_status t' = task_status t
    /\ task_priority t' = task_priority t
    /\ (forall k, k <> j -> tasks s' !! k = tasks s !! k).
Proof.
  intros Hid Hrow Hkey Htitle Hstatus Hbad.
  rewrite (execute_registered "update_task" _update_task) by reflexivity.
  destruct t as [i ti de st pr ca ua ci]. simpl in Hkey. subst i.
  unfold _update_task, Db.bind, get_row, lift, has, getitem, setattr.
  rewrite Hid, (find_row_found _ _ _ _ Hrow), Htitle, Hstatus,
    (TaskStatus_of_invalid bad Hbad).
  destruct (Py.lookup "description" args) as [v2|]; cbn;
    (do 2 eexists); (split; [reflexivity|]); cbn;
    rewrite ?lookup_insert_eq; (split; [reflexivity|]);
    repeat (split; [reflexivity|]);
    intros k Hk; rewrite ?lookup_insert_ne by congruence; reflexivity.
Qed.

(** X7 on the sample task: the title changes although the call fails. *)
Lemma update_task_partial_witness :
  exists s' t',
    execute_tool "update_task"
                 [("id", VInt 1); ("title", VStr "draft"); ("status", VStr "done")]
                 sample_session
    = (mkOutput "error" "'done' is not a valid TaskStatus" None, s')
    /\ tasks s' !! 1 = Some t'
    /\ task_title t' = VStr "draft"
    /\ task_status t' = PENDING
    /\ task_priority t' = MEDIUM
    /\ (forall k, k <> 1 -> tasks s' !! k = tasks sample_session !! k).
Proof.
  apply (update_task_partial
           [("id", VInt 1); ("title", VStr "draft"); ("status", VStr "done")]
           sample_session 1 sample_task (VStr "draft") (VStr "done"));
    try reflexivity.
  intros []; discriminate.
Defined.

(** X8.  A successful [delete_task] returns the task it removed, takes
    exactly that row out of the table, and a [get_task] with the same id
    run next is answered with the "not found" [ERROR].  (The id of a
    stored task is a 64-bit integer; were it not, the [ERROR] would carry
    the driver's message.) *)
Theorem delete_then_get (args : dict) (s : Session) (j : Z) (t : Task) :
  get "id" args = VInt j -> tasks s !! j = Some t -> task_id t = j ->
  execute_tool "delete_task" args s
  = (mkOutput (ToolResult_value SUCCESS) "Tool executed successfully" (Some (PTask t)),
     with_tasks (delete j) s)
  /\ tasks (with_tasks (delete j) s) !! j = None
  /\ (forall k, k <> j -> tasks (with_tasks (delete j) s) !! k = tasks s !! k)
  /\ execute_tool "get_task" [("id", VInt j)] (with_tasks (delete j) s)
     = (mkOutput (ToolResult_value ERROR)
                 (if in_int64 j then task_not_found j else sqlite_overflow) None,
        with_tasks (delete j) s).
Proof.
  intros Hid Hrow Hkey.
  assert (Hgone : tasks (with_tasks (delete j) s) !! j = None)
    by (simpl; apply lookup_delete_eq).
  split; [|split; [exact Hgone|split]].
  - rewrite (execute_registered "delete_task" _delete_task) by reflexivity.
    unfold _delete_task, Db.bind, get_row, Db.delete_task, commit, ret.
    rewrite Hid, (find_row_found _ _ _ _ Hrow), Hkey. reflexivity.
  - intros k Hk. simpl. apply lookup_delete_ne. congruence.
  - apply task_executor_missing; [simpl; auto | reflexivity | exact Hgone].
Qed.

(** X8 on the sample task. *)
Lemma delete_then_get_witness :
  execute_tool "delete_task" [("id", VInt 1)] sample_session
  = (mkOutput "success" "Tool executed successfully" (Some (PTask sample_task)),
     with_tasks (delete 1) sample_session)
  /\ tasks (with_tasks (delete 1) sample_session) !! 1 = None
  /\ (forall k, k <> 1 ->
                tasks (with_tasks (delete 1) sample_session) !! k
                = tasks sample_session !! k)
  /\ execute_tool "get_task" [("id", VInt 1)] (with_tasks (delete 1) sample_session)
     = (mkOutput "error" "Task with ID 1 not found" None,
        with_tasks (delete 1) sample_session).
Proof.
  exact (delete_then_get [("id", VInt 1)] sample_session 1 sample_task
           eq_refl eq_refl eq_refl).
Defined.

(** X9.  Ids are reused.  Deleting the task that was created last gives
    back the task table as it was before the create, so the next create
    hands out the same id again. *)
Theorem deleted_id_is_reused (args : dict) (s s1 : Session) (out : ToolOutput)
    (t : Task) :
  keyed_by_id (tasks s) ->
  execute_tool "create_task" args s = (out, s1) ->
  out_data out = Some (PTask t) ->
  exists s2,
    execute_tool "delete_task" [("id", VInt (task_id t))] s1
    = (mkOutput (ToolResult_value SUCCESS) "Tool executed successfully"
                (Some (PTask t)), s2)
    /\ tasks s2 = tasks s
    /\ next_task_id s2 = task_id t.
Proof.
  intros Hkey.
  rewrite (execute_registered "create_task" _create_task) by reflexivity.
  rewrite create_task_run.
  destruct (TaskStatus_of _) as [e|st]; [intros [= <- <-]; discriminate|].
  destruct (PriorityLevel_of _) as [e|p]; [intros [= <- <-]; discriminate|].
  cbv zeta. destruct (not_null _ _) as [e|u]; [intros [= <- <-]; discriminate|].
  intros [= <- <-] [= <-]. eexists. split; [|split].
  - rewrite (execute_registered "delete_task" _delete_task) by reflexivity.
    unfold _delete_task, Db.bind, get_row, Db.delete_task, commit, ret. cbn.
    rewrite lookup_insert_eq. reflexivity.
  - cbn. apply delete_insert_id. now apply next_task_id_fresh.
  - unfold next_task_id at 1. cbn.
    rewrite delete_insert_id by now apply next_task_id_fresh. reflexivity.
Qed.

(** X9 on the sample session. *)
Lemma deleted_id_is_reused_witness :
  let created := execute_tool "create_task" [("title", VStr "plan sprint")]
                              sample_session in
  exists t s2,
    out_data created.1 = Some (PTask t)
    /\ execute_tool "delete_task" [("id", VInt (task_id t))] created.2
       = (mkOutput "success" "Tool executed successfully" (Some (PTask t)), s2)
    /\ tasks s2 = tasks sample_session
    /\ next_task_id s2 = task_id t.
Proof.
  cbv zeta.
  assert (Hkey : keyed_by_id (tasks sample_session)).
  { intros k t H.
    change (tasks sample_session) with ({[1 := sample_task]} : gmap Z Task) in H.
    apply lookup_singleton_Some in H as [<- <-]. reflexivity. }
  eexists.
  destruct (deleted_id_is_reused [("title", VStr "plan sprint")] sample_session
              _ _ _ Hkey eq_refl eq_refl) as (s2 & H1 & H2 & H3).
  exists s2. split; [reflexivity|]. auto.
Defined.

End TaskTableMore.

(** ** Listing, conversations and messages *)

Section OtherTools.
Import PyStr Py Models Db MCPTaskManager OpenAIAgent Spec Shapes.

(** The rows of a table are its values, each once. *)
Lemma elem_of_rows {A} (m : gmap Z A) (x : A) :
  In x (rows m) <-> exists k, m !! k = Some x.
Proof.
  unfold rows. rewrite <- list_elem_of_In, list_elem_of_fmap. split.
  - intros ([k y] & -> & Hin). exists k.
    rewrite merge_sort_Permutation in Hin. now apply elem_of_map_to_list.
  - intros [k Hk]. exists (k, x). split; [reflexivity|].
    rewrite merge_sort_Permutation. now apply elem_of_map_to_list.
Qed.

Lemma length_rows {A} (m : gmap Z A) : length (rows m) = size m.
Proof.
  unfold rows. rewrite length_fmap, merge_sort_Permutation.
  apply length_map_to_list.
Qed.

Lemma status_is_spec (st : TaskStatus) (t : Task) :
  status_is st t = true <-> task_status t = st.
Proof.
  unfold status_is. destruct (task_status t), st; simpl; split;
    congruence || discriminate || reflexivity.
Qed.

(** X10.  [list_tasks] reads only.  Without a status, or with one that
    is falsy (absent, [None], the empty string), it returns every task of
    the table, each once; with a member of [TaskStatus] it returns exactly
    the tasks of that status; with anything else it returns [ERROR]. *)
Theorem list_tasks_lists (args : dict) (s : Session) :
  (truthy (get "status" args) = false ->
   exists l,
     execute_tool "list_tasks" args s
     = (mkOutput (ToolResult_value SUCCESS) "Tool executed successfully"
                 (Some (PTasks l)), s)
     /\ length l = size (tasks s)
     /\ forall t, In t l <-> exists k, tasks s !! k = Some t)
  /\ (forall st, get "status" args = VStr (TaskStatus_value st) ->
      exists l,
        execute_tool "list_tasks" args s
        = (mkOutput (ToolResult_value SUCCESS) "Tool executed successfully"
                    (Some (PTasks l)), s)
        /\ forall t, In t l <->
                     (exists k, tasks s !! k = Some t) /\ task_status t = st)
  /\ (truthy (get "status" args) = true ->
      (forall st, get "status" args <> VStr (TaskStatus_value st)) ->
      execute_tool "list_tasks" args s
      = (mkOutput (ToolResult_value ERROR)
                  (repr (get "status" args) +:+ " is not a valid TaskStatus")
                  None, s)).
Proof.
  rewrite (execute_registered "list_tasks" _list_tasks) by reflexivity.
  unfold _list_tasks. split; [|split].
  - intros ->. eexists. split; [reflexivity|].
    split; [apply length_rows | intros t; apply elem_of_rows].
  - intros st Hst. rewrite Hst.
    assert (Ht : truthy (VStr (TaskStatus_value st)) = true) by (destruct st; reflexivity).
    rewrite Ht. unfold Db.bind, lift. rewrite TaskStatus_of_value.
    eexists. split; [reflexivity|]. intros t.
    rewrite filter_In, elem_of_rows, status_is_spec. reflexivity.
  - intros -> Hbad. unfold Db.bind, lift.
    rewrite (TaskStatus_of_invalid _ Hbad). reflexivity.
Qed.

(** X10 on the sample session, unfiltered and filtered by "completed". *)
Lemma list_tasks_lists_witness :
  (exists l,
      execute_tool "list_tasks" [] sample_session
      = (mkOutput "success" "Tool executed successfully" (Some (PTasks l)),
         sample_session)
      /\ length l = size (tasks sample_session)
      /\ forall t, In t l <-> exists k, tasks sample_session !! k = Some t)
  /\ (exists l,
         execute_tool "list_tasks" [("status", VStr "completed")] sample_session
         = (mkOutput "success" "Tool executed successfully" (Some (PTasks l)),
            sample_session)
         /\ forall t, In t l <->
                      (exists k, tasks sample_session !! k = Some t)
                      /\ task_status t = COMPLETED).
Proof.
  split.
  - exact (proj1 (list_tasks_lists [] sample_session) eq_refl).
  - exact (proj1 (proj2 (list_tasks_lists [("status", VStr "completed")]
                                          sample_session)) COMPLETED eq_refl).
Defined.

(** The id [_create_conversation] and [_add_message] hand out. *)
Lemma create_conversation_run (args : dict) (s : Session) :
  _create_conversation args s
  = let i := match greatest conv_id (conversations s) with
             | None => 1
             | Some r => conv_id r + 1
             end in
    let c := mkConversation i (get "title" args)
                            (get_default "description" (VStr EmptyString) args)
                            (clock s (ticks s)) (clock s (S (ticks s))) in
    match not_null "conversation.title" (get "title" args) with
    | inl e =>
        (inl e,
         mkSession (tasks s) (conversations s) (messages s) (clock s)
                   (S (S (ticks s))) (text_key s))
    | inr _ =>
        (inr (PConversation c),
         mkSession (tasks s) (<[i := c]> (conversations s)) (messages s) (clock s)
                   (S (S (ticks s))) (text_key s))
    end.
Proof.
  unfold _create_conversation, Db.bind, first_by_id_desc, utcnow, add_conversation,
    commit. cbn. destruct (not_null _ _); reflexivity.
Qed.



(** X12.  [add_message] checks its conversation first.  For an integer
    conversation id that names no row the result is an [ERROR] and
    nothing is stored: "Conversation with ID ... not found" for a 64-bit
    id, the driver's overflow message for any other.  With a stored
    conversation, the result is the [ERROR] with Python's enumeration
    message when the role is not a member of [RoleType], and an [ERROR]
    again when the role is one but there is no content, the column
    taking no NULL; nothing is stored in either case.  Otherwise, given a
    text as content, one message is stored, under the id returned, with
    that content, the conversation id and the role asked for. *)
Theorem add_message_checks (args : dict) (s : Session) (cid : Z) :
  get "conversation_id" args = VInt cid ->
  (conversations s !! cid = None ->
   execute_tool "add_message" args s
   = (mkOutput (ToolResult_value ERROR)
               (if in_int64 cid
                then "Conversation with ID " +:+ str_int cid +:+ " not found"
                else sqlite_overflow) None, s))
  /\ (forall c e,
         conversations s !! cid = Some c ->
         RoleType_of (get_default "role" (VStr "user") args) = inl e ->
         execute_tool "add_message" args s
         = (mkOutput (ToolResult_value ERROR) (str_exn e) None, s))
  /\ (forall c role,
         conversations s !! cid = Some c ->
         RoleType_of (get_default "role" (VStr "user") args) = inr role ->
         get "content" args = VNone ->
         out_result (execute_tool "add_message" args s).1 = ToolResult_value ERROR
         /\ out_data (execute_tool "add_message" args s).1 = None
         /\ messages (execute_tool "add_message" args s).2 = messages s
         /\ tasks (execute_tool "add_message" args s).2 = tasks s
         /\ conversations (execute_tool "add_message" args s).2 = conversations s)
  /\ (forall c role content,
         conversations s !! cid = Some c ->
         RoleType_of (get_default "role" (VStr "user") args) = inr role ->
         get "content" args = VStr content ->
         exists m s1,
           execute_tool "add_message" args s
           = (mkOutput (ToolResult_value SUCCESS) "Tool executed successfully"
                       (Some (PMessage m)), s1)
           /\ messages s1 = <[msg_id m := m]> (messages s)
           /\ msg_content m = VStr content
           /\ msg_role m = role
           /\ msg_conversation_id m = VInt cid
           /\ tasks s1 = tasks s /\ conversations s1 = conversations s).
Proof.
  intros Hcid.
  rewrite (execute_registered "add_message" _add_message) by reflexivity.
  unfold _add_message, Db.bind, first_by_id_desc, get_row, lift, utcnow,
    Db.add_message, commit.
  rewrite Hcid. split; [|split; [|split]].
  - intros Hrow. cbn [find_row]. rewrite Hrow.
    destruct (in_int64 cid); reflexivity.
  - intros c e Hrow ->. rewrite (find_row_found _ _ _ _ Hrow). reflexivity.
  - intros c role Hrow -> Hcontent. rewrite (find_row_found _ _ _ _ Hrow). cbn.
    rewrite Hcontent. cbn. repeat split.
  - intros c role content Hrow -> Hcontent.
    rewrite (find_row_found _ _ _ _ Hrow). cbn. rewrite Hcontent. cbn.
    do 2 eexists.
    split; [reflexivity|]. cbn. repeat (split; [reflexivity|]). reflexivity.
Qed.

(** X12 on a session with no conversation. *)
Lemma add_message_checks_witness :
  execute_tool "add_message"
               [("conversation_id", VInt 4); ("content", VStr "hi"); ("role", VStr "user")]
               empty_session
  = (mkOutput "error" "Conversation with ID 4 not found" None, empty_session).
Proof.
  exact (proj1 (add_message_checks
                  [("conversation_id", VInt 4); ("content", VStr "hi");
                   ("role", VStr "user")] empty_session 4 eq_refl) eq_refl).
Defined.

End OtherTools.

(** ** Running lists of calls *)

Section Execution.
Import PyStr Py Models Db MCPTaskManager OpenAIAgent Spec Shapes.

(** Whatever its arguments, [_update_task] touches no table but the
    tasks, and what it returns is a task. *)
Lemma update_task_shape (args : dict) (s : Session) :
  conversations (_update_task args s).2 = conversations s
  /\ messages (_update_task args s).2 = messages s
  /\ forall p, (_update_task args s).1 = inr p -> exists t, p = PTask t.
Proof.
  unfold _update_task, Db.bind, get_row, lift, has, getitem, setattr, add_task,
    commit, refresh, ret.
  destruct (find_row _ _ _) as [e|[t|]]; cbn;
    try (repeat split; intros p; discriminate).
  destruct (Py.lookup "title" args) as [[|n1|x1]|];
  destruct (Py.lookup "description" args) as [v2|];
  (destruct (Py.lookup "status" args) as [v3|];
     [destruct (TaskStatus_of v3) as [e3|st3]|]);
  (destruct (Py.lookup "priority" args) as [v4|];
     [destruct (PriorityLevel_of v4) as [e4|p4]|]);
  destruct (Py.lookup "conversation_id" args) as [v5|];
  cbn; repeat split; intros p Hp; first [discriminate | injection Hp as <-; eauto].
Qed.

(** Every executor returns the kind of record that [_format_results]
    reads under the executor's tool name. *)
Lemma executed_payload_fits (tool : string) (f : dict -> M payload)
    (args : dict) (s : Session) (p : payload) :
  available_tools !! tool = Some f -> (f args s).1 = inr p ->
  payload_fits tool p = true.
Proof.
  intros Hf. apply elem_of_list_to_map_2, list_elem_of_In in Hf. simpl in Hf.
  destruct Hf as [Hf|[Hf|[Hf|[Hf|[Hf|[Hf|[Hf|[Hf|[]]]]]]]]];
    injection Hf as <- <-.
  - rewrite create_task_run.
    destruct (TaskStatus_of _); [discriminate|].
    destruct (PriorityLevel_of _); [discriminate|].
    cbv zeta. destruct (not_null _ _); [discriminate|].
    intros [= <-]. reflexivity.
  - intros Hp. destruct (proj2 (proj2 (update_task_shape args s)) p Hp) as [t ->].
    reflexivity.
  - unfold _delete_task, Db.bind, get_row.
    destruct (find_row _ _ _) as [e|[t|]]; cbn; try discriminate.
    intros [= <-]. reflexivity.
  - unfold _get_task, Db.bind, get_row.
    destruct (find_row _ _ _) as [e|[t|]]; cbn; try discriminate.
    intros [= <-]. reflexivity.
  - unfold _list_tasks, Db.bind, lift.
    destruct (truthy _); [|intros [= <-]; reflexivity].
    destruct (TaskStatus_of _); [discriminate|]. intros [= <-]. reflexivity.
  - rewrite create_conversation_run. cbv zeta.
    destruct (not_null _ _); [discriminate|]. intros [= <-]. reflexivity.
  - unfold _add_message, Db.bind, first_by_id_desc, get_row, lift, utcnow,
      Db.add_message, commit.
    destruct (find_row _ _ _) as [e|[c|]]; cbn; try discriminate.
    destruct (RoleType_of _); cbn; [discriminate|].
    destruct (not_null _ _); [discriminate|]. intros [= <-]. reflexivity.
  - unfold _get_conversation, Db.bind, get_row.
    destruct (find_row _ _ _) as [e|[c|]]; cbn; try discriminate.
    intros [= <-]. reflexivity.
Qed.

Lemma format_one_fits (tool msg : string) (p : payload) :
  payload_fits tool p = true ->
  exists text, format_one (mkResult tool "success" msg (Some (Some p))) = inr text.
Proof.
  unfold payload_fits. destruct p as [t|l|c|m]; simpl.
  - intros H. repeat (apply orb_true_iff in H as [H|H];
                      [apply String.eqb_eq in H; subst tool; eexists; reflexivity|]).
    discriminate.
  - intros H. apply String.eqb_eq in H. subst tool.
    destruct l; eexists; reflexivity.
  - intros H. repeat (apply orb_true_iff in H as [H|H];
                      [apply String.eqb_eq in H; subst tool; eexists; reflexivity|]).
    discriminate.
  - intros H. apply String.eqb_eq in H. subst tool. eexists. reflexivity.
Qed.

Lemma format_one_pending (tc : ToolCall) :
  format_one (pending tc) = inr ("Action '" +:+ name tc +:+ "' requires confirmation").
Proof. reflexivity. Qed.

Lemma format_one_executed (tc : ToolCall) (s : Session) :
  exists text, format_one (executed_entry tc s) = inr text.
Proof.
  unfold executed_entry. rewrite execute_tool_eq.
  destruct (available_tools !! name tc) as [f|] eqn:Hf.
  - destruct (f (arguments tc) s) as [[e|p] s'] eqn:Hrun; simpl.
    + eexists. reflexivity.
    + apply format_one_fits.
      apply (executed_payload_fits _ f (arguments tc) s); [exact Hf|].
      rewrite Hrun. reflexivity.
  - simpl. unfold format_one. simpl.
    destruct (contains "task" (name tc) && _); eexists; reflexivity.
Qed.

(** One step of the loop of [execute_tool_calls_with_session]. *)
Lemma execute_tool_calls_cons (tc : ToolCall) (calls : list ToolCall)
    (confirm : bool) (s : Session) :
  execute_tool_calls_with_session (tc :: calls) confirm s
  = if confirm && gated tc
    then (pending tc :: (execute_tool_calls_with_session calls confirm s).1,
          (execute_tool_calls_with_session calls confirm s).2)
    else let s1 := (execute_tool (name tc) (arguments tc) s).2 in
         (executed_entry tc s :: (execute_tool_calls_with_session calls confirm s1).1,
          (execute_tool_calls_with_session calls confirm s1).2).
Proof.
  cbn [execute_tool_calls_with_session]. unfold gated, executed_entry.
  destruct (confirm && _needs_confirmation (name tc)).
  - destruct (execute_tool_calls_with_session calls confirm s). reflexivity.
  - destruct (execute_tool (name tc) (arguments tc) s) as [out s1]. cbn.
    destruct (execute_tool_calls_with_session calls confirm s1). reflexivity.
Qed.

(** X13.  [execute_tool_calls_with_session] records one result per call,
    in the order of the calls and under the call's tool name: the
    [pending_confirmation] placeholder for a gated call while confirmation
    is required, and otherwise a [success], [error] or [not_found] result
    that carries a data field. *)
Theorem results_follow_calls (calls : list ToolCall) (confirm : bool) (s : Session) :
  Forall2 (result_of_call confirm) calls
          (execute_tool_calls_with_session calls confirm s).1.
Proof.
  revert s. induction calls as [|tc calls IH]; intros s; [constructor|].
  rewrite execute_tool_calls_cons.
  destruct (confirm && gated tc) eqn:E; cbn.
  - constructor; [|apply IH]. unfold result_of_call. rewrite E.
    split; [reflexivity|]. split; [reflexivity | discriminate].
  - constructor; [|apply IH]. unfold result_of_call. rewrite E.
    split; [reflexivity|]. split; [discriminate|]. intros _.
    unfold executed_entry. rewrite execute_tool_eq.
    destruct (available_tools !! name tc) as [f|]; simpl.
    + destruct (tool_outcome_result (f (arguments tc) s)) as [-> | ->];
        simpl; split; auto; discriminate.
    + split; [auto | discriminate].
Qed.

(** The formatter returns on the results of at most one call. *)
Lemma format_results_of_execution (calls : list ToolCall) (confirm : bool)
    (s : Session) :
  (length calls <= 1)%nat ->
  exists text,
    _format_results (execute_tool_calls_with_session calls confirm s).1 = inr text.
Proof.
  intros Hlen.
  assert (Hall : exists ms,
             format_all (execute_tool_calls_with_session calls confirm s).1 = inr ms).
  { destruct calls as [|tc [|tc' calls]]; [eexists; reflexivity| |simpl in Hlen; lia].
    rewrite execute_tool_calls_cons.
    destruct (confirm && gated tc); cbn -[format_one].
    - rewrite format_one_pending. eexists. reflexivity.
    - destruct (format_one_executed tc s) as [m ->]. eexists. reflexivity. }
  destruct Hall as [ms Hms]. unfold _format_results. rewrite Hms.
  eexists. reflexivity.
Qed.

(** The resolver asks for at most one call. *)
Lemma resolver_calls_short (text : string) (r : AgentResponse) :
  process_request text = inr r -> (length (tool_calls r) <= 1)%nat.
Proof.
  intros Hr.
  destruct (process_request_shape text)
    as [(t & H)|[(n & st & H)|[(n & H)|[(p & _ & H)|[(n & H)|[H|(ds & _ & _ & H)]]]]]];
    rewrite H in Hr; [injection Hr as <-; simpl; lia..|discriminate Hr].
Qed.

(** X14.  [_format_results] never raises on the result of one call,
    whatever the call, the flag and the session: when the call was
    executed, the data under its tool name is of the kind the formatter
    reads there, or there is none and the result is not a success; when
    it was left pending, it is rendered by its message. *)
Theorem formatter_total_on_result (tc : ToolCall) (confirm : bool) (s : Session) :
  (exists text,
      _format_results (execute_tool_calls_with_session [tc] confirm s).1 = inr text)
  /\ format_one (pending tc)
     = inr ("Action '" +:+ name tc +:+ "' requires confirmation")
  /\ (exists text, format_one (executed_entry tc s) = inr text)
  /\ (forall p, res_data (executed_entry tc s) = Some (Some p) ->
                payload_fits (name tc) p = true
                /\ res_result (executed_entry tc s) = ToolResult_value SUCCESS).
Proof.
  split; [apply format_results_of_execution; simpl; lia|].
  split; [apply format_one_pending|]. split; [apply format_one_executed|].
  intros p. unfold executed_entry. rewrite execute_tool_eq.
  destruct (available_tools !! name tc) as [f|] eqn:Hf; [|discriminate].
  destruct (f (arguments tc) s) as [[e|q] s'] eqn:Hrun; simpl; [discriminate|].
  intros [= <-]. split; [|reflexivity].
  apply (executed_payload_fits _ f (arguments tc) s); [exact Hf|].
  rewrite Hrun. reflexivity.
Qed.

End Execution.

(** ** What a chat turn can and cannot do *)

Section ChatTurn.
Import PyStr Py Models Db MCPTaskManager OpenAIAgent Spec Shapes.

(** A tool that is not behind the gate leaves every existing task as it
    is. *)
Lemma ungated_tool_keeps_rows (tool : string) (args : dict) (s : Session)
    (i : Z) (t : Task) :
  _needs_confirmation tool = false ->
  keyed_by_id (tasks s) -> tasks s !! i = Some t ->
  tasks (execute_tool tool args s).2 !! i = Some t.
Proof.
  intros Hgate Hkey Hrow. rewrite execute_tool_eq.
  destruct (available_tools !! tool) as [f|] eqn:Hf; [|exact Hrow].
  rewrite tool_outcome_session.
  apply elem_of_list_to_map_2, list_elem_of_In in Hf. simpl in Hf.
  destruct Hf as [Hf|[Hf|[Hf|Hf]]].
  - injection Hf as <- <-. rewrite create_task_run.
    destruct (TaskStatus_of _); [exact Hrow|].
    destruct (PriorityLevel_of _); [exact Hrow|].
    cbv zeta. destruct (not_null _ _); [exact Hrow|].
    cbn. rewrite lookup_insert_ne; [exact Hrow|].
    intros Heq. rewrite <- Heq, next_task_id_fresh in Hrow by assumption.
    discriminate.
  - injection Hf as <- <-. discriminate Hgate.
  - injection Hf as <- <-. discriminate Hgate.
  - assert (Hread : In f [_get_task; _list_tasks; _create_conversation;
                          _add_message; _get_conversation]).
    { simpl. repeat (destruct Hf as [Hf|Hf]; [injection Hf as _ <-; tauto|]).
      destruct Hf. }
    rewrite (readers_keep_tasks f args s Hread). exact Hrow.
Qed.

(** X15.  As long as no gated call is executed, because confirmation is
    required or because no call of the list is gated, running a list of
    calls neither changes nor removes a task that exists: only
    [update_task] and [delete_task] ever do. *)
Theorem existing_tasks_survive (calls : list ToolCall) (confirm : bool)
    (s : Session) (i : Z) (t : Task) :
  keyed_by_id (tasks s) ->
  confirm || forallb (fun tc => negb (gated tc)) calls = true ->
  tasks s !! i = Some t ->
  tasks (execute_tool_calls_with_session calls confirm s).2 !! i = Some t.
Proof.
  revert s. induction calls as [|tc calls IH]; intros s Hkey Hok Hrow; [exact Hrow|].
  rewrite execute_tool_calls_cons.
  assert (Hok' : confirm || forallb (fun tc => negb (gated tc)) calls = true).
  { destruct confirm; [reflexivity|]. simpl in *.
    apply andb_true_iff in Hok. tauto. }
  destruct (confirm && gated tc) eqn:E; cbn.
  - now apply IH.
  - assert (Hgate : _needs_confirmation (name tc) = false).
    { destruct confirm; simpl in *; [exact E|].
      apply andb_true_iff in Hok as [Hok _]. unfold gated in Hok.
      now destruct (_needs_confirmation (name tc)). }
    apply IH; [now apply keyed_by_id_kept | exact Hok' |].
    now apply ungated_tool_keeps_rows.
Qed.

(** X15 on the sample task and a delete that waits for confirmation. *)
Lemma existing_tasks_survive_witness :
  tasks (execute_tool_calls_with_session [delete_call 1; create_call "b"] true
                                         sample_session).2 !! 1
  = Some sample_task.
Proof.
  apply (existing_tasks_survive [delete_call 1; create_call "b"] true sample_session).
  - intros k t H.
    change (tasks sample_session) with ({[1 := sample_task]} : gmap Z Task) in H.
    apply lookup_singleton_Some in H as [<- <-]. reflexivity.
  - reflexivity.
  - reflexivity.
Defined.

(** [handle_user_request], once the resolver has answered. *)
Lemma handle_user_request_eq (text : string) (confirm_actions : bool)
    (s : Session) (r : AgentResponse) :
  process_request text = inr r ->
  handle_user_request text confirm_actions s
  = let run := (_format_results (execute_tool_calls_with_session (tool_calls r) false s).1,
                (execute_tool_calls_with_session (tool_calls r) false s).2) in
    if needs_confirmation r then
      if confirm_actions then
        (inr (match confirmation_message r with
              | Some m => if is_empty m then message r else m
              | None => message r
              end), s)
      else run
    else if negb (bool_decide (tool_calls r = [])) then run
    else (inr (message r), s).
Proof.
  intros Hr. unfold handle_user_request, Db.bind, lift, ret. rewrite Hr. cbv zeta.
  destruct (needs_confirmation r); [destruct confirm_actions; [reflexivity|]|].
  - destruct (execute_tool_calls_with_session (tool_calls r) false s). reflexivity.
  - destruct (negb (bool_decide (tool_calls r = []))); [|reflexivity].
    destruct (execute_tool_calls_with_session (tool_calls r) false s). reflexivity.
Qed.

(** [handle_user_request] returns whenever the resolver does. *)
Lemma handle_user_request_returns (text : string) (confirm_actions : bool)
    (s : Session) (r : AgentResponse) :
  process_request text = inr r ->
  exists reply s', handle_user_request text confirm_actions s = (inr reply, s').
Proof.
  intros H. rewrite (handle_user_request_eq _ _ _ _ H). cbv zeta.
  destruct (format_results_of_execution (tool_calls r) false s
              (resolver_calls_short _ _ H)) as [x ->].
  destruct (needs_confirmation r); [destruct confirm_actions|]; eauto.
  destruct (negb _); eauto.
Qed.

(** and passes the resolver's exception on, before it has touched the
    session. *)
Lemma handle_user_request_raises (text : string) (confirm_actions : bool)
    (s : Session) (e : exn) :
  process_request text = inl e ->
  handle_user_request text confirm_actions s = (inl e, s).
Proof.
  intros H. unfold handle_user_request, Db.bind, lift. rewrite H. reflexivity.
Qed.

(** X16.  [handle_user_request] raises only when the resolver does, on
    an id of more than 4300 digits: it then raises the resolver's
    [ValueError] and has not touched the session.  In every other case
    it returns a reply, for every flag and session: neither the tool
    behind [execute_tool] nor the formatter on its result can fail it.
    A text of at most 4300 characters is always answered. *)
Theorem handle_user_request_outcomes (text : string) (confirm_actions : bool)
    (s : Session) :
  ((exists r reply s',
       process_request text = inr r
       /\ handle_user_request text confirm_actions s = (inr reply, s'))
   \/ (exists ds,
          re_search_hash_digits (lower text) = Some ds
          /\ (int_max_str_digits < String.length ds)%nat
          /\ handle_user_request text confirm_actions s
             = (inl (ValueError (digit_limit_message (String.length ds))), s)))
  /\ ((String.length text <= int_max_str_digits)%nat ->
      exists reply s', handle_user_request text confirm_actions s = (inr reply, s')).
Proof.
  split.
  - destruct (process_request_shape text)
      as [(t & H)|[(n & st & H)|[(n & H)|[(p & _ & H)|[(n & H)|[H|(ds & Hds & Hl & H)]]]]]];
      [left..|right];
      try (destruct (handle_user_request_returns text confirm_actions s _ H)
             as (reply & s' & Hrun); eauto; fail).
    exists ds. split; [exact Hds|]. split; [exact Hl|].
    now apply handle_user_request_raises.
  - intros Hlen. destruct (process_request_short text Hlen) as [r H].
    exact (handle_user_request_returns text confirm_actions s r H).
Qed.

(** X16 at "Delete task #1" on the sample session. *)
Lemma handle_user_request_outcomes_witness :
  exists reply s',
    handle_user_request "Delete task #1" true sample_session = (inr reply, s').
Proof.
  apply (proj2 (handle_user_request_outcomes "Delete task #1" true sample_session)).
  apply Nat.leb_le. reflexivity.
Defined.

(** X17.  With [confirm_actions] left at [True], a chat turn never
    changes or removes an existing task, and it touches neither
    conversations nor messages: a request for an update or a delete is
    answered with the prompt and nothing is executed. *)
Theorem confirmed_turn_is_safe (text : string) (s : Session) :
  keyed_by_id (tasks s) ->
  (forall i t, tasks s !! i = Some t ->
               tasks (handle_user_request text true s).2 !! i = Some t)
  /\ conversations (handle_user_request text true s).2 = conversations s
  /\ messages (handle_user_request text true s).2 = messages s
  /\ (forall r, process_request text = inr r -> needs_confirmation r = true ->
                exists prompt, confirmation_message r = Some prompt
                               /\ handle_user_request text true s = (inr prompt, s)).
Proof.
  intros Hkey.
  destruct (process_request_shape text)
    as [(x & H)|[(n & st & H)|[(n & H)|[(p & Hp & H)|[(n & H)|[H|(ds & _ & _ & H)]]]]]];
    [rewrite (handle_user_request_eq _ _ _ _ H); cbv zeta;
     cbn -[execute_tool_calls_with_session]..
    |rewrite (handle_user_request_raises _ _ _ _ H)].
  - (* create_task *)
    rewrite execute_tool_calls_cons. cbn -[execute_tool].
    rewrite (execute_registered "create_task" _create_task) by reflexivity.
    rewrite create_task_run. cbn.
    split; [|split; [reflexivity|split; [reflexivity|]]].
    + intros i t Hrow. rewrite lookup_insert_ne; [exact Hrow|].
      intros Heq. rewrite <- Heq, next_task_id_fresh in Hrow by assumption.
      discriminate.
    + intros r Hr. rewrite H in Hr. injection Hr as <-. discriminate.
  - split; [tauto|]. split; [reflexivity|]. split; [reflexivity|].
    intros r Hr _. rewrite H in Hr. injection Hr as <-. eexists. split; reflexivity.
  - split; [tauto|]. split; [reflexivity|]. split; [reflexivity|].
    intros r Hr _. rewrite H in Hr. injection Hr as <-. eexists. split; reflexivity.
  - (* list_tasks *)
    rewrite execute_tool_calls_cons. cbn -[execute_tool].
    rewrite (execute_registered "list_tasks" _list_tasks) by reflexivity.
    rewrite tool_outcome_session.
    assert (Hsame : (_list_tasks p s).2 = s).
    { simpl in Hp. destruct Hp as [<-|[<-|[<-|[<-|[]]]]]; reflexivity. }
    rewrite Hsame. split; [tauto|]. split; [reflexivity|]. split; [reflexivity|].
    intros r Hr. rewrite H in Hr. injection Hr as <-. discriminate.
  - (* get_task *)
    rewrite execute_tool_calls_cons. cbn -[execute_tool].
    rewrite (execute_registered "get_task" _get_task) by reflexivity.
    rewrite tool_outcome_session.
    assert (Hsame : (_get_task [("id", VInt n)] s).2 = s).
    { unfold _get_task, Db.bind, get_row. cbn.
      destruct (tasks s !! n); [reflexivity|]. destruct (in_int64 n); reflexivity. }
    rewrite Hsame. split; [tauto|]. split; [reflexivity|]. split; [reflexivity|].
    intros r Hr. rewrite H in Hr. injection Hr as <-. discriminate.
  - split; [tauto|]. split; [reflexivity|]. split; [reflexivity|].
    intros r Hr. rewrite H in Hr. injection Hr as <-. discriminate.
  - split; [tauto|]. split; [reflexivity|]. split; [reflexivity|].
    intros r Hr. rewrite H in Hr. discriminate.
Qed.

(** X17 on the sample session and "Delete task #1". *)
Lemma confirmed_turn_is_safe_witness :
  tasks (handle_user_request "Delete task #1" true sample_session).2 !! 1
  = Some sample_task
  /\ handle_user_request "Delete task #1" true sample_session
     = (inr (delete_prompt 1), sample_session).
Proof.
  assert (Hkey : keyed_by_id (tasks sample_session)).
  { intros k t H.
    change (tasks sample_session) with ({[1 := sample_task]} : gmap Z Task) in H.
    apply lookup_singleton_Some in H as [<- <-]. reflexivity. }
  destruct (confirmed_turn_is_safe "Delete task #1" sample_session Hkey)
    as (Hrows & _ & _ & Hprompt).
  split; [exact (Hrows 1 sample_task eq_refl)|].
  destruct (Hprompt (respond_confirm (delete_call 1) (delete_prompt 1))
                    eq_refl eq_refl) as (prompt & Hp & Hrun).
  injection Hp as <-. exact Hrun.
Defined.

End ChatTurn.

(** ** Replies *)

Section Replies.
Import PyStr Py Models Db MCPTaskManager OpenAIAgent Spec Shapes.

(** X18.  A text resolved to [create_task] is executed at once, whatever
    [confirm_actions] is: the task is stored under the next id with the
    resolver's title, status "pending", priority "medium" and an empty
    description, and the reply is "Task updated successfully: <title>",
    the wording the formatter shares between create and update. *)
Theorem create_turn_reply (text title : string) (confirm_actions : bool)
    (s : Session) :
  process_request text = inr (respond (create_call title)) ->
  exists t s1,
    handle_user_request text confirm_actions s
    = (inr ("Task updated successfully: " +:+ title), s1)
    /\ tasks s1 = <[next_task_id s := t]> (tasks s)
    /\ t = mkTask (next_task_id s) (VStr title) (VStr EmptyString) PENDING MEDIUM
                  (clock s (ticks s)) (clock s (S (ticks s))) VNone.
Proof.
  intros H. rewrite (handle_user_request_eq _ _ _ _ H). cbv zeta.
  cbn -[execute_tool_calls_with_session].
  rewrite execute_tool_calls_cons. unfold executed_entry. cbn -[execute_tool].
  rewrite (execute_registered "create_task" _create_task) by reflexivity.
  rewrite create_task_run. cbn. do 2 eexists.
  split; [reflexivity|]. split; reflexivity.
Qed.

(** X18 at "Create a task to implement user authentication". *)
Lemma create_turn_reply_witness :
  exists t s1,
    handle_user_request "Create a task to implement user authentication" true
                        empty_session
    = (inr "Task updated successfully: implement user authentication", s1)
    /\ tasks s1 = <[next_task_id empty_session := t]> (tasks empty_session)
    /\ t = mkTask (next_task_id empty_session) (VStr "implement user authentication")
                  (VStr EmptyString) PENDING MEDIUM
                  (clock empty_session (ticks empty_session))
                  (clock empty_session (S (ticks empty_session))) VNone.
Proof.
  exact (create_turn_reply "Create a task to implement user authentication"
           "implement user authentication" true empty_session eq_refl).
Defined.

(** X19.  A text resolved to [delete_task] for an existing task: with
    [confirm_actions] the reply is the prompt and the session is
    untouched; without it the task is removed and the reply is
    "Task deleted: <title>". *)
Theorem delete_turn (text : string) (j : Z) (t : Task) (s : Session) :
  process_request text = inr (respond_confirm (delete_call j) (delete_prompt j)) ->
  tasks s !! j = Some t -> task_id t = j ->
  handle_user_request text true s = (inr (delete_prompt j), s)
  /\ handle_user_request text false s
     = (inr ("Task deleted: " +:+ str (task_title t)), with_tasks (delete j) s).
Proof.
  intros H Hrow Hkey. rewrite !(handle_user_request_eq _ _ _ _ H). cbv zeta.
  cbn -[execute_tool_calls_with_session]. split; [reflexivity|].
  rewrite execute_tool_calls_cons. unfold executed_entry. cbn -[execute_tool].
  rewrite (execute_registered "delete_task" _delete_task) by reflexivity.
  unfold _delete_task, Db.bind, get_row, Db.delete_task, commit, ret. cbn.
  rewrite Hrow, Hkey. reflexivity.
Qed.

(** X19 at "Delete task #1" on the sample session. *)
Lemma delete_turn_witness :
  handle_user_request "Delete task #1" true sample_session
  = (inr "I'm about to delete task #1. Is that OK?", sample_session)
  /\ handle_user_request "Delete task #1" false sample_session
     = (inr "Task deleted: write report", with_tasks (delete 1) sample_session).
Proof.
  exact (delete_turn "Delete task #1" 1 sample_task sample_session
           eq_refl eq_refl eq_refl).
Defined.

(** X20.  With no task stored, every text resolved to [list_tasks],
    filtered or not, is answered "No tasks found." and changes nothing. *)
Theorem empty_list_reply (text : string) (params : dict) (confirm_actions : bool)
    (s : Session) :
  process_request text = inr (respond (list_call params)) ->
  In params list_params ->
  tasks s = ∅ ->
  handle_user_request text confirm_actions s = (inr "No tasks found.", s).
Proof.
  intros H Hp Hempty. rewrite (handle_user_request_eq _ _ _ _ H). cbv zeta.
  cbn -[execute_tool_calls_with_session].
  rewrite execute_tool_calls_cons. unfold executed_entry. cbn -[execute_tool].
  rewrite (execute_registered "list_tasks" _list_tasks) by reflexivity.
  simpl in Hp. destruct Hp as [<-|[<-|[<-|[<-|[]]]]];
    unfold _list_tasks, Db.bind, lift; cbn -[rows]; rewrite Hempty; reflexivity.
Qed.

(** X20 at "Show me all pending tasks" in a session without rows. *)
Lemma empty_list_reply_witness :
  handle_user_request "Show me all pending tasks" true empty_session
  = (inr "No tasks found.", empty_session).
Proof.
  apply (empty_list_reply "Show me all pending tasks" [("status", VStr "pending")]
           true empty_session).
  - reflexivity.
  - simpl. auto.
  - reflexivity.
Defined.

(** X21.  A call of a tool that is not registered, when the tool's name
    contains "task", is reported as a missing task: the formatter takes
    the registry's "Tool ... not found" for a task that was not found and
    answers "I couldn't find that task." with one of its two
    suggestions.  Nothing is executed. *)
Theorem unknown_task_tool_misreported (tool : string) (args : dict) (s : Session) :
  available_tools !! tool = None ->
  contains "task" tool = true ->
  exists suggestion,
    execute_tool_calls_with_session [mkToolCall tool args] false s
    = ([mkResult tool "not_found" ("Tool '" +:+ tool +:+ "' not found") (Some None)], s)
    /\ _format_results
         [mkResult tool "not_found" ("Tool '" +:+ tool +:+ "' not found") (Some None)]
       = inr ("I couldn't find that task. " +:+ suggestion)
    /\ In suggestion
          ["Would you like me to list all tasks so you can find the right one?";
           "Would you like me to help you with something else?"].
Proof.
  intros Hnone Htask.
  assert (Hnf : contains "not found" (lower ("Tool '" +:+ tool +:+ "' not found")) = true).
  { rewrite !lower_app.
    change (lower "' not found") with ("' " +:+ "not found" +:+ EmptyString).
    apply contains_app_l, contains_app_l, contains_intro. }
  exists (_suggest_alternatives
            (mkResult tool "not_found" ("Tool '" +:+ tool +:+ "' not found") (Some None))).
  split; [|split].
  - cbn -[execute_tool]. rewrite (execute_unregistered _ _ _ Hnone). reflexivity.
  - unfold _format_results, format_all, format_one. cbn -[contains lower _suggest_alternatives].
    rewrite Htask, Hnf. reflexivity.
  - unfold _suggest_alternatives. simpl.
    destruct (re_search_ID_digits _); simpl; auto.
Qed.

(** X21 at the tool name "archive_task". *)
Lemma unknown_task_tool_misreported_witness :
  exists suggestion,
    execute_tool_calls_with_session [mkToolCall "archive_task" []] false empty_session
    = ([mkResult "archive_task" "not_found" "Tool 'archive_task' not found" (Some None)],
       empty_session)
    /\ _format_results
         [mkResult "archive_task" "not_found" "Tool 'archive_task' not found" (Some None)]
       = inr ("I couldn't find that task. " +:+ suggestion)
    /\ In suggestion
          ["Would you like me to list all tasks so you can find the right one?";
           "Would you like me to help you with something else?"].
Proof.
  exact (unknown_task_tool_misreported "archive_task" [] empty_session
           eq_refl eq_refl).
Defined.

End Replies.

(** ** Which tool writes where *)

Section Isolation.
Import PyStr Py Models Db MCPTaskManager OpenAIAgent Spec Shapes.

(** X22.  The task tools never write to conversations or messages, the
    conversation and message tools never write to tasks, and the three
    read tools, like a call of an unregistered tool, leave the whole
    session, clock included, as it was. *)
Theorem tool_tables_isolated (tool : string) (args : dict) (s : Session) :
  (In tool task_tool_names ->
   conversations (execute_tool tool args s).2 = conversations s
   /\ messages (execute_tool tool args s).2 = messages s)
  /\ (In tool conversation_tool_names ->
      tasks (execute_tool tool args s).2 = tasks s)
  /\ (In tool ["get_task"; "list_tasks"; "get_conversation"]
      \/ available_tools !! tool = None ->
      (execute_tool tool args s).2 = s).
Proof.
  split; [|split].
  - simpl. intros [<-|[<-|[<-|[<-|[<-|[]]]]]].
    + rewrite (execute_registered "create_task" _create_task) by reflexivity.
      rewrite tool_outcome_session, create_task_run.
      destruct (TaskStatus_of _); [auto|]. destruct (PriorityLevel_of _); [auto|].
      destruct (not_null _ _); auto.
    + rewrite (execute_registered "update_task" _update_task) by reflexivity.
      rewrite tool_outcome_session.
      destruct (update_task_shape args s) as (Hc & Hm & _). auto.
    + rewrite (execute_registered "delete_task" _delete_task) by reflexivity.
      rewrite tool_outcome_session.
      unfold _delete_task, Db.bind, get_row.
      destruct (find_row _ _ _) as [e|[t|]]; cbn; auto.
    + rewrite (execute_registered "get_task" _get_task) by reflexivity.
      rewrite tool_outcome_session.
      unfold _get_task, Db.bind, get_row.
      destruct (find_row _ _ _) as [e|[t|]]; cbn; auto.
    + rewrite (execute_registered "list_tasks" _list_tasks) by reflexivity.
      rewrite tool_outcome_session.
      unfold _list_tasks, Db.bind, lift.
      destruct (truthy _); [|auto]. destruct (TaskStatus_of _); auto.
  - simpl. intros [<-|[<-|[<-|[]]]].
    + rewrite (execute_registered "create_conversation" _create_conversation)
        by reflexivity.
      rewrite tool_outcome_session. apply readers_keep_tasks. simpl. auto.
    + rewrite (execute_registered "add_message" _add_message) by reflexivity.
      rewrite tool_outcome_session. apply readers_keep_tasks. simpl. auto 6.
    + rewrite (execute_registered "get_conversation" _get_conversation)
        by reflexivity.
      rewrite tool_outcome_session. apply readers_keep_tasks. simpl. auto 6.
  - intros [Hread|Hnone].
    + simpl in Hread. destruct Hread as [<-|[<-|[<-|[]]]].
      * rewrite (execute_registered "get_task" _get_task) by reflexivity.
        rewrite tool_outcome_session.
        unfold _get_task, Db.bind, get_row.
        destruct (find_row _ _ _) as [e|[t|]]; cbn; auto.
      * rewrite (execute_registered "list_tasks" _list_tasks) by reflexivity.
        rewrite tool_outcome_session.
        unfold _list_tasks, Db.bind, lift.
        destruct (truthy _); [|auto]. destruct (TaskStatus_of _); auto.
      * rewrite (execute_registered "get_conversation" _get_conversation)
          by reflexivity.
        rewrite tool_outcome_session.
        unfold _get_conversation, Db.bind, get_row.
        destruct (find_row _ _ _) as [e|[t|]]; cbn; auto.
    + rewrite (execute_unregistered _ _ _ Hnone). reflexivity.
Qed.

(** X22 on the sample session. *)
Lemma tool_tables_isolated_witness :
  (conversations (execute_tool "update_task"
                               [("id", VInt 1); ("title", VStr "draft")]
                               sample_session).2
   = conversations sample_session
   /\ messages (execute_tool "update_task"
                             [("id", VInt 1); ("title", VStr "draft")]
                             sample_session).2
      = messages sample_session)
  /\ tasks (execute_tool "create_conversation" [("title", VStr "Planning")]
                         sample_session).2
     = tasks sample_session
  /\ (execute_tool "list_tasks" [] sample_session).2 = sample_session.
Proof.
  split; [|split].
  - apply (tool_tables_isolated "update_task"). simpl. auto.
  - apply (tool_tables_isolated "create_conversation"). simpl. auto.
  - apply (tool_tables_isolated "list_tasks"). left. simpl. auto.
Defined.

End Isolation.

(** ** The catalog of tools *)

Section SchemaFacts.
Import PyStr Py Models Db MCPTaskManager OpenAIAgent Spec Shapes Schema.

(** What the check of the arguments in [conforms] says of one argument. *)
Lemma conforms_arg (props : list (string * json)) (args : dict) (k : string) (v : value) :
  forallb (fun kv : string * value =>
             match field kv.1 props with
             | Some decl => value_fits decl kv.2
             | None => false
             end) args = true ->
  Py.lookup k args = Some v ->
  exists decl, field k props = Some decl /\ value_fits decl v = true.
Proof.
  induction args as [|[k' v'] args IH]; simpl; [discriminate|].
  intros H. apply andb_true_iff in H as [H1 H2].
  destruct (String.eqb k k') eqn:E.
  - apply String.eqb_eq in E. subst k'. intros [= <-].
    destruct (field k props) as [decl|]; [eauto | discriminate].
  - apply IH, H2.
Qed.

Lemma fits_integer (desc : string) (v : value) :
  value_fits (param "integer" desc) v = true -> exists n, v = VInt n.
Proof. destruct v; simpl; try discriminate. eauto. Qed.

Lemma fits_string (desc : string) (v : value) :
  value_fits (param "string" desc) v = true -> exists x, v = VStr x.
Proof. destruct v; simpl; try discriminate. eauto. Qed.

Lemma strings_of_JStr (l : list string) : strings_of (Some (JArr (map JStr l))) = l.
Proof.
  unfold strings_of. induction l as [|x l IH]; simpl; [reflexivity|].
  now rewrite IH.
Qed.

Lemma fits_enum (enum : list string) (desc : string) (v : value) :
  value_fits (enum_param "string" enum desc) v = true ->
  exists x, v = VStr x /\ In x enum.
Proof.
  destruct v as [|n|x]; try discriminate. unfold value_fits, enum_param.
  cbn [obj_field field String.eqb Ascii.eqb Bool.eqb andb].
  rewrite strings_of_JStr. intros H. apply existsb_exists in H as (y & Hy & E).
  apply String.eqb_eq in E. subst y. eauto.
Qed.

(** A status of the catalog is a member of [TaskStatus], a priority a
    member of [PriorityLevel]. *)
Lemma status_enum_valid (x : string) :
  In x status_enum -> exists st, TaskStatus_of (VStr x) = inr st.
Proof. simpl. intros [<-|[<-|[<-|[]]]]; eexists; reflexivity. Qed.

Lemma priority_enum_valid (x : string) :
  In x priority_enum -> exists p, PriorityLevel_of (VStr x) = inr p.
Proof. simpl. intros [<-|[<-|[<-|[<-|[]]]]]; eexists; reflexivity. Qed.

(** The status of an [update_task] call of the resolver is one of the
    three literals of its pattern. *)
Lemma resolver_status_literal (l : string) :
  In (match re_search_alt status_literals l with
      | Some st => st
      | None => "in_progress"
      end) status_literals.
Proof.
  destruct (re_search_alt status_literals l) as [st|] eqn:E.
  - destruct (re_search_alt_Some _ _ _ E) as (_ & _ & _ & Hin & _). exact Hin.
  - simpl. auto.
Qed.

(** X23.  Every call the resolver emits conforms to the catalog of
    [get_tool_schema]: its tool is listed there, the required parameters
    are given, every argument is a declared parameter of the declared
    type, and a status is one of the statuses the catalog enumerates. *)
Theorem resolver_calls_conform (text : string) (r : AgentResponse) (tc : ToolCall) :
  process_request text = inr r -> In tc (tool_calls r) -> conforms tc = true.
Proof.
  unfold process_request. cbv zeta. set (l := lower text).
  destruct (contains "create" l && (contains "task" l || contains "new" l)).
  { destruct (contains "to" l) eqn:Hto.
    - destruct (split_index_1_exists "to" l ltac:(simpl; lia) Hto) as (x & ->).
      intros [= <-] [<-|[]]. reflexivity.
    - destruct (contains "for" l) eqn:Hfor.
      + destruct (split_index_1_exists "for" l ltac:(simpl; lia) Hfor) as (x & ->).
        intros [= <-] [<-|[]]. reflexivity.
      + intros [= <-] [<-|[]]. reflexivity. }
  destruct (contains "update" l && contains "task" l).
  { destruct (re_search_hash_digits l) as [ds|] eqn:Hid.
    - destruct (re_search_hash_digits_int _ _ Hid) as [(_ & n & -> & _)|(_ & ->)];
        [|discriminate].
      pose proof (resolver_status_literal l) as Hst.
      change ["pending"; "in_progress"; "completed"] with status_literals.
      destruct (match re_search_alt status_literals l with
                | Some st => st
                | None => "in_progress"
                end) as [|c st'] eqn:E; simpl in Hst.
      + destruct Hst as [Hst|[Hst|[Hst|[]]]]; discriminate Hst.
      + intros [= <-] [<-|[]].
        destruct Hst as [Hst|[Hst|[Hst|[]]]]; rewrite <- Hst; reflexivity.
    - intros [= <-] []. }
  destruct (contains "delete" l && contains "task" l).
  { destruct (re_search_hash_digits l) as [ds|] eqn:Hid.
    - destruct (re_search_hash_digits_int _ _ Hid) as [(_ & n & -> & _)|(_ & ->)];
        [|discriminate].
      intros [= <-] [<-|[]]. reflexivity.
    - intros [= <-] []. }
  destruct (contains "show" l || contains "list" l || contains "all" l).
  { destruct (contains "pending" l); [intros [= <-] [<-|[]]; reflexivity|].
    destruct (contains "in progress" l || contains "in_progress" l);
      [intros [= <-] [<-|[]]; reflexivity|].
    destruct (contains "completed" l); intros [= <-] [<-|[]]; reflexivity. }
  destruct ((contains "get" l || contains "show" l || contains "what" l)
            && contains "task" l).
  { destruct (re_search_hash_digits l) as [ds|] eqn:Hid.
    - destruct (re_search_hash_digits_int _ _ Hid) as [(_ & n & -> & _)|(_ & ->)];
        [|discriminate].
      intros [= <-] [<-|[]]. reflexivity.
    - intros [= <-] []. }
  intros [= <-] [].
Qed.

(** X23 at "Update task #1 to completed status". *)
Lemma resolver_calls_conform_witness :
  conforms (update_call 1 "completed") = true.
Proof.
  apply (resolver_calls_conform "Update task #1 to completed status"
           (respond_confirm (update_call 1 "completed") (update_prompt 1 "completed"))).
  - reflexivity.
  - simpl. auto.
Defined.

(** Reading an entry built by [function_tool]. *)
Lemma tool_name_function_tool (n d : string) (ps : list (string * json))
    (r : option (list string)) :
  tool_name (function_tool n d ps r) = Some n.
Proof. reflexivity. Qed.

Lemma tool_properties_function_tool (n d : string) (ps : list (string * json))
    (r : option (list string)) :
  tool_properties (function_tool n d ps r) = ps.
Proof. reflexivity. Qed.

Lemma tool_required_function_tool (n d : string) (ps : list (string * json))
    (r : option (list string)) :
  tool_required (function_tool n d ps r) = match r with Some l => l | None => [] end.
Proof.
  destruct r as [l|]; [|reflexivity].
  unfold tool_required, tool_parameters, function_tool.
  cbn [obj_field field String.eqb Ascii.eqb Bool.eqb andb app].
  apply strings_of_JStr.
Qed.

(** A conforming call names an entry of the catalog and passes its two
    checks. *)
Lemma conforms_inv (tc : ToolCall) :
  conforms tc = true ->
  exists entry,
    In entry get_tool_schema
    /\ tool_name entry = Some (name tc)
    /\ forallb (fun k => has k (arguments tc)) (tool_required entry) = true
    /\ forallb (fun kv : string * value =>
                  match field kv.1 (tool_properties entry) with
                  | Some decl => value_fits decl kv.2
                  | None => false
                  end) (arguments tc) = true.
Proof.
  unfold conforms.
  destruct (List.find _ get_tool_schema) as [entry|] eqn:E; [|discriminate].
  apply find_some in E as [Hin Hname]. intros H.
  apply andb_true_iff in H as [Hreq Hall].
  exists entry. repeat split; try assumption.
  destruct (tool_name entry) as [n|]; [|discriminate].
  apply String.eqb_eq in Hname. now subst n.
Qed.

Lemma role_enum_valid (x : string) :
  In x ["user"; "assistant"; "system"] -> exists r, RoleType_of (VStr x) = inr r.
Proof. simpl. intros [<-|[<-|[<-|[]]]]; eexists; reflexivity. Qed.

(** Reads the argument [k] of a conforming call: absent, or a value that
    fits the declaration of [k]. *)
Ltac read_arg Hall k :=
  let v := fresh "v" in
  let Hlk := fresh "Hlk" in
  let decl := fresh "decl" in
  let Hd := fresh "Hd" in
  let Hfit := fresh "Hfit" in
  destruct (Py.lookup k _) as [v|] eqn:Hlk;
  [ destruct (conforms_arg _ _ _ _ Hall Hlk) as (decl & Hd & Hfit);
    cbn [field String.eqb Ascii.eqb Bool.eqb andb] in Hd;
    first [discriminate Hd | injection Hd as <-]
  | ].

Ltac fits :=
  repeat match goal with
  | H : value_fits (param "integer" _) _ = true |- _ =>
      apply fits_integer in H as (? & ->)
  | H : value_fits (param "string" _) _ = true |- _ =>
      apply fits_string in H as (? & ->)
  | H : value_fits (enum_param "string" status_enum _) _ = true |- _ =>
      apply fits_enum in H as (? & -> & H);
      apply status_enum_valid in H as (? & H); rewrite ?H
  | H : value_fits (enum_param "string" priority_enum _) _ = true |- _ =>
      apply fits_enum in H as (? & -> & H);
      apply priority_enum_valid in H as (? & H); rewrite ?H
  | H : value_fits (enum_param "string" _ _) _ = true |- _ =>
      apply fits_enum in H as (? & -> & H);
      apply role_enum_valid in H as (? & H); rewrite ?H
  end.

(** X24.  The catalog and the registry agree: the names of the entries
    of [get_tool_schema] are the keys of the dict literal behind
    [available_tools], in the order in which the literal writes them, no
    name occurs twice, a name is listed exactly when [available_tools]
    has it, and every parameter an entry requires is one it declares.
    The catalog is narrower than the executors in one place: no entry
    accepts the status "cancelled", which is a member of [TaskStatus]. *)
Theorem schema_matches_registry :
  map tool_name get_tool_schema
  = map (fun kv : string * (dict -> M payload) => Some kv.1) tool_registry
  /\ List.NoDup (map tool_name get_tool_schema)
  /\ available_tools = list_to_map tool_registry
  /\ (forall tool, In (Some tool) (map tool_name get_tool_schema)
                   <-> is_Some (available_tools !! tool))
  /\ (forall entry k, In entry get_tool_schema -> In k (tool_required entry) ->
                      is_Some (field k (tool_properties entry)))
  /\ (forall entry decl, In entry get_tool_schema ->
                         field "status" (tool_properties entry) = Some decl ->
                         value_fits decl (VStr "cancelled") = false)
  /\ TaskStatus_of (VStr "cancelled") = inr CANCELLED.
Proof.
  split; [reflexivity|]. split; [|split; [reflexivity|]].
  { change (map tool_name get_tool_schema) with (map Some registered_tools).
    unfold registered_tools. simpl.
    repeat (constructor; [simpl; intros Hin;
                          repeat (destruct Hin as [Hin|Hin]; [discriminate Hin|]);
                          destruct Hin|]).
    constructor. }
  split; [|split; [|split; [|reflexivity]]].
  - intros tool. rewrite <- registered_iff.
    change (map tool_name get_tool_schema) with (map Some registered_tools).
    rewrite in_map_iff. split.
    + intros (x & [= ->] & Hx). exact Hx.
    + intros Hx. eauto.
  - intros entry k Hin.
    destruct Hin as [<-|[<-|[<-|[<-|[<-|[<-|[<-|[<-|[]]]]]]]]];
      rewrite tool_required_function_tool, tool_properties_function_tool;
      simpl; intros Hk;
      repeat (destruct Hk as [<-|Hk]; [eexists; reflexivity|]); destruct Hk.
  - intros entry decl Hin.
    destruct Hin as [<-|[<-|[<-|[<-|[<-|[<-|[<-|[<-|[]]]]]]]]];
      rewrite tool_properties_function_tool;
      cbn [field String.eqb Ascii.eqb Bool.eqb andb];
      intros Hd; first [discriminate Hd | injection Hd as <-; reflexivity].
Qed.

(** X25.  A call that conforms to the catalog fails for one reason only:
    [execute_tool] answers "success" with data, unless the task or the
    conversation the call names by id is not stored, and then the answer
    is "error": with the message "... with ID <id> not found" when the id
    is in the signed 64-bit range, and with the driver's "Python int too
    large to convert to SQLite INTEGER" when it is not.  No conforming
    call is answered "not_found", and none fails on an enum value, a
    missing key or a missing title. *)
Theorem conforming_call_outcome (tc : ToolCall) (s : Session) :
  conforms tc = true ->
  (out_result (execute_tool (name tc) (arguments tc) s).1 = "success"
   /\ out_data (execute_tool (name tc) (arguments tc) s).1 <> None)
  \/ (out_result (execute_tool (name tc) (arguments tc) s).1 = "error"
      /\ exists n,
           (out_message (execute_tool (name tc) (arguments tc) s).1
            = (if in_int64 n then "Task with ID " +:+ str_int n +:+ " not found"
               else sqlite_overflow)
            /\ In (name tc) ["update_task"; "delete_task"; "get_task"]
            /\ get "id" (arguments tc) = VInt n
            /\ tasks s !! n = None)
           \/ (out_message (execute_tool (name tc) (arguments tc) s).1
               = (if in_int64 n
                  then "Conversation with ID " +:+ str_int n +:+ " not found"
                  else sqlite_overflow)
               /\ ((name tc = "get_conversation" /\ get "id" (arguments tc) = VInt n)
                   \/ (name tc = "add_message"
                       /\ get "conversation_id" (arguments tc) = VInt n))
               /\ conversations s !! n = None)).
Proof.
  intros H. destruct (conforms_inv tc H) as (entry & Hin & Hname & Hreq & Hall).
  destruct tc as [nm args]. cbn [name arguments] in Hname, Hreq, Hall |- *.
  destruct Hin as [<-|[<-|[<-|[<-|[<-|[<-|[<-|[<-|[]]]]]]]]];
    rewrite tool_name_function_tool in Hname; injection Hname as <-;
    rewrite tool_required_function_tool in Hreq;
    rewrite tool_properties_function_tool in Hall;
    cbn [forallb] in Hreq.
  - (* create_task *)
    rewrite (execute_registered "create_task" _create_task) by reflexivity.
    rewrite create_task_run. unfold get_default, get. unfold has in Hreq.
    read_arg Hall "title"; [|discriminate Hreq].
    read_arg Hall "status"; read_arg Hall "priority"; fits;
      try (change (TaskStatus_of (VStr "pending")) with (inr (B:=TaskStatus) (A:=exn) PENDING));
      try (change (PriorityLevel_of (VStr "medium"))
             with (inr (B:=PriorityLevel) (A:=exn) MEDIUM));
      left; (split; [reflexivity | discriminate]).
  - (* update_task *)
    rewrite (execute_registered "update_task" _update_task) by reflexivity.
    unfold has in Hreq. unfold _update_task, Db.bind, get_row, find_row, lift, has,
      getitem, setattr, add_task, commit, refresh, ret, raise, get.
    read_arg Hall "id"; [|discriminate Hreq]. fits.
    destruct (tasks s !! x) as [t|] eqn:Hrow.
    + read_arg Hall "title"; read_arg Hall "description"; read_arg Hall "status";
        read_arg Hall "priority"; read_arg Hall "conversation_id"; fits;
        left; (split; [reflexivity | discriminate]).
    + right. split; [destruct (in_int64 x); reflexivity|]. exists x. left.
      split; [destruct (in_int64 x); reflexivity|].
      split; [simpl; auto|]. split; [reflexivity | exact Hrow].
  - (* delete_task *)
    rewrite (execute_registered "delete_task" _delete_task) by reflexivity.
    unfold has in Hreq. unfold _delete_task, Db.bind, get_row, find_row, Db.delete_task,
      commit, ret, raise, get.
    read_arg Hall "id"; [|discriminate Hreq]. fits.
    destruct (tasks s !! x) as [t|] eqn:Hrow.
    + left. split; [reflexivity | discriminate].
    + right. split; [destruct (in_int64 x); reflexivity|]. exists x. left.
      split; [destruct (in_int64 x); reflexivity|].
      split; [simpl; auto|]. split; [reflexivity | exact Hrow].
  - (* get_task *)
    rewrite (execute_registered "get_task" _get_task) by reflexivity.
    unfold has in Hreq. unfold _get_task, Db.bind, get_row, find_row, ret, raise, get.
    read_arg Hall "id"; [|discriminate Hreq]. fits.
    destruct (tasks s !! x) as [t|] eqn:Hrow.
    + left. split; [reflexivity | discriminate].
    + right. split; [destruct (in_int64 x); reflexivity|]. exists x. left.
      split; [destruct (in_int64 x); reflexivity|].
      split; [simpl; auto|]. split; [reflexivity | exact Hrow].
  - (* list_tasks *)
    rewrite (execute_registered "list_tasks" _list_tasks) by reflexivity.
    unfold _list_tasks, Db.bind, lift, get.
    read_arg Hall "status"; fits.
    + destruct (truthy (VStr x)); left; (split; [reflexivity | discriminate]).
    + left. split; [reflexivity | discriminate].
  - (* create_conversation *)
    rewrite (execute_registered "create_conversation" _create_conversation)
      by reflexivity.
    rewrite create_conversation_run. unfold get. unfold has in Hreq.
    read_arg Hall "title"; [|discriminate Hreq]. fits.
    left. split; [reflexivity | discriminate].
  - (* add_message *)
    rewrite (execute_registered "add_message" _add_message) by reflexivity.
    unfold has in Hreq.
    unfold _add_message, Db.bind, first_by_id_desc, get_row, find_row, lift, utcnow,
      Db.add_message, commit, refresh, ret, raise, get, get_default.
    read_arg Hall "conversation_id"; [|discriminate Hreq]. fits.
    destruct (conversations s !! x) as [c|] eqn:Hrow.
    + read_arg Hall "content"; [|discriminate Hreq].
      read_arg Hall "role"; [|discriminate Hreq]. fits.
      left. split; [reflexivity | discriminate].
    + right. split; [destruct (in_int64 x); reflexivity|]. exists x. right.
      split; [destruct (in_int64 x); reflexivity|].
      split; [right; split; reflexivity | exact Hrow].
  - (* get_conversation *)
    rewrite (execute_registered "get_conversation" _get_conversation) by reflexivity.
    unfold has in Hreq. unfold _get_conversation, Db.bind, get_row, find_row, ret, raise,
      get.
    read_arg Hall "id"; [|discriminate Hreq]. fits.
    destruct (conversations s !! x) as [c|] eqn:Hrow.
    + left. split; [reflexivity | discriminate].
    + right. split; [destruct (in_int64 x); reflexivity|]. exists x. right.
      split; [destruct (in_int64 x); reflexivity|].
      split; [left; split; reflexivity | exact Hrow].
Qed.

(** X25 on the sample session: an update of task 1 succeeds, a read of
    task 7 finds no row, and a read of task 2^63 is answered with the
    driver's message. *)
Lemma conforming_call_outcome_witness :
  out_result (execute_tool "update_task" [("id", VInt 1); ("status", VStr "completed")]
                           sample_session).1 = "success"
  /\ out_message (execute_tool "get_task" [("id", VInt 7)] sample_session).1
     = "Task with ID 7 not found"
  /\ out_message (execute_tool "get_task" [("id", VInt 9223372036854775808)]
                               sample_session).1
     = "Python int too large to convert to SQLite INTEGER".
Proof.
  split; [|split].
  - destruct (conforming_call_outcome (update_call 1 "completed") sample_session eq_refl)
      as [[H _]|[H _]]; [exact H | discriminate H].
  - destruct (conforming_call_outcome (get_call 7) sample_session eq_refl)
      as [[H _]|[_ (n & [(Hm & _ & Hid & _)|(_ & [[Hn _]|[Hn _]] & _)])]];
      [discriminate H | | discriminate Hn | discriminate Hn].
    injection Hid as <-. exact Hm.
  - destruct (conforming_call_outcome (get_call 9223372036854775808) sample_session
                eq_refl)
      as [[H _]|[_ (n & [(Hm & _ & Hid & _)|(_ & [[Hn _]|[Hn _]] & _)])]];
      [discriminate H | | discriminate Hn | discriminate Hn].
    injection Hid as <-. exact Hm.
Defined.

End SchemaFacts.

(** ** The HTTP endpoints *)

Section EndpointFacts.
Import PyStr Py Models Db MCPTaskManager OpenAIAgent Spec Shapes ChatApi Turn.

Variable new_conversation_id : gmap Z Conversation -> Z.
Variable new_message_id : gmap Z Message -> Z.
Variable isoformat : Z -> string.

(** The database gives a new row a key that is not in use. *)
Hypothesis conversation_id_fresh : forall m, m !! new_conversation_id m = None.
Hypothesis message_id_fresh : forall m, m !! new_message_id m = None.

Lemma next_key_above {A} (m : gmap Z A) (k : Z) (x : A) :
  m !! k = Some x -> k < next_key m.
Proof.
  unfold next_key. revert k x.
  apply (map_fold_weak_ind
           (fun acc (m : gmap Z A) => forall k x, m !! k = Some x -> k < acc)).
  - intros k x H. rewrite lookup_empty in H. discriminate.
  - intros i y m' r Hfresh IH k x Hk.
    destruct (decide (k = i)) as [->|Hne].
    + lia.
    + rewrite lookup_insert_ne in Hk by congruence. specialize (IH k x Hk). lia.
Qed.

Lemma next_key_fresh {A} (m : gmap Z A) : m !! next_key m = None.
Proof.
  destruct (m !! next_key m) as [x|] eqn:E; [|reflexivity].
  apply next_key_above in E. lia.
Qed.

(** The check of [user_id]. *)
Lemma user_id_check (user_id : string) :
  is_empty user_id || (String.length user_id <? 1)%nat
    || (100 <? String.length user_id)%nat = true
  <-> user_id = EmptyString \/ (100 < String.length user_id)%nat.
Proof.
  rewrite !orb_true_iff, !Nat.ltb_lt. destruct user_id as [|c u]; simpl.
  - split; auto.
  - split.
    + intros [[H|H]|H]; [discriminate | lia | auto].
    + intros [H|H]; [discriminate | auto].
Qed.

Lemma is_empty_spec (x : string) : is_empty x = true <-> x = EmptyString.
Proof. destruct x; simpl; split; congruence. Qed.

Lemma store_message_eq (content : string) (role : RoleType) (cid : Z) (s : Session) :
  store_message new_message_id content role cid s
  = (mkMessage (new_message_id (messages s)) (VStr content) role
               (clock s (ticks s)) (clock s (S (ticks s))) (clock s (S (S (ticks s))))
               (VInt cid),
     mkSession (tasks s) (conversations s)
               (<[new_message_id (messages s) :=
                    mkMessage (new_message_id (messages s)) (VStr content) role
                              (clock s (ticks s)) (clock s (S (ticks s)))
                              (clock s (S (S (ticks s)))) (VInt cid)]> (messages s))
               (clock s) (S (S (S (ticks s)))) (text_key s)).
Proof. reflexivity. Qed.

Lemma store_conversation_eq (title description : string) (s : Session) :
  store_conversation new_conversation_id title description s
  = (mkConversation (new_conversation_id (conversations s)) (VStr title)
                    (VStr description) (clock s (ticks s)) (clock s (S (ticks s))),
     mkSession (tasks s)
               (<[new_conversation_id (conversations s) :=
                    mkConversation (new_conversation_id (conversations s)) (VStr title)
                                   (VStr description) (clock s (ticks s))
                                   (clock s (S (ticks s)))]> (conversations s))
               (messages s) (clock s) (S (S (ticks s))) (text_key s)).
Proof. reflexivity. Qed.

(** With [confirm_actions] at [True], [handle_user_request] reads the
    clock but never sets it back, writes to no table but the tasks, and
    keeps every stored task as it is.  It returns a reply when the
    resolver returns, and raises the resolver's [ValueError], the session
    untouched, when the resolver raises. *)
Lemma confirmed_turn_frame (text : string) (s : Session) :
  exists out s',
    handle_user_request text true s = (out, s')
    /\ conversations s' = conversations s
    /\ messages s' = messages s
    /\ clock s' = clock s
    /\ (ticks s <= ticks s')%nat
    /\ (keyed_by_id (tasks s) ->
        forall i t, tasks s !! i = Some t -> tasks s' !! i = Some t)
    /\ match out with
       | inr _ => exists r, process_request text = inr r
       | inl e =>
           s' = s
           /\ exists ds,
                re_search_hash_digits (lower text) = Some ds
                /\ (int_max_str_digits < String.length ds)%nat
                /\ e = ValueError (digit_limit_message (String.length ds))
                /\ process_request text = inl e
       end.
Proof.
  destruct (process_request_shape text)
    as [(x & H)|[(n & st & H)|[(n & H)|[(p & Hp & H)|[(n & H)|[H|(ds & Hds & Hl & H)]]]]]];
    [rewrite (handle_user_request_eq _ _ _ _ H); cbv zeta;
     cbn -[execute_tool_calls_with_session _format_results]..
    |rewrite (handle_user_request_raises _ _ _ _ H)];
    try (do 2 eexists; split; [reflexivity|]; repeat split; eauto; fail).
  - destruct (format_results_of_execution [create_call x] false s ltac:(simpl; lia))
      as [reply ->].
    do 2 eexists. split; [reflexivity|].
    rewrite execute_tool_calls_cons. cbn -[execute_tool].
    rewrite (execute_registered "create_task" _create_task) by reflexivity.
    rewrite create_task_run. cbn. repeat split; eauto.
    intros Hkey i t Hrow. rewrite lookup_insert_ne; [exact Hrow|].
    intros Heq. rewrite <- Heq, next_task_id_fresh in Hrow by assumption.
    discriminate.
  - destruct (format_results_of_execution [list_call p] false s ltac:(simpl; lia))
      as [reply ->].
    do 2 eexists. split; [reflexivity|].
    rewrite execute_tool_calls_cons. cbn -[execute_tool].
    rewrite (execute_registered "list_tasks" _list_tasks) by reflexivity.
    rewrite tool_outcome_session.
    assert (Hsame : (_list_tasks p s).2 = s).
    { simpl in Hp. destruct Hp as [<-|[<-|[<-|[<-|[]]]]]; reflexivity. }
    rewrite Hsame. repeat split; eauto.
  - destruct (format_results_of_execution [get_call n] false s ltac:(simpl; lia))
      as [reply ->].
    do 2 eexists. split; [reflexivity|].
    rewrite execute_tool_calls_cons. cbn -[execute_tool].
    rewrite (execute_registered "get_task" _get_task) by reflexivity.
    rewrite tool_outcome_session.
    assert (Hsame : (_get_task [("id", VInt n)] s).2 = s).
    { unfold _get_task, Db.bind, get_row. cbn.
      destruct (tasks s !! n); [reflexivity|]. destruct (in_int64 n); reflexivity. }
    rewrite Hsame. repeat split; eauto.
Qed.

(** The part of [chat_endpoint] that follows the choice of the
    conversation: the user's message is stored; then either the agent
    replies and the reply is stored, or the resolver raises and the
    answer is 500. *)
Lemma turn_stored (msg : string) (c : Conversation) (s1 : Session) :
  exists um,
    um = mkMessage (new_message_id (messages s1)) (VStr msg) USER
                   (clock s1 (ticks s1)) (clock s1 (S (ticks s1)))
                   (clock s1 (S (S (ticks s1)))) (VInt (conv_id c))
    /\ ((exists reply am s5 j now,
           (let (user_message, s2) :=
              store_message new_message_id msg USER (conv_id c) s1 in
            match handle_user_request msg true s2 with
            | (inl e, s3) => (HTTPException 500 "Internal server error", s3)
            | (inr agent_response, s3) =>
                let (assistant_message, s4) :=
                  store_message new_message_id agent_response ASSISTANT (conv_id c) s3 in
                let (now, s5) := read_clock s4 in
                (Ok (mkChatResponse (conv_id c) agent_response (isoformat now)), s5)
            end) = (Ok (mkChatResponse (conv_id c) reply (isoformat now)), s5)
           /\ (exists r, process_request msg = inr r)
           /\ am = mkMessage (new_message_id (<[msg_id um := um]> (messages s1)))
                             (VStr reply) ASSISTANT (clock s1 j) (clock s1 (S j))
                             (clock s1 (S (S j))) (VInt (conv_id c))
           /\ (ticks s1 < j)%nat
           /\ messages s5 = <[msg_id am := am]> (<[msg_id um := um]> (messages s1))
           /\ conversations s5 = conversations s1
           /\ (exists s2, tasks s2 = tasks s1
                          /\ (handle_user_request msg true s2).1 = inr reply))
        \/ (exists ds s3,
              (let (user_message, s2) :=
                 store_message new_message_id msg USER (conv_id c) s1 in
               match handle_user_request msg true s2 with
               | (inl e, s3) => (HTTPException 500 "Internal server error", s3)
               | (inr agent_response, s3) =>
                   let (assistant_message, s4) :=
                     store_message new_message_id agent_response ASSISTANT (conv_id c) s3 in
                   let (now, s5) := read_clock s4 in
                   (Ok (mkChatResponse (conv_id c) agent_response (isoformat now)), s5)
               end) = (HTTPException 500 "Internal server error", s3)
              /\ re_search_hash_digits (lower msg) = Some ds
              /\ (int_max_str_digits < String.length ds)%nat
              /\ process_request msg
                 = inl (ValueError (digit_limit_message (String.length ds)))
              /\ messages s3 = <[msg_id um := um]> (messages s1)
              /\ conversations s3 = conversations s1
              /\ tasks s3 = tasks s1))
    /\ (keyed_by_id (tasks s1) ->
        forall i t, tasks s1 !! i = Some t ->
          tasks (let (user_message, s2) :=
                   store_message new_message_id msg USER (conv_id c) s1 in
                 match handle_user_request msg true s2 with
                 | (inl e, s3) =>
                     (HTTPException (A:=ChatResponse) 500 "Internal server error", s3)
                 | (inr agent_response, s3) =>
                     let (assistant_message, s4) :=
                       store_message new_message_id agent_response ASSISTANT
                                     (conv_id c) s3 in
                     let (now, s5) := read_clock s4 in
                     (Ok (mkChatResponse (conv_id c) agent_response (isoformat now)), s5)
                 end).2 !! i = Some t).
Proof.
  eexists. split; [reflexivity|].
  rewrite store_message_eq. cbv beta iota zeta.
  match goal with
  | |- context [handle_user_request msg true ?s2] =>
      destruct (confirmed_turn_frame msg s2)
        as (out & s3 & Hrun & Hconv & Hmsg & Hclock & Hticks & Hrows & Hout)
  end.
  rewrite Hrun. cbn [messages conversations tasks clock ticks msg_id] in *.
  destruct out as [e|reply].
  - destruct Hout as (-> & ds & Hds & Hl & -> & Hraise). split.
    + right. exists ds. eexists. split; [reflexivity|].
      split; [exact Hds|]. split; [exact Hl|]. split; [exact Hraise|].
      split; [reflexivity|]. split; reflexivity.
    + intros Hkey i t Hrow. exact Hrow.
  - cbv beta iota zeta. rewrite store_message_eq. cbv beta iota zeta.
    unfold read_clock. cbn [messages conversations tasks clock ticks snd].
    split.
    + left. exists reply. eexists. eexists. exists (ticks s3). eexists.
      split; [reflexivity|]. split; [exact Hout|].
      rewrite Hclock, Hmsg. split; [reflexivity|]. split; [lia|].
      split; [reflexivity|]. split; [exact Hconv|].
      eexists. split; [|rewrite Hrun; reflexivity]. reflexivity.
    + exact Hrows.
Qed.

(** A conversation opened by [store_conversation] is [opened]. *)
Lemma store_conversation_opened (user_id : string) (db db' : Session)
    (c : Conversation) (s1 : Session) :
  store_conversation new_conversation_id ("Conversation with " +:+ user_id)
                     ("Chat session for user " +:+ user_id) db = (c, s1) ->
  conversations db' = conversations s1 ->
  opened user_id db db' (conv_id c)
  /\ messages s1 = messages db /\ clock s1 = clock db /\ tasks s1 = tasks db
  /\ (ticks db <= ticks s1)%nat.
Proof.
  rewrite store_conversation_eq. intros [= <- <-] Hcs.
  split; [|cbn [messages clock tasks ticks]; repeat split; lia].
  match goal with |- opened _ _ _ (conv_id ?c) => exists c end.
  cbn [conv_id conv_title conv_description].
  split; [reflexivity|]. split; [reflexivity|]. split; [reflexivity|].
  split; [apply conversation_id_fresh | exact Hcs].
Qed.

(** X26.  [chat_endpoint] answers with an error in five cases only.  In
    four of them nothing has been stored: 400 "Invalid user_id" for an
    empty user id or one of more than 100 characters, 400 "Message cannot
    be empty" for a message of white space only, and, for a conversation
    id other than 0 that names no stored conversation, 404 "Conversation
    not found" when the id is in the signed 64-bit range and 500
    "Internal server error" when it is not.  In the fifth the resolver
    raises on the message, which has a '#' followed by more than 4300
    digits: the answer is 500 "Internal server error" after the
    conversation has been found or opened and the user's message stored
    in it; no reply is stored and no task is touched. *)
Theorem chat_endpoint_errors (user_id : string) (request : ChatRequest)
    (db db' : Session) (code : Z) (detail : string) :
  chat_endpoint new_conversation_id new_message_id isoformat user_id request db
  = (HTTPException code detail, db') ->
  (db' = db
   /\ ((code = 400 /\ detail = "Invalid user_id"
        /\ (user_id = EmptyString \/ (100 < String.length user_id)%nat))
       \/ (code = 400 /\ detail = "Message cannot be empty"
           /\ strip (req_message request) = EmptyString)
       \/ (exists cid,
             req_conversation_id request = Some cid /\ cid <> 0
             /\ conversations db !! cid = None
             /\ ((in_int64 cid = true
                  /\ code = 404 /\ detail = "Conversation not found")
                 \/ (in_int64 cid = false
                     /\ code = 500 /\ detail = "Internal server error")))))
  \/ (code = 500 /\ detail = "Internal server error"
      /\ (exists ds,
            re_search_hash_digits (lower (req_message request)) = Some ds
            /\ (int_max_str_digits < String.length ds)%nat
            /\ process_request (req_message request)
               = inl (ValueError (digit_limit_message (String.length ds))))
      /\ tasks db' = tasks db
      /\ exists um cid,
           messages db' = <[msg_id um := um]> (messages db)
           /\ messages db !! msg_id um = None
           /\ msg_content um = VStr (req_message request)
           /\ msg_role um = USER
           /\ msg_conversation_id um = VInt cid
           /\ resolved user_id request db db' cid).
Proof.
  unfold chat_endpoint.
  destruct (is_empty user_id || (String.length user_id <? 1)%nat
            || (100 <? String.length user_id)%nat) eqn:Hu.
  { intros [= <- <- <-]. left. split; [reflexivity|]. left.
    apply user_id_check in Hu. auto. }
  destruct (is_empty (strip (req_message request))) eqn:Hm.
  { intros [= <- <- <-]. left. split; [reflexivity|]. right. left.
    apply is_empty_spec in Hm. auto. }
  cbv zeta.
  (* the turn in the conversation [c], chosen in [s1] *)
  assert (Hturn : forall c s1,
             messages s1 = messages db -> tasks s1 = tasks db ->
             (let (user_message, s2) :=
                store_message new_message_id (req_message request) USER (conv_id c) s1 in
              match handle_user_request (req_message request) true s2 with
              | (inl e, s3) => (HTTPException 500 "Internal server error", s3)
              | (inr agent_response, s3) =>
                  let (assistant_message, s4) :=
                    store_message new_message_id agent_response ASSISTANT (conv_id c) s3 in
                  let (now, s5) := read_clock s4 in
                  (Ok (mkChatResponse (conv_id c) agent_response (isoformat now)), s5)
              end) = (HTTPException code detail, db') ->
             code = 500 /\ detail = "Internal server error"
             /\ (exists ds,
                   re_search_hash_digits (lower (req_message request)) = Some ds
                   /\ (int_max_str_digits < String.length ds)%nat
                   /\ process_request (req_message request)
                      = inl (ValueError (digit_limit_message (String.length ds))))
             /\ tasks db' = tasks db
             /\ conversations db' = conversations s1
             /\ exists um,
                  messages db' = <[msg_id um := um]> (messages db)
                  /\ messages db !! msg_id um = None
                  /\ msg_content um = VStr (req_message request)
                  /\ msg_role um = USER
                  /\ msg_conversation_id um = VInt (conv_id c)).
  { intros c s1 Hms Hts Hrun.
    destruct (turn_stored (req_message request) c s1)
      as (um & Hum & [(reply & am & s5 & j & now & Hok & _)
                     |(ds & s3 & Hfail & Hds & Hl & Hraise & Hmsgs & Hcs & Htasks)] & _).
    { rewrite Hok in Hrun. discriminate Hrun. }
    rewrite Hfail in Hrun. injection Hrun as <- <- <-.
    split; [reflexivity|]. split; [reflexivity|]. split; [eauto|].
    split; [congruence|]. split; [exact Hcs|].
    exists um. rewrite Hmsgs, Hms. split; [reflexivity|].
    split; [subst um; cbn [msg_id]; rewrite Hms; apply message_id_fresh|].
    subst um. auto. }
  assert (Hopen :
            (let (conversation, s1) :=
               store_conversation new_conversation_id ("Conversation with " +:+ user_id)
                                  ("Chat session for user " +:+ user_id) db in
             let (user_message, s2) :=
               store_message new_message_id (req_message request) USER
                             (conv_id conversation) s1 in
             match handle_user_request (req_message request) true s2 with
             | (inl e, s3) => (HTTPException 500 "Internal server error", s3)
             | (inr agent_response, s3) =>
                 let (assistant_message, s4) :=
                   store_message new_message_id agent_response ASSISTANT
                                 (conv_id conversation) s3 in
                 let (now, s5) := read_clock s4 in
                 (Ok (mkChatResponse (conv_id conversation) agent_response
                                     (isoformat now)), s5)
             end) = (HTTPException code detail, db') ->
            code = 500 /\ detail = "Internal server error"
            /\ (exists ds,
                  re_search_hash_digits (lower (req_message request)) = Some ds
                  /\ (int_max_str_digits < String.length ds)%nat
                  /\ process_request (req_message request)
                     = inl (ValueError (digit_limit_message (String.length ds))))
            /\ tasks db' = tasks db
            /\ exists um cid,
                 messages db' = <[msg_id um := um]> (messages db)
                 /\ messages db !! msg_id um = None
                 /\ msg_content um = VStr (req_message request)
                 /\ msg_role um = USER
                 /\ msg_conversation_id um = VInt cid
                 /\ opened user_id db db' cid).
  { destruct (store_conversation new_conversation_id ("Conversation with " +:+ user_id)
                                  ("Chat session for user " +:+ user_id) db)
      as [c s1] eqn:Hsc.
    intros Hrun.
    assert (Hs1 : messages s1 = messages db /\ tasks s1 = tasks db).
    { rewrite store_conversation_eq in Hsc. injection Hsc as _ <-. auto. }
    destruct (Hturn c s1 (proj1 Hs1) (proj2 Hs1) Hrun)
      as (Hc & Hd & Hres & Hts & Hcs & um & Hms & Hfresh & H1 & H2 & H3).
    split; [exact Hc|]. split; [exact Hd|]. split; [exact Hres|]. split; [exact Hts|].
    exists um, (conv_id c). repeat (split; [assumption|]).
    apply (store_conversation_opened user_id db db' c s1 Hsc Hcs). }
  destruct (req_conversation_id request) as [cid|] eqn:Hreq.
  - destruct (cid =? 0) eqn:Hz; cbn [negb].
    + intros Hrun. right. unfold resolved. rewrite Hreq, Hz. exact (Hopen Hrun).
    + cbn [find_row]. destruct (conversations db !! cid) as [c|] eqn:Hc.
      * intros Hrun. right.
        destruct (Hturn c db eq_refl eq_refl Hrun)
          as (Hcode & Hd & Hres & Hts & Hcs & um & Hms & Hfresh & H1 & H2 & H3).
        split; [exact Hcode|]. split; [exact Hd|]. split; [exact Hres|].
        split; [exact Hts|].
        exists um, (conv_id c). repeat (split; [assumption|]).
        unfold resolved. rewrite Hreq, Hz. split; [eauto | exact Hcs].
      * apply Z.eqb_neq in Hz.
        destruct (in_int64 cid) eqn:Hi; intros [= <- <- <-];
          left; (split; [reflexivity|]); do 2 right; exists cid;
          (split; [reflexivity|]); (split; [exact Hz|]); (split; [exact Hc|]);
          [left | right]; auto.
  - intros Hrun. right. unfold resolved. rewrite Hreq. exact (Hopen Hrun).
Qed.

(** X27.  A request with a valid user id, a message that is not blank
    and on which the resolver returns (as it does on every message of at
    most 4300 characters), and a conversation id that is absent, 0 or
    stored is answered 200.  The answer carries the reply of
    [handle_user_request] with [confirm_actions] at its default; exactly
    two messages are added under new keys, the user's text with role USER
    and then the reply with role ASSISTANT, both in the conversation of
    the answer, the user's with the earlier reading of the clock; and
    that conversation is the stored one the request names, or one opened
    for the user when the request names none or names 0. *)
Theorem chat_endpoint_stores_turn (user_id : string) (request : ChatRequest)
    (db : Session) :
  user_id <> EmptyString -> (String.length user_id <= 100)%nat ->
  strip (req_message request) <> EmptyString ->
  (exists r, process_request (req_message request) = inr r) ->
  (forall cid, req_conversation_id request = Some cid ->
               cid = 0 \/ is_Some (conversations db !! cid)) ->
  exists resp db' um am,
    chat_endpoint new_conversation_id new_message_id isoformat user_id request db
    = (Ok resp, db')
    /\ messages db' = <[msg_id am := am]> (<[msg_id um := um]> (messages db))
    /\ messages db !! msg_id um = None
    /\ messages db !! msg_id am = None
    /\ msg_id um <> msg_id am
    /\ msg_content um = VStr (req_message request)
    /\ msg_role um = USER
    /\ msg_conversation_id um = VInt (resp_conversation_id resp)
    /\ msg_content am = VStr (resp_response resp)
    /\ msg_role am = ASSISTANT
    /\ msg_conversation_id am = VInt (resp_conversation_id resp)
    /\ (exists i j, (i < j)%nat /\ msg_timestamp um = clock db i
                    /\ msg_timestamp am = clock db j)
    /\ (exists s, tasks s = tasks db
                  /\ (handle_user_request (req_message request) true s).1
                     = inr (resp_response resp))
    /\ resolved user_id request db db' (resp_conversation_id resp).
Proof.
  intros Hne Hlen Hmsg [r Hr] Hconv.
  assert (Hu : is_empty user_id || (String.length user_id <? 1)%nat
               || (100 <? String.length user_id)%nat = false).
  { apply not_true_is_false. rewrite user_id_check. intros [H|H]; [auto | lia]. }
  assert (Hm : is_empty (strip (req_message request)) = false).
  { apply not_true_is_false. rewrite is_empty_spec. exact Hmsg. }
  (* what follows the choice of the conversation [c], made in [s1] *)
  assert (Hturn : forall c s1 i0,
             messages s1 = messages db -> clock s1 = clock db -> tasks s1 = tasks db ->
             ticks s1 = i0 ->
             exists resp db' um am,
               (let (user_message, s2) :=
                  store_message new_message_id (req_message request) USER (conv_id c) s1 in
                match handle_user_request (req_message request) true s2 with
                | (inl e, s3) => (HTTPException 500 "Internal server error", s3)
                | (inr agent_response, s3) =>
                    let (assistant_message, s4) :=
                      store_message new_message_id agent_response ASSISTANT
                                    (conv_id c) s3 in
                    let (now, s5) := read_clock s4 in
                    (Ok (mkChatResponse (conv_id c) agent_response (isoformat now)), s5)
                end) = (Ok resp, db')
               /\ resp_conversation_id resp = conv_id c
               /\ conversations db' = conversations s1
               /\ messages db' = <[msg_id am := am]> (<[msg_id um := um]> (messages db))
               /\ messages db !! msg_id um = None
               /\ messages db !! msg_id am = None
               /\ msg_id um <> msg_id am
               /\ msg_content um = VStr (req_message request)
               /\ msg_role um = USER
               /\ msg_conversation_id um = VInt (resp_conversation_id resp)
               /\ msg_content am = VStr (resp_response resp)
               /\ msg_role am = ASSISTANT
               /\ msg_conversation_id am = VInt (resp_conversation_id resp)
               /\ (exists i j, (i < j)%nat /\ msg_timestamp um = clock db i
                               /\ msg_timestamp am = clock db j)
               /\ (exists s, tasks s = tasks db
                             /\ (handle_user_request (req_message request) true s).1
                                = inr (resp_response resp))).
  { intros c s1 i0 Hms Hck Hts _.
    destruct (turn_stored (req_message request) c s1)
      as (um & Hum & [(reply & am & s5 & j & now & Hrun & _ & Ham & Hj & Hmsgs & Hcs
                       & (s2 & Hs2 & Hreply))
                     |(ds & s3 & _ & _ & _ & Hraise & _)] & _);
      [|rewrite Hr in Hraise; discriminate Hraise].
    exists (mkChatResponse (conv_id c) reply (isoformat now)), s5, um, am.
    rewrite Hms, Hck in *.
    assert (Hidu : msg_id um = new_message_id (messages db)) by (subst um; reflexivity).
    assert (Hida : msg_id am = new_message_id (<[msg_id um := um]> (messages db)))
      by (subst am; reflexivity).
    pose proof (message_id_fresh (<[msg_id um := um]> (messages db))) as Hfresh.
    rewrite <- Hida in Hfresh. apply lookup_insert_None in Hfresh as [Hfa Hua].
    split; [exact Hrun|]. split; [reflexivity|]. split; [exact Hcs|].
    split; [exact Hmsgs|].
    split; [rewrite Hidu; apply message_id_fresh|].
    split; [exact Hfa|]. split; [exact Hua|].
    split; [subst um; reflexivity|]. split; [subst um; reflexivity|].
    split; [subst um; reflexivity|].
    split; [subst am; reflexivity|]. split; [subst am; reflexivity|].
    split; [subst am; reflexivity|].
    split; [exists (ticks s1), j; subst um am; auto|].
    exists s2. rewrite Hs2, Hts. auto. }
  assert (Hopen : exists resp db' um am,
             (let (conversation, s1) :=
                store_conversation new_conversation_id ("Conversation with " +:+ user_id)
                                   ("Chat session for user " +:+ user_id) db in
              let (user_message, s2) :=
                store_message new_message_id (req_message request) USER
                              (conv_id conversation) s1 in
              match handle_user_request (req_message request) true s2 with
              | (inl e, s3) => (HTTPException 500 "Internal server error", s3)
              | (inr agent_response, s3) =>
                  let (assistant_message, s4) :=
                    store_message new_message_id agent_response ASSISTANT
                                  (conv_id conversation) s3 in
                  let (now, s5) := read_clock s4 in
                  (Ok (mkChatResponse (conv_id conversation) agent_response
                                      (isoformat now)), s5)
              end) = (Ok resp, db')
             /\ messages db' = <[msg_id am := am]> (<[msg_id um := um]> (messages db))
             /\ messages db !! msg_id um = None
             /\ messages db !! msg_id am = None
             /\ msg_id um <> msg_id am
             /\ msg_content um = VStr (req_message request)
             /\ msg_role um = USER
             /\ msg_conversation_id um = VInt (resp_conversation_id resp)
             /\ msg_content am = VStr (resp_response resp)
             /\ msg_role am = ASSISTANT
             /\ msg_conversation_id am = VInt (resp_conversation_id resp)
             /\ (exists i j, (i < j)%nat /\ msg_timestamp um = clock db i
                             /\ msg_timestamp am = clock db j)
             /\ (exists s, tasks s = tasks db
                           /\ (handle_user_request (req_message request) true s).1
                              = inr (resp_response resp))
             /\ opened user_id db db' (resp_conversation_id resp)).
  { destruct (store_conversation new_conversation_id ("Conversation with " +:+ user_id)
                                  ("Chat session for user " +:+ user_id) db)
      as [c s1] eqn:Hsc.
    pose proof Hsc as Hsc'.
    rewrite store_conversation_eq in Hsc. injection Hsc as Hc Hs1.
    destruct (Hturn c s1 (ticks s1)) as (resp & db' & um & am & Hrun & Hid & Hcs & Hrest);
      try (rewrite <- Hs1; reflexivity).
    exists resp, db', um, am. split; [exact Hrun|].
    repeat (destruct Hrest as [? Hrest]; split; [assumption|]).
    split; [exact Hrest|].
    rewrite Hid. apply (store_conversation_opened user_id db db' c s1 Hsc' Hcs). }
  unfold chat_endpoint, resolved. rewrite Hu, Hm. cbv zeta.
  destruct (req_conversation_id request) as [cid|] eqn:Hreq; [|exact Hopen].
  destruct (cid =? 0) eqn:Hz; cbn [negb]; [exact Hopen|].
  destruct (Hconv cid eq_refl) as [->|[c Hc]]; [discriminate Hz|].
  rewrite (find_row_found _ _ _ _ Hc).
  destruct (Hturn c db (ticks db) eq_refl eq_refl eq_refl eq_refl)
    as (resp & db' & um & am & Hrun & Hid & Hcs & Hrest).
  exists resp, db', um, am. split; [exact Hrun|].
  repeat (destruct Hrest as [? Hrest]; split; [assumption|]).
  split; [exact Hrest|]. split; [eauto | exact Hcs].
Qed.

(** X28.  Whatever the request, [chat_endpoint] neither changes nor
    removes a stored task: it calls the agent with [confirm_actions] at
    its default, so an update or a delete is answered with the prompt,
    and no later message can confirm it. *)
Theorem chat_endpoint_keeps_tasks (user_id : string) (request : ChatRequest)
    (db : Session) (i : Z) (t : Task) :
  keyed_by_id (tasks db) ->
  tasks db !! i = Some t ->
  tasks (chat_endpoint new_conversation_id new_message_id isoformat
                       user_id request db).2 !! i = Some t.
Proof.
  intros Hkey Hrow. unfold chat_endpoint.
  destruct (is_empty user_id || _ || _); [exact Hrow|].
  destruct (is_empty (strip (req_message request))); [exact Hrow|].
  cbv zeta.
  assert (Hturn : forall c s1, tasks s1 = tasks db ->
             tasks
               (let (user_message, s2) :=
                  store_message new_message_id (req_message request) USER (conv_id c) s1 in
                match handle_user_request (req_message request) true s2 with
                | (inl e, s3) =>
                    (HTTPException (A:=ChatResponse) 500 "Internal server error", s3)
                | (inr agent_response, s3) =>
                    let (assistant_message, s4) :=
                      store_message new_message_id agent_response ASSISTANT
                                    (conv_id c) s3 in
                    let (now, s5) := read_clock s4 in
                    (Ok (mkChatResponse (conv_id c) agent_response (isoformat now)), s5)
                end).2 !! i = Some t).
  { intros c s1 Hts.
    destruct (turn_stored (req_message request) c s1) as (um & _ & _ & Hrows).
    apply Hrows; rewrite Hts; assumption. }
  destruct (req_conversation_id request) as [cid|].
  - destruct (cid =? 0); cbn [negb].
    + rewrite store_conversation_eq. apply Hturn. reflexivity.
    + cbn [find_row]. destruct (conversations db !! cid) as [c|].
      * apply Hturn. reflexivity.
      * destruct (in_int64 cid); exact Hrow.
  - rewrite store_conversation_eq. apply Hturn. reflexivity.
Qed.

(** X29.  [GET /api/conversations/{id}] answers with an error exactly
    when no conversation is stored under the id: 404 "Conversation not
    found" when the id is in the signed 64-bit range, 500 "Internal
    server error" when it is not.  Otherwise it answers with that
    conversation and with its messages: the stored messages whose
    [conversation_id] is the id, or a text the database reads as the id,
    each once, in the order of their timestamps. *)
Theorem conversation_log (conversation_id : Z) (db : Session) :
  match get_conversation isoformat conversation_id db with
  | HTTPException code detail =>
      conversations db !! conversation_id = None
      /\ ((in_int64 conversation_id = true
           /\ code = 404 /\ detail = "Conversation not found")
          \/ (in_int64 conversation_id = false
              /\ code = 500 /\ detail = "Internal server error"))
  | Ok body =>
      exists c ms,
        conversations db !! conversation_id = Some c
        /\ (cj_id body, cj_title body, cj_description body)
           = (conv_id c, conv_title c, conv_description c)
        /\ cj_messages body = map (message_json isoformat) ms
        /\ Sorted by_timestamp ms
        /\ ms ≡ₚ List.filter (in_conversation (text_key db) conversation_id)
                             (rows (messages db))
        /\ (forall m, In m ms <->
                      (exists k, messages db !! k = Some m)
                      /\ (msg_conversation_id m = VInt conversation_id
                          \/ exists x, msg_conversation_id m = VStr x
                                       /\ text_key db x = Some conversation_id))
  end.
Proof.
  unfold get_conversation. cbn [find_row].
  destruct (conversations db !! conversation_id) as [c|].
  2: { destruct (in_int64 conversation_id); auto 6. }
  exists c. eexists. split; [reflexivity|]. split; [reflexivity|].
  split; [reflexivity|].
  assert (Htotal : Total by_timestamp).
  { intros a b. unfold by_timestamp. lia. }
  split; [apply (Sorted_merge_sort by_timestamp)|].
  split; [apply merge_sort_Permutation|].
  intros m. rewrite <- list_elem_of_In, merge_sort_Permutation, list_elem_of_In.
  rewrite filter_In, elem_of_rows. unfold in_conversation.
  split.
  - intros [Hk Hc]. split; [exact Hk|].
    destruct (msg_conversation_id m) as [|x|x]; try discriminate.
    + apply Z.eqb_eq in Hc. left. now subst x.
    + right. exists x. split; [reflexivity|].
      destruct (text_key db x) as [y|]; [|discriminate].
      apply Z.eqb_eq in Hc. now subst y.
  - intros [Hk [->|(x & -> & ->)]]; (split; [exact Hk | apply Z.eqb_refl]).
Qed.

(** X30.  [GET /api/tasks] answers 400 "Invalid status: <status>"
    exactly for a status that is not empty and is none of the four values
    of [TaskStatus].  Otherwise it lists stored tasks and nothing else:
    all of them without a status or with an empty one, and those of the
    given status else. *)
Theorem get_tasks_answers (status : option string) (db : Session) :
  match get_tasks isoformat status db with
  | HTTPException code detail =>
      exists st, status = Some st /\ st <> EmptyString /\ ~ In st status_values
                 /\ code = 400 /\ detail = "Invalid status: " +:+ st
  | Ok body =>
      (forall st, status = Some st -> st = EmptyString \/ In st status_values)
      /\ exists ts,
           body = map (task_json isoformat) ts
           /\ (length ts <= size (tasks db))%nat
           /\ forall t, In t ts <->
                        (exists k, tasks db !! k = Some t)
                        /\ (forall st, status = Some st -> st <> EmptyString ->
                                       TaskStatus_value (task_status t) = st)
  end.
Proof.
  assert (Hall : forall t, In t (rows (tasks db)) <->
                           (exists k, tasks db !! k = Some t)).
  { intros t. apply elem_of_rows. }
  unfold get_tasks. destruct status as [st|].
  - destruct st as [|c st']; cbn [is_empty negb].
    + split; [intros st [= <-]; auto|]. eexists. split; [reflexivity|].
      split; [rewrite length_rows; lia|]. intros t. rewrite Hall.
      split; [intros H; split; [exact H|]; intros st [= <-] Hst; now destruct Hst | tauto].
    + destruct (TaskStatus_of (VStr (String c st'))) as [e|status_enum] eqn:E.
      * exists (String c st'). split; [reflexivity|]. split; [discriminate|].
        split; [|auto].
        intros Hin. simpl in Hin.
        destruct Hin as [Hin|[Hin|[Hin|[Hin|[]]]]]; rewrite <- Hin in E; discriminate E.
      * apply TaskStatus_of_inv in E. injection E as E.
        split. { intros st [= <-]. right. rewrite E. destruct status_enum; simpl; auto. }
        eexists. split; [reflexivity|]. split.
        { etransitivity; [apply filter_length_le|]. rewrite length_rows. lia. }
        intros t. rewrite filter_In, Hall, status_is_spec. split.
        -- intros [Hk Hst]. split; [exact Hk|]. intros st [= <-] _.
           rewrite Hst. symmetry. exact E.
        -- intros [Hk Hst]. split; [exact Hk|].
           specialize (Hst _ eq_refl ltac:(discriminate)).
           rewrite E in Hst. destruct (task_status t), status_enum; simpl in Hst;
             first [reflexivity | discriminate Hst].
  - split; [discriminate|]. eexists. split; [reflexivity|].
    split; [rewrite length_rows; lia|]. intros t. rewrite Hall.
    split; [intros H; split; [exact H | discriminate] | tauto].
Qed.

End EndpointFacts.

(** ** The endpoints over a database that numbers its rows like SQLite *)

Section EndpointWitnesses.
Import PyStr Py Models Db MCPTaskManager OpenAIAgent Spec Shapes ChatApi Turn.

(** X26 at a request that names conversation 5 when nothing is stored. *)
Lemma chat_endpoint_errors_witness :
  (empty_session = empty_session
   /\ ((404 = 400 /\ "Conversation not found" = "Invalid user_id"
        /\ ("ann" = EmptyString \/ (100 < String.length "ann")%nat))
       \/ (404 = 400 /\ "Conversation not found" = "Message cannot be empty"
           /\ strip "hello" = EmptyString)
       \/ (exists cid,
             Some 5 = Some cid /\ cid <> 0
             /\ conversations empty_session !! cid = None
             /\ ((in_int64 cid = true
                  /\ 404 = 404 /\ "Conversation not found" = "Conversation not found")
                 \/ (in_int64 cid = false
                     /\ 404 = 500 /\ "Conversation not found" = "Internal server error")))))
  \/ (404 = 500 /\ "Conversation not found" = "Internal server error"
      /\ (exists ds,
            re_search_hash_digits (lower "hello") = Some ds
            /\ (int_max_str_digits < String.length ds)%nat
            /\ process_request "hello"
               = inl (ValueError (digit_limit_message (String.length ds))))
      /\ tasks empty_session = tasks empty_session
      /\ exists um cid,
           messages empty_session = <[msg_id um := um]> (messages empty_session)
           /\ messages empty_session !! msg_id um = None
           /\ msg_content um = VStr "hello"
           /\ msg_role um = USER
           /\ msg_conversation_id um = VInt cid
           /\ resolved "ann" (mkChatRequest "hello" (Some 5))
                       empty_session empty_session cid).
Proof.
  exact (chat_endpoint_errors next_key next_key str_int
           (fun m => next_key_fresh m) (fun m => next_key_fresh m) "ann"
           (mkChatRequest "hello" (Some 5)) empty_session empty_session
           404 "Conversation not found" eq_refl).
Defined.

(** X27 at a first message of the user "ann", nothing being stored. *)
Lemma chat_endpoint_stores_turn_witness :
  exists resp db' um am,
    chat_endpoint next_key next_key str_int "ann"
                  (mkChatRequest "Create a task to buy milk" None) empty_session
    = (Ok resp, db')
    /\ messages db' = <[msg_id am := am]> (<[msg_id um := um]> (messages empty_session))
    /\ messages empty_session !! msg_id um = None
    /\ messages empty_session !! msg_id am = None
    /\ msg_id um <> msg_id am
    /\ msg_content um = VStr "Create a task to buy milk"
    /\ msg_role um = USER
    /\ msg_conversation_id um = VInt (resp_conversation_id resp)
    /\ msg_content am = VStr (resp_response resp)
    /\ msg_role am = ASSISTANT
    /\ msg_conversation_id am = VInt (resp_conversation_id resp)
    /\ (exists i j, (i < j)%nat /\ msg_timestamp um = clock empty_session i
                    /\ msg_timestamp am = clock empty_session j)
    /\ (exists s, tasks s = tasks empty_session
                  /\ (handle_user_request "Create a task to buy milk" true s).1
                     = inr (resp_response resp))
    /\ resolved "ann" (mkChatRequest "Create a task to buy milk" None)
                empty_session db' (resp_conversation_id resp).
Proof.
  apply (chat_endpoint_stores_turn next_key next_key str_int
           (fun m => next_key_fresh m) (fun m => next_key_fresh m) "ann"
           (mkChatRequest "Create a task to buy milk" None) empty_session).
  - discriminate.
  - simpl. lia.
  - vm_compute. discriminate.
  - eexists. reflexivity.
  - intros cid H. discriminate H.
Defined.

(** X28 at "Delete task #1" on the sample session. *)
Lemma chat_endpoint_keeps_tasks_witness :
  tasks (chat_endpoint next_key next_key str_int "ann"
                       (mkChatRequest "Delete task #1" None) sample_session).2 !! 1
  = Some sample_task.
Proof.
  apply (chat_endpoint_keeps_tasks next_key next_key str_int "ann"
           (mkChatRequest "Delete task #1" None) sample_session 1 sample_task).
  - intros k t H.
    change (tasks sample_session) with ({[1 := sample_task]} : gmap Z Task) in H.
    apply lookup_singleton_Some in H as [<- <-]. reflexivity.
  - reflexivity.
Defined.

End EndpointWitnesses.
